(** * Inventory service of the BBC inventory application

    A shallow embedding of [services/inventoryService.ts] (the
    [InventoryService] object), of [EmailService] and
    [ExchangeRateService], and of the logic of the [Scanner],
    [InventoryTable] and [SupplierPanel] components and of [App] (the
    matching helper, the handlers of the review screen, the search and
    sort of the tables, the price conversions, the reload after a
    change), together with the properties of the invoice reconciliation
    engine that are stated about them.

    Modelling conventions.
    - JavaScript strings are [string]s, one character per byte.  The
      case folding of [toLowerCase] and of [ILIKE] and the white space
      of [trim] are those of ASCII; on text with other characters the
      program folds and trims more than this model, so the statements
      about names are made for ASCII text ([Text.isAscii]).
    - Quantities, stock thresholds and log amounts are integers ([Z]),
      as JavaScript numbers are up to 2^53.  Prices and exchange rates
      are rationals ([Q]) and the operations of the service on them are
      exact; the rounding of binary64, [Infinity] and [NaN] are
      modelled apart, in [Binary64] and [Rounded], for the price
      conversions.  A division by an exchange rate of zero is outside
      the model: the statements about a price in Bs assume another rate.
      [parseInt] and [parseFloat] answer the number as it is written,
      where JavaScript rounds it to a binary64 number (an integer
      beyond 2^53, a decimal such as 1e-400) and reads [Infinity].
    - The database behind the Supabase client is a record of three tables
      (lists of rows) with an [online] flag: every request to an
      unreachable database answers [{data: null, error}] and changes
      nothing.  A [select] without [order] promises no order of its
      rows; the model answers them in the order of the list, an update
      keeps the place of a row and an insert appends.  What is stated
      about the stored products after an invoice or an import, and about
      which of several matching rows a request answers first, is
      therefore stated up to the order of the rows ([Permutation]) or
      for any row that matches.
    - The pattern of [ilike] folds case, takes [%] and [*] for any text,
      [_] for any character and [\] for an escape.  The filter of
      [or(...)] is a text into which the name and the RIF are spliced:
      with a comma or a parenthesis in one of them the filter is
      malformed and the request answers an error.
    - A plain object used as a map ([categoryTotals]) is an association
      list in insertion order, which is how JavaScript enumerates the
      keys that are neither integers nor names inherited from
      [Object.prototype] ([Js.ordinaryKey]).
    - [new Date().toISOString()] is the parameter [now] of an operation.
    - A thrown exception is the [Throw] constructor of [result]. *)

From Stdlib Require Import String Ascii List ZArith QArith Bool Lia.
From Stdlib Require Import Qabs Qround Qpower Lqa Floats.
From Stdlib Require Import DecimalString.
From Stdlib Require Import Permutation.
Import ListNotations.

Local Open Scope string_scope.
Local Open Scope Z_scope.

(* ================================================================= *)
(** ** JavaScript strings *)

Module Js.

Definition code (c : ascii) : N := N_of_ascii c.

Definition isUpper (c : ascii) : bool :=
  ((65 <=? code c) && (code c <=? 90))%N.

(** [String.prototype.toLowerCase], on ASCII letters. *)
Definition lowerChar (c : ascii) : ascii :=
  if isUpper c then ascii_of_N (code c + 32) else c.

Fixpoint toLowerCase (s : string) : string :=
  match s with
  | EmptyString => EmptyString
  | String c s' => String (lowerChar c) (toLowerCase s')
  end.

(** White space removed by [trim]: TAB, LF, VT, FF, CR and SPACE. *)
Definition isSpace (c : ascii) : bool :=
  ((9 <=? code c) && (code c <=? 13) || (code c =? 32))%N.

Fixpoint trimStart (s : string) : string :=
  match s with
  | EmptyString => EmptyString
  | String c s' => if isSpace c then trimStart s' else s
  end.

Fixpoint trimEnd (s : string) : string :=
  match s with
  | EmptyString => EmptyString
  | String c s' =>
      match trimEnd s' with
      | EmptyString => if isSpace c then EmptyString else String c EmptyString
      | t => String c t
      end
  end.

Definition trim (s : string) : string := trimEnd (trimStart s).

(** [s.includes(sub)]. *)
Fixpoint includes (s sub : string) : bool :=
  prefix sub s ||
  match s with
  | EmptyString => false
  | String _ s' => includes s' sub
  end.

(** [s.split(sep)] for a one-character separator. *)
Fixpoint split (sep : ascii) (s : string) : list string :=
  match s with
  | EmptyString => [EmptyString]
  | String c s' =>
      if Ascii.eqb c sep then EmptyString :: split sep s'
      else match split sep s' with
           | [] => [String c EmptyString]
           | x :: xs => String c x :: xs
           end
  end.

(** Truthiness of a string: every string but the empty one. *)
Definition truthy (s : string) : bool :=
  match s with EmptyString => false | _ => true end.

(** [a || b] on strings. *)
Definition or_else (a b : string) : string := if truthy a then a else b.

(** [a || b] where [a] may be [undefined] or [null]. *)
Definition opt_or_else (a : option string) (b : string) : string :=
  match a with
  | Some s => or_else s b
  | None => b
  end.

(** Template-literal rendering of a non-negative integer. *)
Definition showNat (n : nat) : string :=
  NilZero.string_of_uint (Nat.to_uint n).

(* --------------------------------------------------------------- *)
(** *** [parseInt] and [parseFloat] *)

Definition digitVal (c : ascii) : option Z :=
  if ((48 <=? code c) && (code c <=? 57))%N
  then Some (Z.of_N (code c) - 48) else None.

Definition hexVal (c : ascii) : option Z :=
  match digitVal c with
  | Some d => Some d
  | None =>
      if ((97 <=? code c) && (code c <=? 102))%N
      then Some (Z.of_N (code c) - 87)
      else if ((65 <=? code c) && (code c <=? 70))%N
      then Some (Z.of_N (code c) - 55)
      else None
  end.

(** The longest prefix of digits, most significant first, and what
    follows it. *)
Fixpoint spanDigits (val : ascii -> option Z) (s : string)
  : list Z * string :=
  match s with
  | EmptyString => ([], EmptyString)
  | String c s' =>
      match val c with
      | Some d => let (ds, r) := spanDigits val s' in (d :: ds, r)
      | None => ([], s)
      end
  end.

Definition digitsValue (radix : Z) (ds : list Z) : Z :=
  fold_left (fun acc d => acc * radix + d) ds 0.

(** An optional sign: the factor it stands for and the rest. *)
Definition readSign (s : string) : Z * string :=
  match s with
  | String "-" s' => (-1, s')
  | String "+" s' => (1, s')
  | _ => (1, s)
  end.

(** [parseInt(s)] without a radix; [None] is [NaN].  An argument that
    is [undefined] is the string ["undefined"], which has no digits. *)
Definition parseInt (s : string) : option Z :=
  let (sign, r) := readSign (trimStart s) in
  let (radix, r') :=
    match r with
    | String "0" (String "x" t) => (16, t)
    | String "0" (String "X" t) => (16, t)
    | _ => (10, r)
    end in
  let val := if radix =? 16 then hexVal else digitVal in
  match spanDigits val r' with
  | ([], _) => None
  | (ds, _) => Some (sign * digitsValue radix ds)
  end.

(** The exponent part [e[+-]digits], when it is complete. *)
Definition readExponent (s : string) : Z :=
  match s with
  | String c t =>
      if (Ascii.eqb c "e" || Ascii.eqb c "E")%char then
        let (sign, t') := readSign t in
        match spanDigits digitVal t' with
        | ([], _) => 0
        | (ds, _) => sign * digitsValue 10 ds
        end
      else 0
  | EmptyString => 0
  end.

(** [parseFloat(s)]: the value of the longest prefix that is a decimal
    literal, as an exact rational in lowest terms; [None] is [NaN].  The literal
    [Infinity] has no rational value and also reads as [None]. *)
Definition parseFloat (s : string) : option Q :=
  let (sign, r) := readSign (trimStart s) in
  let (ip, r1) := spanDigits digitVal r in
  let '(fp, r2) :=
    match r1 with
    | String "." t => spanDigits digitVal t
    | _ => ([], r1)
    end in
  match ip, fp with
  | [], [] => None
  | _, _ =>
      let mant := digitsValue 10 (ip ++ fp) in
      let e := readExponent r2 - Z.of_nat (length fp) in
      Some (Qred (inject_Z (sign * mant) * Qpower (inject_Z 10) e))
  end.

(** [parseInt(x) || d]: [NaN] and [0] are falsy. *)
Definition int_or (x : option Z) (d : Z) : Z :=
  match x with
  | Some z => if z =? 0 then d else z
  | None => d
  end.

(** [parseFloat(x) || d]. *)
Definition num_or (x : option Q) (d : Q) : Q :=
  match x with
  | Some q => if Qeq_bool q 0 then d else q
  | None => d
  end.

(** [x > 0] on prices. *)
Definition positive (q : Q) : bool := negb (Qle_bool q 0).

(* --------------------------------------------------------------- *)
(** *** Keys of an object literal *)

(** The properties an object literal inherits from [Object.prototype]. *)
Definition inheritedKeys : list string :=
  ["__proto__"; "constructor"; "hasOwnProperty"; "isPrototypeOf";
   "propertyIsEnumerable"; "toLocaleString"; "toString"; "valueOf";
   "__defineGetter__"; "__defineSetter__"; "__lookupGetter__";
   "__lookupSetter__"].

Fixpoint allDigits (s : string) : bool :=
  match s with
  | EmptyString => true
  | String c s' =>
      match digitVal c with
      | Some _ => allDigits s'
      | None => false
      end
  end.

(** A key on which an object literal [{}] is a plain table: reading it
    before it was written gives [undefined], and the keys come back in
    the order in which they were first written.  That leaves out the
    inherited properties and the keys made of digits only, which may be
    array indices and are listed before the other keys. *)
Definition ordinaryKey (key : string) : bool :=
  negb (existsb (String.eqb key) inheritedKeys) && negb (allDigits key).

(* --------------------------------------------------------------- *)
(** *** [Array.prototype.sort] *)

(** [x] put into the sorted list [l], before the first element it does
    not come after. *)
Fixpoint insertSorted {A : Type} (compare : A -> A -> Z) (x : A)
  (l : list A) : list A :=
  match l with
  | [] => [x]
  | y :: l' =>
      if compare x y <=? 0 then x :: l else y :: insertSorted compare x l'
  end.

(** [l.sort(compare)]: the sort is stable, and [compare a b < 0] puts
    [a] before [b]. *)
Definition sort {A : Type} (compare : A -> A -> Z) (l : list A) : list A :=
  fold_right (insertSorted compare) [] l.

End Js.

(* ================================================================= *)
(** ** JavaScript numbers

    A JavaScript number is an IEEE 754 binary64 value.  The finite ones
    are rationals; an arithmetic operation yields the rational result
    rounded to the nearest representable value (ties to the even
    significand), [Infinity] when that exceeds the largest finite
    value, and [NaN] or [Infinity] on a division by zero.  [None]
    stands for a result that is not a finite number; the sign of zero is
    not told apart. *)

Module Binary64.

Definition pow2 (e : Z) : Q := Qpower 2 e.

(** [Number.MAX_VALUE], (2^53 - 1) * 2^971. *)
Definition maxValue : Q := inject_Z ((2 ^ 53 - 1) * 2 ^ 971).

(** The exponent of the last digit of the subnormal numbers. *)
Definition emin : Z := -1074.

(** The exponent [k] with [2^k <= |x| < 2^(k+1)], for [x] not zero. *)
Definition ilog2 (x : Q) : Z :=
  let k := Z.log2 (Z.abs (Qnum x)) - Z.log2 (Zpos (Qden x)) in
  if Qle_bool (pow2 k) (Qabs x) then k else k - 1.

(** The exponent of the last of the 53 digits of the significand. *)
Definition lastDigit (x : Q) : Z := Z.max emin (ilog2 x - 52).

(** The nearest integer, the even one of two at the same distance. *)
Definition nearestEven (q : Q) : Z :=
  let f := Qfloor q in
  match Qcompare (q - inject_Z f) (1 # 2) with
  | Lt => f
  | Gt => f + 1
  | Eq => if Z.even f then f else f + 1
  end.

Definition round (x : Q) : option Q :=
  if Qeq_bool x 0 then Some 0%Q
  else
    let e := lastDigit x in
    let y := Qred (inject_Z (nearestEven (x / pow2 e)) * pow2 e) in
    if Qle_bool (Qabs y) maxValue then Some y else None.

(** [a / b] *)
Definition div (a b : Q) : option Q :=
  if Qeq_bool b 0 then None else round (a / b).

(** [a * b] *)
Definition mul (a b : Q) : option Q := round (a * b).

(** The value of a machine float, to compare the operations above with
    those of the hardware. *)
Definition ofFloat (f : float) : option Q :=
  match Prim2SF f with
  | S754_zero _ => Some 0%Q
  | S754_finite s m e =>
      Some (Qred ((if s then -1 else 1) * inject_Z (Zpos m) * pow2 e))
  | _ => None
  end.

End Binary64.

(* ================================================================= *)
(** ** The database

    The tables [products], [suppliers] and [activity_logs] and the
    requests the service sends to them. *)

Inductive result (A : Type) : Type :=
| Ok (a : A)
| Throw (msg : string).

Arguments Ok {A} a.
Arguments Throw {A} msg.

Module ProductRow.
Record t := mk {
  id : string;
  name : string;
  quantity : Z;
  min_stock : Z;
  price : Q;
  category : string;
  last_updated : string;
  supplier_id : option string
}.
End ProductRow.

Module SupplierRow.
Record t := mk {
  id : string;
  name : string;
  rif : string;
  created_at : string
}.
End SupplierRow.

Module LogRow.
Record t := mk {
  id : string;
  type : string;
  description : string;
  amount : Z;
  date : string
}.
End LogRow.

Module Db.

Record t := mk {
  online : bool;
  products : list ProductRow.t;
  suppliers : list SupplierRow.t;
  activity_logs : list LogRow.t;
  next_id : nat
}.

(** The identifier the database gives to the next inserted row. *)
Definition fresh_id (db : t) : string := "id-" ++ Js.showNat (next_id db).

(* --------------------------------------------------------------- *)
(** *** The [ilike] filter

    SQL [ILIKE]: the whole value against the pattern, letters compared
    without case; [%] stands for any run of characters, [_] for any one
    character, and a backslash takes the next pattern character
    literally.  A request may write [*] for [%]: the server replaces
    every [*] of the pattern before it matches. *)

Fixpoint like (pat s : string) {struct pat} : bool :=
  match pat with
  | EmptyString => match s with EmptyString => true | _ => false end
  | String p pat' =>
      if Ascii.eqb p "%" then
        (fix any (s : string) : bool :=
           like pat' s ||
           match s with
           | EmptyString => false
           | String _ s' => any s'
           end) s
      else if Ascii.eqb p "_" then
        match s with
        | EmptyString => false
        | String _ s' => like pat' s'
        end
      else if Ascii.eqb p "\" then
        match pat', s with
        | String q pat'', String c s' => Ascii.eqb q c && like pat'' s'
        | _, _ => false
        end
      else
        match s with
        | EmptyString => false
        | String c s' => Ascii.eqb p c && like pat' s'
        end
  end.

(** [*] written for [%]. *)
Fixpoint stars (pattern : string) : string :=
  match pattern with
  | EmptyString => EmptyString
  | String c pattern' =>
      String (if Ascii.eqb c "*" then "%"%char else c) (stars pattern')
  end.

Definition ilike (value pattern : string) : bool :=
  like (Js.toLowerCase (stars pattern)) (Js.toLowerCase value).

(** The characters that separate the conditions of an [or(...)] filter.
    The service writes the values into the filter as they are, so a
    value that holds one of them gives a request the server cannot
    read. *)
Definition isSeparator (c : ascii) : bool :=
  (Ascii.eqb c "," || Ascii.eqb c "(" || Ascii.eqb c ")")%char.

Fixpoint spliceable (value : string) : bool :=
  match value with
  | EmptyString => true
  | String c value' => negb (isSeparator c) && spliceable value'
  end.

(** [.single()]: the row when the request selects exactly one. *)
Definition single {A : Type} (rows : list A) : option A :=
  match rows with
  | [r] => Some r
  | _ => None
  end.

(* --------------------------------------------------------------- *)
(** *** Requests; [None] is the answer [{data: null, error}] *)

(** [from('products').select('*')] *)
Definition select_products (db : t) : option (list ProductRow.t) :=
  if online db then Some (products db) else None.

(** [from('products').select('*').ilike('name', pattern)] *)
Definition select_products_ilike (pattern : string) (db : t)
  : option (list ProductRow.t) :=
  if online db
  then Some (filter (fun r => ilike (ProductRow.name r) pattern) (products db))
  else None.

(** [from('products').select('*').eq('id', id).single()] *)
Definition select_product_by_id (id : string) (db : t)
  : option ProductRow.t :=
  if online db
  then single (filter (fun r => String.eqb (ProductRow.id r) id) (products db))
  else None.

(** [from('products').update(...).eq('id', id)]: [upd] is applied to
    every row with that id; the answer is [true] on success. *)
Definition update_products (upd : ProductRow.t -> ProductRow.t)
  (id : string) (db : t) : t * bool :=
  if online db
  then (mk true
          (map (fun r => if String.eqb (ProductRow.id r) id then upd r else r)
               (products db))
          (suppliers db) (activity_logs db) (next_id db),
        true)
  else (db, false).

(** [from('products').insert(...)]: [row] is given the next id. *)
Definition insert_product (row : string -> ProductRow.t) (db : t) : t :=
  if online db
  then mk true (products db ++ [row (fresh_id db)])
          (suppliers db) (activity_logs db) (S (next_id db))
  else db.

(** [from('suppliers').select('*')] *)
Definition select_suppliers (db : t) : option (list SupplierRow.t) :=
  if online db then Some (suppliers db) else None.

(** [from('suppliers').select('*').or(`rif.eq.${rif},name.ilike.${name}`).single()].
    A [rif] or [name] that holds a separator of the filter syntax makes
    the request fail, and a failed request answers no row. *)
Definition select_supplier_rif_or_name (rif name : string) (db : t)
  : option SupplierRow.t :=
  if online db
  then if spliceable rif && spliceable name
       then single (filter (fun r => String.eqb (SupplierRow.rif r) rif
                                     || ilike (SupplierRow.name r) name)
                           (suppliers db))
       else None
  else None.

(** [from('suppliers').insert([{name, rif}]).select().single()]: the
    stored row, whose [created_at] the database sets. *)
Definition insert_supplier (name rif now : string) (db : t)
  : t * option SupplierRow.t :=
  if online db
  then let row := SupplierRow.mk (fresh_id db) name rif now in
       (mk true (products db) (suppliers db ++ [row])
           (activity_logs db) (S (next_id db)),
        Some row)
  else (db, None).

(** [from('activity_logs').insert(...)] *)
Definition insert_log (row : string -> LogRow.t) (db : t) : t :=
  if online db
  then mk true (products db) (suppliers db)
          (activity_logs db ++ [row (fresh_id db)]) (S (next_id db))
  else db.

End Db.

(* ================================================================= *)
(** ** The types of [types.ts] *)

Module Product.
Record t := mk {
  id : string;
  name : string;
  quantity : Z;
  minStock : Z;
  price : Q;
  category : string;
  lastUpdated : string;
  supplierId : option string
}.
End Product.

(** [Partial<Product>]: every field may be absent. *)
Module PartialProduct.
Record t := mk {
  id : option string;
  name : option string;
  quantity : option Z;
  minStock : option Z;
  price : option Q;
  category : option string;
  lastUpdated : option string;
  supplierId : option string
}.
End PartialProduct.

Module Supplier.
Record t := mk {
  id : string;
  name : string;
  rif : string;
  firstSeen : string
}.
End Supplier.

Module InvoiceItem.
Record t := mk {
  productName : string;
  quantity : Z;
  price : Q;
  confidence : option Q;
  originalQuantity : option Z;
  detectedPackSize : option Z;
  category : option string
}.
End InvoiceItem.

(** The [supplierInfo] argument of [updateStock]. *)
Module SupplierInfo.
Record t := mk {
  name : string;
  rif : string
}.
End SupplierInfo.

Module InvoiceData.
Record t := mk {
  items : list InvoiceItem.t;
  supplier : option SupplierInfo.t;
  currency : option string
}.
End InvoiceData.

Module User.
Record t := mk {
  firstName : string;
  lastName : string;
  email : string
}.
End User.

(** [AppView] *)
Inductive AppView : Type := DASHBOARD | INVENTORY | SCANNER | SUPPLIERS | HISTORY.

(** ['USD' | 'Bs'] *)
Inductive Currency : Type := USD | Bs.

(* ================================================================= *)
(** ** [InventoryService] *)

Module InventoryService.

Definition toProduct (item : ProductRow.t) : Product.t :=
  Product.mk (ProductRow.id item) (ProductRow.name item)
    (ProductRow.quantity item) (ProductRow.min_stock item)
    (ProductRow.price item) (ProductRow.category item)
    (ProductRow.last_updated item) (ProductRow.supplier_id item).

Definition toSupplier (s : SupplierRow.t) : Supplier.t :=
  Supplier.mk (SupplierRow.id s) (SupplierRow.name s)
    (SupplierRow.rif s) (SupplierRow.created_at s).

Definition getAll (db : Db.t) : result (list Product.t) :=
  match Db.select_products db with
  | None =>
      Throw "No se pudo conectar con la base de datos. Verifica tu configuración en Supabase."
  | Some data => Ok (map toProduct data)
  end.

Definition logActivity (type description : string) (amount : Z)
  (now : string) (db : Db.t) : Db.t :=
  Db.insert_log (fun id => LogRow.mk id type description amount now) db.

Definition updateProductDetails (id : string) (updates : PartialProduct.t)
  (now : string) (db : Db.t) : Db.t * result (list Product.t) :=
  let dbUpdates (r : ProductRow.t) :=
    ProductRow.mk (ProductRow.id r) (ProductRow.name r)
      (match PartialProduct.quantity updates with
       | Some q => q | None => ProductRow.quantity r end)
      (match PartialProduct.minStock updates with
       | Some m => m | None => ProductRow.min_stock r end)
      (match PartialProduct.price updates with
       | Some p => p | None => ProductRow.price r end)
      (ProductRow.category r) now (ProductRow.supplier_id r) in
  let (db', ok) := Db.update_products dbUpdates id db in
  if ok then (db', getAll db') else (db', Throw "error").

Definition getSuppliers (db : Db.t) : list Supplier.t :=
  match Db.select_suppliers db with
  | None => []
  | Some data => map toSupplier data
  end.

Definition addSupplier (name rif : string) (now : string) (db : Db.t)
  : Db.t * result Supplier.t :=
  match Db.select_supplier_rif_or_name rif name db with
  | Some existing => (db, Ok (toSupplier existing))
  | None =>
      match Db.insert_supplier name rif now db with
      | (db', Some data) => (db', Ok (toSupplier data))
      | (db', None) => (db', Throw "error")
      end
  end.

(** The callback of [items.map] in [resolveInvoiceAliases]. *)
Definition resolveAlias (products : list Product.t) (item : InvoiceItem.t)
  : InvoiceItem.t :=
  match find (fun p => String.eqb
                         (Js.trim (Js.toLowerCase (Product.name p)))
                         (Js.trim (Js.toLowerCase (InvoiceItem.productName item))))
             products with
  | Some existing =>
      InvoiceItem.mk (Product.name existing)
        (InvoiceItem.quantity item) (InvoiceItem.price item)
        (InvoiceItem.confidence item) (InvoiceItem.originalQuantity item)
        (InvoiceItem.detectedPackSize item)
        (if Js.truthy (Product.category existing)
         then Some (Product.category existing)
         else InvoiceItem.category item)
  | None => item
  end.

Definition resolveInvoiceAliases (items : list InvoiceItem.t)
  (supplierName : string) (db : Db.t) : result (list InvoiceItem.t) :=
  match getAll db with
  | Ok products => Ok (map (resolveAlias products) items)
  | Throw _ => Ok items
  end.

(** [invoiceCurrency === 'Bs' ? price / exchangeRate : price] *)
Definition priceInUSD (invoiceCurrency : Currency) (exchangeRate price : Q)
  : Q :=
  match invoiceCurrency with
  | Bs => (price / exchangeRate)%Q
  | USD => price
  end.

(** [supplierId || existing.supplier_id] *)
Definition id_or (a b : option string) : option string :=
  match a with
  | Some s => if Js.truthy s then Some s else b
  | None => b
  end.

(** [supplierInfo?.name || fallback] *)
Definition supplierLabel (supplierInfo : option SupplierInfo.t)
  (fallback : string) : string :=
  match supplierInfo with
  | Some si => Js.or_else (SupplierInfo.name si) fallback
  | None => fallback
  end.

Definition newItemName (newItem : InvoiceItem.t) : string :=
  Js.or_else (InvoiceItem.productName newItem) "Producto Desconocido".

(** The first row of the answer to the search by name, if any. *)
Definition findExisting (name : string) (db : Db.t) : option ProductRow.t :=
  match Db.select_products_ilike name db with
  | Some (first :: _) => Some first
  | _ => None
  end.

(** The body of the loop over the items in [updateStock]. *)
Definition updateStock_item (supplierId : option string)
  (supplierInfo : option SupplierInfo.t) (invoiceCurrency : Currency)
  (exchangeRate : Q) (now : string) (db : Db.t) (newItem : InvoiceItem.t)
  : Db.t :=
  let name := newItemName newItem in
  let price := priceInUSD invoiceCurrency exchangeRate (InvoiceItem.price newItem) in
  match findExisting name db with
  | Some existing =>
      let newQuantity := ProductRow.quantity existing + InvoiceItem.quantity newItem in
      let db1 :=
        fst (Db.update_products
               (fun r => ProductRow.mk (ProductRow.id r) (ProductRow.name r)
                           newQuantity (ProductRow.min_stock r) price
                           (ProductRow.category r) now
                           (id_or supplierId (ProductRow.supplier_id existing)))
               (ProductRow.id existing) db) in
      logActivity "IN"
        ("Factura " ++ supplierLabel supplierInfo "" ++ ": " ++ name)
        (InvoiceItem.quantity newItem) now db1
  | None =>
      let db1 :=
        Db.insert_product
          (fun id => ProductRow.mk id name (InvoiceItem.quantity newItem) 10
                       price
                       (Js.opt_or_else (InvoiceItem.category newItem) "General")
                       now supplierId)
          db in
      logActivity "IN"
        ("Nuevo (" ++ supplierLabel supplierInfo "Manual" ++ "): " ++ name)
        (InvoiceItem.quantity newItem) now db1
  end.

Definition updateStock (items : list InvoiceItem.t)
  (supplierInfo : option SupplierInfo.t) (invoiceCurrency : Currency)
  (exchangeRate : Q) (now : string) (db : Db.t)
  : Db.t * result (list Product.t) :=
  let registered :=
    match supplierInfo with
    | Some si =>
        if Js.truthy (SupplierInfo.name si) then
          match addSupplier (SupplierInfo.name si)
                  (Js.or_else (SupplierInfo.rif si) "N/A") now db with
          | (db', Ok supplier) => (db', Ok (Some (Supplier.id supplier)))
          | (db', Throw e) => (db', Throw e)
          end
        else (db, Ok None)
    | None => (db, Ok None)
    end in
  match registered with
  | (db', Throw e) => (db', Throw e)
  | (db', Ok supplierId) =>
      let db'' :=
        fold_left (updateStock_item supplierId supplierInfo invoiceCurrency
                     exchangeRate now) items db' in
      (db'', getAll db'')
  end.

Definition registerStockOut (productId : string) (amount : Z)
  (now : string) (db : Db.t) : Db.t :=
  match Db.select_product_by_id productId db with
  | Some product =>
      let newQuantity := Z.max 0 (ProductRow.quantity product - amount) in
      let actualDiff := ProductRow.quantity product - newQuantity in
      if 0 <? actualDiff then
        let db1 :=
          fst (Db.update_products
                 (fun r => ProductRow.mk (ProductRow.id r) (ProductRow.name r)
                             newQuantity (ProductRow.min_stock r)
                             (ProductRow.price r) (ProductRow.category r)
                             now (ProductRow.supplier_id r))
                 productId db) in
        logActivity "OUT" ("Salida Manual: " ++ ProductRow.name product)
          actualDiff now db1
      else db
  | None => db
  end.

(** One parsed line of the CSV text: the five columns after trimming
    and defaulting, as the loop of [importFromCSV] computes them. *)
Record CsvRow := mkCsvRow {
  csv_name : string;
  csv_quantity : Z;
  csv_price : Q;
  csv_minStock : Z;
  csv_category : string
}.

(** [parseInt(col?.trim())], where a missing column is [undefined]. *)
Definition parseIntCol (col : option string) : option Z :=
  match col with
  | Some c => Js.parseInt (Js.trim c)
  | None => None
  end.

(** [parseFloat(col?.trim())] *)
Definition parseFloatCol (col : option string) : option Q :=
  match col with
  | Some c => Js.parseFloat (Js.trim c)
  | None => None
  end.

(** The columns of a line; [None] when the line is skipped (it is
    blank, or has fewer than two columns). *)
Definition parseLine (rawLine : string) : option CsvRow :=
  let line := Js.trim rawLine in
  if negb (Js.truthy line) then None
  else
    let cols := Js.split "," line in
    if (2 <=? length cols)%nat then
      Some (mkCsvRow
              (Js.trim (nth 0 cols EmptyString))
              (Js.int_or (parseIntCol (nth_error cols 1)) 0)
              (Js.num_or (parseFloatCol (nth_error cols 2)) 0)
              (Js.int_or (parseIntCol (nth_error cols 3)) 10)
              (Js.opt_or_else (option_map Js.trim (nth_error cols 4)) "General"))
    else None.

(** [currentProducts.find(p => p.name.toLowerCase() === name.toLowerCase())] *)
Definition findByName (currentProducts : list Product.t) (name : string)
  : option Product.t :=
  find (fun p => String.eqb (Js.toLowerCase (Product.name p))
                            (Js.toLowerCase name))
       currentProducts.

(** What the loop does with a line that is not skipped. *)
Definition importRow (currentProducts : list Product.t) (now : string)
  (row : CsvRow) (db : Db.t) : Db.t :=
  match findByName currentProducts (csv_name row) with
  | Some existing =>
      fst (Db.update_products
             (fun r => ProductRow.mk (ProductRow.id r) (ProductRow.name r)
                         (Product.quantity existing + csv_quantity row)
                         (ProductRow.min_stock r)
                         (if Js.positive (csv_price row) then csv_price row
                          else Product.price existing)
                         (ProductRow.category r) now
                         (ProductRow.supplier_id r))
             (Product.id existing) db)
  | None =>
      Db.insert_product
        (fun id => ProductRow.mk id (csv_name row) (csv_quantity row)
                     (csv_minStock row) (csv_price row) (csv_category row)
                     now None)
        db
  end.

(** The state of the loop: the database, [addedCount], [updatedCount]. *)
Definition importLine (currentProducts : list Product.t) (now : string)
  (acc : Db.t * nat * nat) (rawLine : string) : Db.t * nat * nat :=
  let '(db, addedCount, updatedCount) := acc in
  match parseLine rawLine with
  | None => acc
  | Some row =>
      match findByName currentProducts (csv_name row) with
      | Some _ => (importRow currentProducts now row db, addedCount, S updatedCount)
      | None => (importRow currentProducts now row db, S addedCount, updatedCount)
      end
  end.

Definition importFromCSV (csvText : string) (now : string) (db : Db.t)
  : Db.t * result (nat * nat) :=
  let lines := Js.split "010" csvText in
  match getAll db with
  | Throw e => (db, Throw e)
  | Ok currentProducts =>
      let '(db', addedCount, updatedCount) :=
        fold_left (importLine currentProducts now) (tl lines) (db, O, O) in
      (logActivity "IMPORT"
         ("Importación CSV: " ++ Js.showNat addedCount ++ " nuevos, "
            ++ Js.showNat updatedCount ++ " act.")
         (Z.of_nat (addedCount + updatedCount)) now db',
       Ok (addedCount, updatedCount))
  end.

(** The answer of [getStats]. *)
Record Stats := mkStats {
  totalItems : Z;
  totalValue : Q;
  lowStockCount : nat
}.

Definition getStats (db : Db.t) : Stats :=
  match getAll db with
  | Ok products =>
      mkStats
        (fold_left (fun acc curr => acc + Product.quantity curr) products 0)
        (fold_left (fun acc curr =>
                      acc + inject_Z (Product.quantity curr) * Product.price curr)%Q
                   products 0%Q)
        (length (filter (fun p => Product.quantity p <=? Product.minStock p)
                        products))
  | Throw _ => mkStats 0 0%Q 0
  end.

End InventoryService.

(* ================================================================= *)
(** ** [EmailService] and [ExchangeRateService] *)

Module EmailService.

(** [sendLowStockAlert]: the answer; the mail itself is only written to
    the console. *)
Definition sendLowStockAlert (userEmail : string)
  (lowStockProducts : list Product.t) : bool :=
  match lowStockProducts with
  | [] => false
  | _ => true
  end.

End EmailService.

Module ExchangeRateService.

(** An entry of the array the rates API answers. *)
Record Monitor := mkMonitor {
  codigo : string;
  nombre : string;
  promedio : option Q
}.

Record ExchangeRates := mkRates {
  bcv : Q;
  parallel : Q;
  lastUpdate : string
}.

(** [data.find(d => d.codigo === code || d.nombre === name)?.promedio || 0] *)
Definition rateOf (code name : string) (data : list Monitor) : Q :=
  Js.num_or
    (match find (fun d => String.eqb (codigo d) code || String.eqb (nombre d) name)
                data with
     | Some d => promedio d
     | None => None
     end)
    0.

(** [getRates], given what the request answers: [None] when it fails
    (network error, status not ok, body that is not JSON). *)
Definition getRates (response : option (list Monitor)) (now : string)
  : option ExchangeRates :=
  match response with
  | Some data =>
      Some (mkRates (rateOf "oficial" "Oficial" data)
                    (rateOf "paralelo" "Paralelo" data) now)
  | None => None
  end.

End ExchangeRateService.

(* ================================================================= *)
(** ** The [Scanner] component *)

Module Scanner.

(** Helper to find matching existing product. *)
Definition getMatch (existingProducts : list Product.t) (itemName : string)
  : option Product.t :=
  find (fun p =>
          String.eqb (Js.trim (Js.toLowerCase (Product.name p)))
                     (Js.trim (Js.toLowerCase itemName))
          || Js.includes (Js.toLowerCase (Product.name p)) (Js.toLowerCase itemName)
          || Js.includes (Js.toLowerCase itemName) (Js.toLowerCase (Product.name p)))
       existingProducts.

(** [newItems[index] = { ...newItems[index], ... }] for the index of an
    item of the list, which is what the component passes; the list is
    left as it is for any other index. *)
Definition setItem (index : nat) (f : InvoiceItem.t -> InvoiceItem.t)
  (items : list InvoiceItem.t) : list InvoiceItem.t :=
  match nth_error items index with
  | Some item => firstn index items ++ f item :: skipn (S index) items
  | None => items
  end.

Definition withItems (scanResult : InvoiceData.t)
  (items : list InvoiceItem.t) : InvoiceData.t :=
  InvoiceData.mk items (InvoiceData.supplier scanResult)
    (InvoiceData.currency scanResult).

(** The handlers below answer the new value of the state [scanResult]. *)
Definition handleQuantityChange (index : nat) (newValue : string)
  (scanResult : option InvoiceData.t) : option InvoiceData.t :=
  match scanResult with
  | None => None
  | Some sr =>
      match Js.parseInt newValue with
      | None => Some sr
      | Some val =>
          if val <? 0 then Some sr
          else
            Some (withItems sr
                    (setItem index
                       (fun item =>
                          InvoiceItem.mk (InvoiceItem.productName item) val
                            (InvoiceItem.price item) (InvoiceItem.confidence item)
                            (InvoiceItem.originalQuantity item)
                            (InvoiceItem.detectedPackSize item)
                            (InvoiceItem.category item))
                       (InvoiceData.items sr)))
      end
  end.

Definition handleProductNameChange (index : nat) (newName : string)
  (scanResult : option InvoiceData.t) : option InvoiceData.t :=
  match scanResult with
  | None => None
  | Some sr =>
      Some (withItems sr
              (setItem index
                 (fun item =>
                    InvoiceItem.mk newName (InvoiceItem.quantity item)
                      (InvoiceItem.price item) (InvoiceItem.confidence item)
                      (InvoiceItem.originalQuantity item)
                      (InvoiceItem.detectedPackSize item)
                      (InvoiceItem.category item))
                 (InvoiceData.items sr)))
  end.

Definition handleCategoryChange (index : nat) (newCat : string)
  (scanResult : option InvoiceData.t) : option InvoiceData.t :=
  match scanResult with
  | None => None
  | Some sr =>
      Some (withItems sr
              (setItem index
                 (fun item =>
                    InvoiceItem.mk (InvoiceItem.productName item)
                      (InvoiceItem.quantity item)
                      (InvoiceItem.price item) (InvoiceItem.confidence item)
                      (InvoiceItem.originalQuantity item)
                      (InvoiceItem.detectedPackSize item)
                      (Some newCat))
                 (InvoiceData.items sr)))
  end.

(** [item.originalQuantity || item.quantity] *)
Definition billedQuantity (item : InvoiceItem.t) : Z :=
  match InvoiceItem.originalQuantity item with
  | Some o => if o =? 0 then InvoiceItem.quantity item else o
  | None => InvoiceItem.quantity item
  end.

Definition lineTotal (item : InvoiceItem.t) : Q :=
  (inject_Z (billedQuantity item) * InvoiceItem.price item)%Q.

Definition totalEstimate (scanResult : option InvoiceData.t) : Q :=
  match scanResult with
  | Some sr =>
      Js.num_or
        (Some (fold_left (fun acc item => acc + lineTotal item)%Q
                         (InvoiceData.items sr) 0%Q))
        0
  | None => 0%Q
  end.

(** [acc[cat] = (acc[cat] || 0) + total] on an object whose keys are
    kept in the order they were first written. *)
Fixpoint addToCategory (cat : string) (total : Q)
  (acc : list (string * Q)) : list (string * Q) :=
  match acc with
  | [] => [(cat, (0 + total)%Q)]
  | (k, v) :: rest =>
      if String.eqb k cat then (k, (Js.num_or (Some v) 0 + total)%Q) :: rest
      else (k, v) :: addToCategory cat total rest
  end.

Definition categoryTotals (scanResult : option InvoiceData.t)
  : list (string * Q) :=
  match scanResult with
  | Some sr =>
      fold_left
        (fun acc item =>
           addToCategory (Js.opt_or_else (InvoiceItem.category item)
                            "Sin Categoría")
                         (lineTotal item) acc)
        (InvoiceData.items sr) []
  | None => []
  end.

(** What [handleFileSelect] does with the invoice [data] the extraction
    answered, before it becomes the state [scanResult]. *)
Definition resolveScan (data : InvoiceData.t) (db : Db.t)
  : result InvoiceData.t :=
  match InvoiceData.supplier data with
  | Some sup =>
      if Js.truthy (SupplierInfo.name sup) then
        let suppliers := InventoryService.getSuppliers db in
        let existingSup :=
          find (fun s => Js.includes (Js.toLowerCase (Supplier.name s))
                                     (Js.toLowerCase (SupplierInfo.name sup)))
               suppliers in
        let sup' :=
          match existingSup with
          | Some e => SupplierInfo.mk (Supplier.name e) (Supplier.rif e)
          | None => sup
          end in
        match InventoryService.resolveInvoiceAliases (InvoiceData.items data)
                (SupplierInfo.name sup') db with
        | Ok items => Ok (InvoiceData.mk items (Some sup') (InvoiceData.currency data))
        | Throw e => Throw e
        end
      else Ok data
  | None => Ok data
  end.

(** The currency [updateStock] works with: it only asks whether
    [invoiceCurrency === 'Bs']. *)
Definition currencyOf (invoiceCurrency : string) : Currency :=
  if String.eqb invoiceCurrency "Bs" then Bs else USD.

(** [handleConfirm]: the database it leaves and the new [scanResult];
    an exception of [updateStock] is not caught and leaves the state. *)
Definition handleConfirm (scanResult : option InvoiceData.t)
  (exchangeRate : Q) (now : string) (db : Db.t)
  : Db.t * result (option InvoiceData.t) :=
  match scanResult with
  | Some sr =>
      let invoiceCurrency := Js.opt_or_else (InvoiceData.currency sr) "Bs" in
      match InventoryService.updateStock (InvoiceData.items sr)
              (InvoiceData.supplier sr) (currencyOf invoiceCurrency)
              exchangeRate now db with
      | (db', Ok _) => (db', Ok None)
      | (db', Throw e) => (db', Throw e)
      end
  | None => (db, Ok None)
  end.

End Scanner.

(* ================================================================= *)
(** ** The [InventoryTable] component *)

Module InventoryTable.

(** [handleEditClick]: the price shown in the edit box. *)
Definition displayPrice (currency : Currency) (exchangeRate price : Q) : Q :=
  match currency with
  | Bs => (price * exchangeRate)%Q
  | USD => price
  end.

(** [handleSave]: the price sent to [updateProductDetails]. *)
Definition priceToSave (currency : Currency) (exchangeRate price : Q) : Q :=
  match currency with
  | Bs => (price / exchangeRate)%Q
  | USD => price
  end.

Definition isLow (p : Product.t) : bool :=
  Product.quantity p <=? Product.minStock p.

(** The test of the filter of [sortedProducts], for the lower-cased
    search term. *)
Definition matchesSearch (suppliers : list Supplier.t) (term : string)
  (p : Product.t) : bool :=
  let matchesName := Js.includes (Js.toLowerCase (Product.name p)) term in
  let supplier :=
    match Product.supplierId p with
    | Some sid =>
        if Js.truthy sid
        then find (fun s => String.eqb (Supplier.id s) sid) suppliers
        else None
    | None => None
    end in
  let matchesSupplier :=
    match supplier with
    | Some s => Js.includes (Js.toLowerCase (Supplier.name s)) term
    | None => false
    end in
  let matchesCategory :=
    if Js.truthy (Product.category p)
    then Js.includes (Js.toLowerCase (Product.category p)) term
    else false in
  matchesName || matchesSupplier || matchesCategory.

Definition sortedProducts (products : list Product.t) (searchTerm : string)
  (suppliers : list Supplier.t) : list Product.t :=
  let term := Js.toLowerCase searchTerm in
  let filtered := filter (matchesSearch suppliers term) products in
  Js.sort (fun a b =>
             let aLow := if isLow a then 1 else 0 in
             let bLow := if isLow b then 1 else 0 in
             bLow - aLow)
          filtered.

Record EditValues := mkEditValues {
  minStock : Z;
  price : Q
}.

Definition handleEditClick (currency : Currency) (exchangeRate : Q)
  (product : Product.t) : EditValues :=
  mkEditValues (Product.minStock product)
    (displayPrice currency exchangeRate (Product.price product)).

Definition handleSave (id : string) (editValues : EditValues)
  (currency : Currency) (exchangeRate : Q) (now : string) (db : Db.t)
  : Db.t * result (list Product.t) :=
  InventoryService.updateProductDetails id
    (PartialProduct.mk None None None (Some (minStock editValues))
       (Some (priceToSave currency exchangeRate (price editValues)))
       None None None)
    now db.

(** [handleExecuteStockOut]: the database it leaves and the new state
    [stockOutValues], the texts typed in the stock-out boxes by product
    id. *)
Definition handleExecuteStockOut (id : string)
  (stockOutValues : string -> option string) (now : string) (db : Db.t)
  : Db.t * (string -> option string) :=
  let amount :=
    match stockOutValues id with
    | Some text => Js.parseInt text
    | None => None
    end in
  match amount with
  | Some a =>
      if negb (a =? 0) && (0 <? a)
      then (InventoryService.registerStockOut id a now db,
            fun k => if String.eqb k id then Some EmptyString
                     else stockOutValues k)
      else (db, stockOutValues)
  | None => (db, stockOutValues)
  end.

End InventoryTable.

(* ================================================================= *)
(** ** The [SupplierPanel] component and [App] *)

Module SupplierPanel.

Definition filteredSuppliers (suppliers : list Supplier.t)
  (searchTerm : string) : list Supplier.t :=
  filter (fun s =>
            Js.includes (Js.toLowerCase (Supplier.name s))
                        (Js.toLowerCase searchTerm)
            || Js.includes (Js.toLowerCase (Supplier.rif s))
                           (Js.toLowerCase searchTerm))
         suppliers.

End SupplierPanel.

Module App.

Inductive NotificationType : Type := success | warning | error.

(** The part of the state of [App] that loading the inventory writes. *)
Record State := mkState {
  user : option User.t;
  inventory : list Product.t;
  stats : InventoryService.Stats;
  notification : option (string * NotificationType);
  dbError : option string;
  currentView : AppView
}.

(** [exchangeRates?.bcv || 1] *)
Definition currentRate
  (exchangeRates : option ExchangeRateService.ExchangeRates) : Q :=
  Js.num_or (option_map ExchangeRateService.bcv exchangeRates) 1.

(** [fetchRates]: the new value of the state [exchangeRates], which is
    kept when the service answers nothing. *)
Definition fetchRates (response : option (list ExchangeRateService.Monitor))
  (now : string)
  (exchangeRates : option ExchangeRateService.ExchangeRates)
  : option ExchangeRateService.ExchangeRates :=
  match ExchangeRateService.getRates response now with
  | Some rates => Some rates
  | None => exchangeRates
  end.

(** [showNotification]; the timer that clears the notification after
    five seconds is not part of the model. *)
Definition showNotification (msg : string) (type : NotificationType)
  (st : State) : State :=
  mkState (user st) (inventory st) (stats st) (Some (msg, type))
    (dbError st) (currentView st).

(** [refreshData]: the new state and the list it answers. *)
Definition refreshData (db : Db.t) (st : State) : State * list Product.t :=
  match InventoryService.getAll db with
  | Ok data =>
      (mkState (user st) data (InventoryService.getStats db)
         (notification st) None (currentView st),
       data)
  | Throw message =>
      (showNotification "Error de conexión con Supabase" error
         (mkState (user st) (inventory st) (stats st) (notification st)
            (Some (Js.or_else message "Error conectando a la base de datos."))
            (currentView st)),
       [])
  end.

Definition handleScanComplete (db : Db.t) (st : State) : State :=
  let st1 := fst (refreshData db st) in
  showNotification
    "Inventario y Proveedor actualizados correctamente en la nube." success
    (mkState (user st1) (inventory st1) (stats st1) (notification st1)
       (dbError st1) INVENTORY).

Definition handleManualUpdate (db : Db.t) (st : State) : State :=
  let (st1, updatedData) := refreshData db st in
  let email :=
    match user st1 with
    | Some u => User.email u
    | None => EmptyString
    end in
  let lowStockItems :=
    filter (fun p => Product.quantity p <=? Product.minStock p) updatedData in
  if (0 <? length updatedData)%nat && Js.truthy email
     && (0 <? length lowStockItems)%nat
     && EmailService.sendLowStockAlert email lowStockItems
  then showNotification
         ("Inventario actualizado. Alerta de stock enviada a " ++ email)
         warning st1
  else showNotification "Inventario actualizado." success st1.

End App.

(* ================================================================= *)
(** ** The price conversions on JavaScript numbers

    The three conversions of the program with the rounding of their one
    arithmetic operation: [priceInUSD] of [updateStock], [displayPrice]
    of [handleEditClick] and of the rows of the table, [priceToSave] of
    [handleSave]. *)

Module Rounded.

(** [invoiceCurrency === 'Bs' ? newItem.price / exchangeRate : newItem.price] *)
Definition priceInUSD (invoiceCurrency : Currency) (exchangeRate price : Q)
  : option Q :=
  match invoiceCurrency with
  | Bs => Binary64.div price exchangeRate
  | USD => Some price
  end.

(** [currency === 'Bs' ? product.price * exchangeRate : product.price] *)
Definition displayPrice (currency : Currency) (exchangeRate price : Q)
  : option Q :=
  match currency with
  | Bs => Binary64.mul price exchangeRate
  | USD => Some price
  end.

(** [currency === 'Bs' ? editValues.price / exchangeRate : editValues.price] *)
Definition priceToSave (currency : Currency) (exchangeRate price : Q)
  : option Q :=
  match currency with
  | Bs => Binary64.div price exchangeRate
  | USD => Some price
  end.

(** An amount of an invoice stored by [updateStock], then shown by the
    table. *)
Definition storedAndShown (currency : Currency) (exchangeRate x : Q)
  : option Q :=
  match priceInUSD currency exchangeRate x with
  | Some price => displayPrice currency exchangeRate price
  | None => None
  end.

(** A stored price shown by the editor of the table, then saved as
    shown. *)
Definition shownAndSaved (currency : Currency) (exchangeRate x : Q)
  : option Q :=
  match displayPrice currency exchangeRate x with
  | Some price => priceToSave currency exchangeRate price
  | None => None
  end.

End Rounded.


(* ================================================================= *)
(** ** Vocabulary of the properties *)

Local Open Scope list_scope.

(** [x] is the first element of [l] that passes [f]. *)
Definition first_such {A : Type} (f : A -> bool) (l : list A) (x : A) : Prop :=
  exists l1 l2, l = l1 ++ x :: l2 /\ f x = true /\
                forall y, In y l1 -> f y = false.

(** [a] occurs in [b]. *)
Definition Substring (a b : string) : Prop :=
  exists pre post, b = (pre ++ a ++ post)%string.

(** The characters an [ilike] pattern does not take literally. *)
Definition isWildcard (c : ascii) : bool :=
  (Ascii.eqb c "%" || Ascii.eqb c "*" || Ascii.eqb c "_" || Ascii.eqb c "\")%char.

(** A name without wildcard characters. *)
Fixpoint plain (s : string) : bool :=
  match s with
  | EmptyString => true
  | String c s' => negb (isWildcard c) && plain s'
  end.

(** *** Text

    What the statements say about names is worded on their characters,
    without the functions of the program. *)
Module Text.

(** ASCII text: every character is below 128.  On such text the
    program's [toLowerCase] folds the letters A-Z and nothing else, its
    [trim] removes TAB, LF, VT, FF, CR and SPACE and nothing else, and
    [ILIKE] compares the letters A-Z without case. *)
Fixpoint isAscii (s : string) : bool :=
  match s with
  | EmptyString => true
  | String c s' => (N_of_ascii c <? 128)%N && isAscii s'
  end.

(** The white space of ASCII. *)
Definition blank (c : ascii) : Prop :=
  c = "009"%char \/ c = "010"%char \/ c = "011"%char \/ c = "012"%char \/
  c = "013"%char \/ c = " "%char.

Fixpoint blanks (s : string) : Prop :=
  match s with
  | EmptyString => True
  | String c s' => blank c /\ blanks s'
  end.

(** [c] and [d] are the same character, or the same letter of A-Z in
    its two cases. *)
Definition sameLetter (c d : ascii) : Prop :=
  c = d \/
  exists n, (n < 26)%N /\
    ((N_of_ascii c = 65 + n /\ N_of_ascii d = 97 + n)%N \/
     (N_of_ascii c = 97 + n /\ N_of_ascii d = 65 + n)%N).

(** Equality without regard to case. *)
Inductive sameText : string -> string -> Prop :=
| sameText_nil : sameText EmptyString EmptyString
| sameText_cons (c d : ascii) (s t : string) :
    sameLetter c d -> sameText s t -> sameText (String c s) (String d t).

(** [t] is [s] without the white space at its two ends. *)
Definition trimmedOf (s t : string) : Prop :=
  (exists l r, s = (l ++ t ++ r)%string /\ blanks l /\ blanks r) /\
  (forall c t', t = String c t' -> ~ blank c) /\
  (forall c t', t = (t' ++ String c EmptyString)%string -> ~ blank c).

(** Equality without regard to case nor to white space at the ends. *)
Definition sameTrimmedText (a b : string) : Prop :=
  exists a' b', trimmedOf a a' /\ trimmedOf b b' /\ sameText a' b'.

(** [needle] occurs in [hay], without regard to case. *)
Definition containsText (hay needle : string) : Prop :=
  exists pre mid post,
    hay = (pre ++ mid ++ post)%string /\ sameText mid needle.

End Text.

(** [kept] holds the elements of [l] that satisfy [P], in the order of
    [l], and nothing else. *)
Inductive Kept {A : Type} (P : A -> Prop) : list A -> list A -> Prop :=
| Kept_nil : Kept P [] []
| Kept_keep (x : A) (l kept : list A) :
    P x -> Kept P l kept -> Kept P (x :: l) (x :: kept)
| Kept_drop (x : A) (l kept : list A) :
    ~ P x -> Kept P l kept -> Kept P (x :: l) kept.

(** The names of the stored products are ASCII text. *)
Definition asciiCatalog (db : Db.t) : Prop :=
  forall r, In r (Db.products db) -> Text.isAscii (ProductRow.name r) = true.

(** The names and the rifs of the stored suppliers are ASCII text. *)
Definition asciiSuppliers (db : Db.t) : Prop :=
  forall r, In r (Db.suppliers db) ->
            Text.isAscii (SupplierRow.name r) = true /\
            Text.isAscii (SupplierRow.rif r) = true.

(** The product names of the items are ASCII text. *)
Definition asciiItems (items : list InvoiceItem.t) : Prop :=
  forall item, In item items ->
               Text.isAscii (InvoiceItem.productName item) = true.

(** A value that the [or(...)] filter of a request takes as it is
    written: it holds none of the characters that the filter syntax
    reserves (comma, parentheses, period, colon), no double quote and
    no brace.  A comma or a parenthesis makes the request fail
    ([Db.spliceable]); of the others the statements just keep clear. *)
Fixpoint unquoted (s : string) : bool :=
  match s with
  | EmptyString => true
  | String c s' =>
      negb (Db.isSeparator c
            || Ascii.eqb c "." || Ascii.eqb c ":"
            || Ascii.eqb c "034" || Ascii.eqb c "{" || Ascii.eqb c "}")%char
      && unquoted s'
  end.

(** A name that a request matches letter by letter, without regard to
    case: ASCII text that the filter takes as it is written and that
    holds no wildcard character. *)
Definition literalName (s : string) : bool :=
  Text.isAscii s && unquoted s && plain s.

(** The supplier of a product, as the product table looks it up: the
    first supplier of the list with the id the product refers to. *)
Definition supplierOf (suppliers : list Supplier.t) (p : Product.t)
  (s : Supplier.t) : Prop :=
  exists sid l1 l2,
    Product.supplierId p = Some sid /\ sid <> EmptyString /\
    suppliers = l1 ++ s :: l2 /\ Supplier.id s = sid /\
    forall x, In x l1 -> Supplier.id x <> sid.

(** The category under which the review screen counts an item. *)
Definition categoryLabel (item : InvoiceItem.t) : string :=
  match InvoiceItem.category item with
  | Some (String c s) => String c s
  | _ => "Sin Categoría"
  end.

(** The currency [handleConfirm] passes on for the detected currency of
    a scan: Bs when none was detected, and USD for any other text than
    "Bs". *)
Definition confirmedCurrency (currency : option string) : Currency :=
  match currency with
  | None | Some EmptyString | Some "Bs" => Bs
  | Some _ => USD
  end.

(** The name under which [updateStock] looks an item up and stores it. *)
Definition storedName (item : InvoiceItem.t) : string :=
  match InvoiceItem.productName item with
  | EmptyString => "Producto Desconocido"
  | name => name
  end.

(** The id of the supplier that [updateStock] registers for an invoice:
    the one [addSupplier] answers for the name of the invoice's
    supplier and its rif, or "N/A" when it has none; no id when the
    invoice names no supplier. *)
Definition registeredId (supplierInfo : option SupplierInfo.t)
  (now : string) (db : Db.t) : option string :=
  match supplierInfo with
  | Some si =>
      match SupplierInfo.name si with
      | EmptyString => None
      | name =>
          match snd (InventoryService.addSupplier name
                       (match SupplierInfo.rif si with
                        | EmptyString => "N/A"
                        | rif => rif
                        end) now db) with
          | Ok supplier => Some (Supplier.id supplier)
          | Throw _ => None
          end
      end
  | None => None
  end.

(** What the alias resolver does to one item, given the catalog as
    [getAll] answered it. *)
Definition aliased (products : list Product.t) (item item' : InvoiceItem.t)
  : Prop :=
  (exists l1 existing l2,
      products = l1 ++ existing :: l2 /\
      Text.sameTrimmedText (Product.name existing)
        (InvoiceItem.productName item) /\
      (forall q, In q l1 ->
                 ~ Text.sameTrimmedText (Product.name q)
                     (InvoiceItem.productName item)) /\
      InvoiceItem.productName item' = Product.name existing /\
      (Product.category existing <> EmptyString ->
       InvoiceItem.category item' = Some (Product.category existing)) /\
      (Product.category existing = EmptyString ->
       InvoiceItem.category item' = InvoiceItem.category item) /\
      InvoiceItem.quantity item' = InvoiceItem.quantity item /\
      InvoiceItem.price item' = InvoiceItem.price item /\
      InvoiceItem.confidence item' = InvoiceItem.confidence item /\
      InvoiceItem.originalQuantity item' = InvoiceItem.originalQuantity item /\
      InvoiceItem.detectedPackSize item' = InvoiceItem.detectedPackSize item)
  \/
  ((forall q, In q products ->
              ~ Text.sameTrimmedText (Product.name q)
                  (InvoiceItem.productName item)) /\
   item' = item).

(** How [getMatch] relates a candidate name to the searched name: they
    are equal but for case and white space at the ends, or one occurs
    in the other but for case. *)
Definition nameRelated (candidate name : string) : Prop :=
  Text.sameTrimmedText candidate name \/
  Text.containsText candidate name \/
  Text.containsText name candidate.

(** A stock-out of [product]: in [db'] it has the quantity [newQuantity]
    and [now] as its last update, every other product is as in [db], and
    one OUT entry with the amount [delta] is appended to the log. *)
Definition stockedOut (product : ProductRow.t) (now : string)
  (newQuantity delta : Z) (db db' : Db.t) : Prop :=
  (exists l1 l2,
      Db.products db = l1 ++ product :: l2 /\
      Db.products db'
      = l1 ++ (ProductRow.mk (ProductRow.id product) (ProductRow.name product)
                 newQuantity (ProductRow.min_stock product)
                 (ProductRow.price product) (ProductRow.category product)
                 now (ProductRow.supplier_id product)) :: l2) /\
  (exists entry,
      Db.activity_logs db' = Db.activity_logs db ++ [entry] /\
      LogRow.type entry = "OUT" /\
      LogRow.amount entry = delta).

(** The behaviour the specification words, where it is compared with
    the code. *)
Module Spec.

Definition normalized (s : string) : string := Js.trim (Js.toLowerCase s).

(** The product matcher as the matching policy words it: an exact
    match of the normalized names wherever it stands in the catalog,
    otherwise the first candidate whose name contains the searched name
    or is contained in it, otherwise none. *)
Definition findMatch (name : string) (catalogSnapshot : list Product.t)
  : option Product.t :=
  match find (fun p => String.eqb (normalized (Product.name p))
                                  (normalized name))
             catalogSnapshot with
  | Some p => Some p
  | None =>
      find (fun p => Js.includes (normalized (Product.name p)) (normalized name)
                     || Js.includes (normalized name) (normalized (Product.name p)))
           catalogSnapshot
  end.

(** Manual stock-out as it is worded for a stored [product] and an
    [amount]: the quantity becomes [max(0, q - amount)] and one OUT
    entry carries the clamped delta, unless that delta is zero, in
    which case nothing happens. *)
Definition stockOut (productId : string) (amount : Z) (now : string)
  (db : Db.t) : Prop :=
  forall product,
    Db.select_product_by_id productId db = Some product ->
    let newQuantity := Z.max 0 (ProductRow.quantity product - amount) in
    let delta := ProductRow.quantity product - newQuantity in
    let db' := InventoryService.registerStockOut productId amount now db in
    (delta <> 0 -> stockedOut product now newQuantity delta db db') /\
    (delta = 0 -> db' = db).

(** A line of the CSV text as the import contract words it: every
    field is the parsed value, and the default only where the field is
    missing or does not parse. *)
Definition parseRow (line : string) : InventoryService.CsvRow :=
  let cols := Js.split "," line in
  InventoryService.mkCsvRow
    (Js.trim (nth 0 cols EmptyString))
    (match InventoryService.parseIntCol (nth_error cols 1) with
     | Some q => q | None => 0 end)
    (match InventoryService.parseFloatCol (nth_error cols 2) with
     | Some p => p | None => 0 end)
    (match InventoryService.parseIntCol (nth_error cols 3) with
     | Some m => m | None => 10 end)
    (Js.opt_or_else (option_map Js.trim (nth_error cols 4)) "General").

(** The bulk import as it is worded: every line after the header that
    is not blank is matched against the products that exist when it is
    imported; a match adds to the existing quantity, no match creates
    a product. *)
Definition importBatch (csvText : string) (now : string) (db : Db.t)
  : Db.t :=
  fold_left
    (fun d rawLine =>
       let line := Js.trim rawLine in
       if Js.truthy line
       then InventoryService.importRow
              (map InventoryService.toProduct (Db.products d)) now
              (parseRow line) d
       else d)
    (tl (Js.split "010" csvText)) db.

End Spec.

(** The lines of a CSV text that [importFromCSV] does not skip, parsed. *)
Definition csvRows (csvText : string) : list InventoryService.CsvRow :=
  flat_map (fun rawLine =>
              match InventoryService.parseLine rawLine with
              | Some row => [row]
              | None => []
              end)
           (tl (Js.split "010" csvText)).

(** The operations that change products. *)
Inductive Operation : Type :=
| UpdateStock (items : list InvoiceItem.t)
    (supplierInfo : option SupplierInfo.t) (invoiceCurrency : Currency)
    (exchangeRate : Q)
| RegisterStockOut (productId : string) (amount : Z)
| ImportFromCSV (csvText : string)
| UpdateProductDetails (id : string) (updates : PartialProduct.t).

(** The database an operation leaves. *)
Definition run (op : Operation) (now : string) (db : Db.t) : Db.t :=
  match op with
  | UpdateStock items supplierInfo invoiceCurrency exchangeRate =>
      fst (InventoryService.updateStock items supplierInfo invoiceCurrency
             exchangeRate now db)
  | RegisterStockOut productId amount =>
      InventoryService.registerStockOut productId amount now db
  | ImportFromCSV csvText =>
      fst (InventoryService.importFromCSV csvText now db)
  | UpdateProductDetails id updates =>
      fst (InventoryService.updateProductDetails id updates now db)
  end.

Definition nonNegativeRow (r : ProductRow.t) : Prop :=
  0 <= ProductRow.quantity r /\ (0 <= ProductRow.price r)%Q.

(** Every stored product has a non-negative quantity and price. *)
Definition nonNegative (db : Db.t) : Prop :=
  Forall nonNegativeRow (Db.products db).

(** The numbers an operation is given are non-negative (and the rate of
    a Bs invoice positive). *)
Definition nonNegativeInput (op : Operation) : Prop :=
  match op with
  | UpdateStock items _ invoiceCurrency exchangeRate =>
      (forall item, In item items ->
                    0 <= InvoiceItem.quantity item /\
                    (0 <= InvoiceItem.price item)%Q) /\
      (invoiceCurrency = Bs -> (0 < exchangeRate)%Q)
  | RegisterStockOut _ _ => True
  | ImportFromCSV csvText =>
      forall row, In row (csvRows csvText) ->
                  0 <= InventoryService.csv_quantity row /\
                  (0 <= InventoryService.csv_price row)%Q
  | UpdateProductDetails _ updates =>
      (forall q, PartialProduct.quantity updates = Some q -> 0 <= q) /\
      (forall p, PartialProduct.price updates = Some p -> (0 <= p)%Q)
  end.

(** What identifies a stored product: its id, name and category. *)
Definition identity (r : ProductRow.t) : string * string * string :=
  (ProductRow.id r, ProductRow.name r, ProductRow.category r).

(** [db'] has the products of [db], with their identity, possibly
    followed by others; the log of [db], possibly followed by other
    entries; and the suppliers of [db]. *)
Definition extends (db db' : Db.t) : Prop :=
  (exists extra,
      map identity (Db.products db') = map identity (Db.products db) ++ extra) /\
  (exists entries,
      Db.activity_logs db' = Db.activity_logs db ++ entries) /\
  Db.suppliers db' = Db.suppliers db.

(** [r'] is [r] with, at most, a lower quantity and another date of
    last update; it is [r] itself when [r] has not the id [productId]. *)
Definition loweredOnly (productId : string) (r r' : ProductRow.t) : Prop :=
  ProductRow.quantity r' <= ProductRow.quantity r /\
  (0 <= ProductRow.quantity r -> 0 <= ProductRow.quantity r') /\
  ProductRow.id r' = ProductRow.id r /\
  ProductRow.name r' = ProductRow.name r /\
  ProductRow.min_stock r' = ProductRow.min_stock r /\
  ProductRow.price r' = ProductRow.price r /\
  ProductRow.category r' = ProductRow.category r /\
  ProductRow.supplier_id r' = ProductRow.supplier_id r /\
  (ProductRow.id r <> productId -> r' = r).

(** A CSV row names a product of the catalog read at the start. *)
Definition namesProduct (currentProducts : list Product.t)
  (row : InventoryService.CsvRow) : bool :=
  match InventoryService.findByName currentProducts
          (InventoryService.csv_name row) with
  | Some _ => true
  | None => false
  end.

(** [r'] is what [updateProductDetails id updates] makes of the stored
    product [r]: [r] itself when its id is not [id]; otherwise [r] with
    the quantity, minimum stock and price of [updates] where they are
    given, and [now] as last update. *)
Definition detailsUpdated (id now : string) (updates : PartialProduct.t)
  (r r' : ProductRow.t) : Prop :=
  (ProductRow.id r <> id -> r' = r) /\
  (ProductRow.id r = id ->
   ProductRow.id r' = ProductRow.id r /\
   ProductRow.name r' = ProductRow.name r /\
   ProductRow.category r' = ProductRow.category r /\
   ProductRow.supplier_id r' = ProductRow.supplier_id r /\
   ProductRow.last_updated r' = now /\
   (forall q, PartialProduct.quantity updates = Some q ->
              ProductRow.quantity r' = q) /\
   (PartialProduct.quantity updates = None ->
    ProductRow.quantity r' = ProductRow.quantity r) /\
   (forall m, PartialProduct.minStock updates = Some m ->
              ProductRow.min_stock r' = m) /\
   (PartialProduct.minStock updates = None ->
    ProductRow.min_stock r' = ProductRow.min_stock r) /\
   (forall p, PartialProduct.price updates = Some p ->
              ProductRow.price r' = p) /\
   (PartialProduct.price updates = None ->
    ProductRow.price r' = ProductRow.price r)).

(** [item] with another quantity. *)
Definition withQuantity (item : InvoiceItem.t) (quantity : Z) : InvoiceItem.t :=
  InvoiceItem.mk (InvoiceItem.productName item) quantity
    (InvoiceItem.price item) (InvoiceItem.confidence item)
    (InvoiceItem.originalQuantity item) (InvoiceItem.detectedPackSize item)
    (InvoiceItem.category item).

(** The sum of the quantities of the items of an invoice. *)
Definition totalQuantity (items : list InvoiceItem.t) : Z :=
  fold_right (fun item acc => InvoiceItem.quantity item + acc) 0 items.

(** *** Prices

    The tolerance of a conversion there and back: two roundings, each
    of relative error 2^-53 at most. *)
Definition tolerance : Q := (Binary64.pow2 (-52) + Binary64.pow2 (-106))%Q.

(** The amounts and rates whose products and quotients stay among the
    normal numbers of binary64: a magnitude from 2^-511 to 2^511. *)
Definition inRange (x : Q) : Prop :=
  (Binary64.pow2 (-511) <= Qabs x /\ Qabs x <= Binary64.pow2 511)%Q.

(** Sample data used to exercise the statements. *)
Module Sample.

Definition harina : ProductRow.t :=
  ProductRow.mk "p1" "Harina Pan" 5 10 (3 # 2) "Alimentos" "t0" (Some "s1").

Definition arroz : ProductRow.t :=
  ProductRow.mk "p2" " Arroz " 3 4 (1 # 1) "" "t0" None.

Definition acme : SupplierRow.t := SupplierRow.mk "s1" "Acme" "J-1" "t0".

Definition beta : SupplierRow.t := SupplierRow.mk "s2" "Beta" "J-2" "t0".

Definition db : Db.t := Db.mk true [harina; arroz] [acme; beta] [] 7.

Definition offline : Db.t := Db.mk false [harina; arroz] [acme; beta] [] 7.

Definition empty : Db.t := Db.mk true [] [] [] 1.

Definition integral : Product.t :=
  Product.mk "p3" "Harina Pan Integral" 2 10 (2 # 1) "Alimentos" "t0" None.

Definition pan : Product.t :=
  Product.mk "p1" "Harina Pan" 5 10 (3 # 2) "Alimentos" "t0" (Some "s1").

Definition catalog : list Product.t := [integral; pan].

Definition azucar : Product.t :=
  Product.mk "p4" "Azucar" 50 10 (1 # 1) "Alimentos" "t0" (Some "s2").

Definition rice : ProductRow.t :=
  ProductRow.mk "p5" "Arroz" 10 5 (3 # 2) "Alimentos" "t0" None.

Definition pantry : Db.t := Db.mk true [rice] [] [] 6.

(** The name, quantity, price, minimum stock and category of a row. *)
Definition summary (r : ProductRow.t) : string * Z * Q * Z * string :=
  (ProductRow.name r, ProductRow.quantity r, ProductRow.price r,
   ProductRow.min_stock r, ProductRow.category r).

Definition item (name : string) (quantity : Z) (price : Q) : InvoiceItem.t :=
  InvoiceItem.mk name quantity price None (Some quantity) (Some 1)
    (Some "Otros").

Definition kiosk : SupplierRow.t := SupplierRow.mk "s3" "Kiosko" "N/A" "t0".

Definition unnamed : Db.t := Db.mk true [harina] [acme; kiosk] [] 7.

Definition scan : InvoiceData.t :=
  InvoiceData.mk [item "harina pan" 10 (80 # 1); item "Cafe" 24 (2 # 1)]
    (Some (SupplierInfo.mk "acme" "")) None.

End Sample.

(* ================================================================= *)
(** ** Lists: the first element that satisfies a test *)

Section First.

Variable A : Type.
Variable f : A -> bool.

Lemma find_first_such (l : list A) (x : A) :
  find f l = Some x <-> first_such f l x.
Proof.
  induction l as [|a l IH]; simpl.
  - split; [discriminate|].
    intros (l1 & l2 & E & _); destruct l1; discriminate.
  - destruct (f a) eqn:Fa.
    + split.
      * intros [= <-]. exists [], l. repeat split; auto. intros y [].
      * intros (l1 & l2 & E & Fx & Hl1). destruct l1 as [|b l1].
        -- simpl in E. congruence.
        -- simpl in E. injection E as <- _.
           rewrite (Hl1 a) in Fa by (left; reflexivity). discriminate.
    + rewrite IH. split.
      * intros (l1 & l2 & -> & Fx & Hl1). exists (a :: l1), l2.
        repeat split; auto. intros y [<-|Hy]; auto.
      * intros (l1 & l2 & E & Fx & Hl1). destruct l1 as [|b l1].
        -- simpl in E. injection E as -> _. congruence.
        -- simpl in E. injection E as <- ->. exists l1, l2.
           repeat split; auto. intros y Hy. apply Hl1. right; exact Hy.
Qed.

Lemma find_none_iff (l : list A) :
  find f l = None <-> forall y, In y l -> f y = false.
Proof.
  split.
  - intros H y Hy. exact (find_none f l H y Hy).
  - induction l as [|a l IH]; simpl; intros H; [reflexivity|].
    rewrite (H a) by (left; reflexivity). apply IH.
    intros y Hy. apply H. right; exact Hy.
Qed.

Lemma first_such_unique (l : list A) (x y : A) :
  first_such f l x -> first_such f l y -> x = y.
Proof.
  intros Hx Hy. apply find_first_such in Hx, Hy. congruence.
Qed.

(** The head of [filter f l] is what [find f l] finds. *)
Lemma hd_error_filter (l : list A) : hd_error (filter f l) = find f l.
Proof.
  induction l as [|a l IH]; simpl; [reflexivity|].
  destruct (f a); simpl; auto.
Qed.

(** [filter f l] is one element exactly when one element passes. *)
Lemma filter_single (l : list A) (x : A) :
  filter f l = [x] ->
  exists l1 l2, l = l1 ++ x :: l2 /\ f x = true /\
                (forall y, In y l1 -> f y = false) /\
                (forall y, In y l2 -> f y = false).
Proof.
  revert x. induction l as [|a l IH]; simpl; intros x E; [discriminate|].
  destruct (f a) eqn:Fa.
  - injection E as -> E. exists [], l. repeat split; auto.
    + intros y [].
    + intros y Hy. destruct (f y) eqn:Fy; auto.
      assert (In y (filter f l)) by (apply filter_In; auto).
      rewrite E in H. destruct H.
  - destruct (IH x E) as (l1 & l2 & -> & Fx & H1 & H2).
    exists (a :: l1), l2. repeat split; auto.
    intros y [<-|Hy]; auto.
Qed.

End First.

Arguments find_first_such {A} f l x.
Arguments find_none_iff {A} f l.
Arguments first_such_unique {A} f l x y.
Arguments hd_error_filter {A} f l.
Arguments filter_single {A} f l x.

(* ================================================================= *)
(** ** Facts about strings *)

Lemma prefix_append (a b : string) :
  prefix a b = true <-> exists post, b = (a ++ post)%string.
Proof.
  revert b. induction a as [|c a IH]; intros b; simpl.
  - split; [intros _; exists b; reflexivity | intros _; destruct b; reflexivity].
  - destruct b as [|d b].
    + split; [discriminate | intros (post & E); discriminate].
    + simpl. destruct (ascii_dec c d) as [->|N].
      * rewrite IH. split.
        -- intros (post & ->). exists post. reflexivity.
        -- intros (post & E). injection E as ->. exists post. reflexivity.
      * split; [discriminate|].
        intros (post & E). injection E as -> _. contradiction.
Qed.

Lemma includes_Substring (s sub : string) :
  Js.includes s sub = true <-> Substring sub s.
Proof.
  induction s as [|c s IH].
  - change (Js.includes EmptyString sub)
      with (prefix sub EmptyString || false).
    rewrite orb_false_r, prefix_append. split.
    + intros (post & E). exists EmptyString, post. exact E.
    + intros (pre & post & E). destruct pre; [|discriminate].
      exists post. exact E.
  - change (Js.includes (String c s) sub)
      with (prefix sub (String c s) || Js.includes s sub).
    rewrite orb_true_iff, prefix_append, IH. split.
    + intros [(post & E)|(pre & post & E)].
      * exists EmptyString, post. exact E.
      * exists (String c pre), post. simpl. rewrite E. reflexivity.
    + intros (pre & post & E). destruct pre as [|d pre].
      * left. exists post. exact E.
      * right. simpl in E. injection E as _ E. exists pre, post. exact E.
Qed.

(** *** Patterns without wildcards *)

Lemma like_plain (pat s : string) :
  plain pat = true -> (Db.like pat s = true <-> pat = s).
Proof.
  revert s. induction pat as [|p pat IH]; intros s Hp.
  - destruct s; simpl; split; congruence.
  - simpl in Hp. apply andb_true_iff in Hp as [Hc Hp].
    unfold isWildcard in Hc.
    rewrite negb_true_iff in Hc.
    repeat (apply orb_false_iff in Hc as [Hc ?]).
    simpl. rewrite Hc; simpl. rewrite H0, H.
    destruct s as [|c s]; [split; discriminate|].
    rewrite andb_true_iff, Ascii.eqb_eq, (IH s Hp).
    split; [intros [-> ->]; reflexivity | intros [= -> ->]; auto].
Qed.

Lemma stars_plain (s : string) : plain s = true -> Db.stars s = s.
Proof.
  induction s as [|c s IH]; simpl; [reflexivity|].
  rewrite andb_true_iff, negb_true_iff. intros [Hc Hs].
  unfold isWildcard in Hc.
  repeat (apply orb_false_iff in Hc as [Hc ?]).
  rewrite H1, (IH Hs). reflexivity.
Qed.

Lemma lowerChar_plain (c : ascii) :
  isWildcard c = false -> isWildcard (Js.lowerChar c) = false.
Proof.
  destruct c as [[] [] [] [] [] [] [] []]; vm_compute; congruence.
Qed.

Lemma toLowerCase_plain (s : string) :
  plain s = true -> plain (Js.toLowerCase s) = true.
Proof.
  induction s as [|c s IH]; simpl; [reflexivity|].
  rewrite !andb_true_iff, !negb_true_iff. intros [Hc Hs].
  split; [apply lowerChar_plain; exact Hc | apply IH; exact Hs].
Qed.

(** Against a pattern without wildcards, [ilike] is equality of the two
    names without regard to case. *)
Lemma ilike_plain (value pattern : string) :
  plain pattern = true ->
  (Db.ilike value pattern = true <->
   Js.toLowerCase value = Js.toLowerCase pattern).
Proof.
  intros Hp. unfold Db.ilike. rewrite (stars_plain _ Hp).
  rewrite (like_plain _ _ (toLowerCase_plain _ Hp)).
  split; congruence.
Qed.

Lemma ilike_plain_false (value pattern : string) :
  plain pattern = true ->
  (Db.ilike value pattern = false <->
   Js.toLowerCase value <> Js.toLowerCase pattern).
Proof.
  intros Hp. rewrite <- (ilike_plain value _ Hp).
  destruct (Db.ilike value pattern); split; congruence.
Qed.

(* ================================================================= *)
(** ** Text: the functions of the program and the characters *)

Lemma code_lowerChar (c : ascii) :
  N_of_ascii (Js.lowerChar c)
  = (if (65 <=? N_of_ascii c) && (N_of_ascii c <=? 90)
     then N_of_ascii c + 32 else N_of_ascii c)%N.
Proof.
  unfold Js.lowerChar, Js.isUpper, Js.code.
  destruct ((65 <=? N_of_ascii c) && (N_of_ascii c <=? 90))%N eqn:E;
    [|reflexivity].
  apply N_ascii_embedding.
  apply andb_true_iff in E as [_ E]. apply N.leb_le in E. lia.
Qed.

Lemma N_of_ascii_inj (c d : ascii) : N_of_ascii c = N_of_ascii d -> c = d.
Proof.
  intros H. rewrite <- (ascii_N_embedding c), <- (ascii_N_embedding d), H.
  reflexivity.
Qed.

Lemma lowerChar_sameLetter (c d : ascii) :
  Js.lowerChar c = Js.lowerChar d <-> Text.sameLetter c d.
Proof.
  unfold Text.sameLetter. split.
  - intros H. apply (f_equal N_of_ascii) in H. rewrite !code_lowerChar in H.
    destruct (N.leb_spec 65 (N_of_ascii c)), (N.leb_spec (N_of_ascii c) 90),
      (N.leb_spec 65 (N_of_ascii d)), (N.leb_spec (N_of_ascii d) 90);
      cbn [andb] in H;
      try (left; apply N_of_ascii_inj; lia);
      try (right; exists (N_of_ascii c - 65)%N; lia);
      try (right; exists (N_of_ascii d - 65)%N; lia).
  - intros [->|(n & Hn & [[Hc Hd]|[Hc Hd]])]; [reflexivity| |];
      apply N_of_ascii_inj; rewrite !code_lowerChar, Hc, Hd;
      destruct (N.leb_spec 65 (65 + n)), (N.leb_spec (65 + n) 90),
        (N.leb_spec 65 (97 + n)), (N.leb_spec (97 + n) 90);
      cbn [andb]; lia.
Qed.

(** Two texts have the same lower case exactly when they are equal
    without regard to case. *)
Lemma toLowerCase_sameText (a b : string) :
  Js.toLowerCase a = Js.toLowerCase b <-> Text.sameText a b.
Proof.
  split.
  - revert b. induction a as [|c a IH]; intros [|d b] H; simpl in H;
      try discriminate; [constructor|].
    injection H as Hc Hs. constructor;
      [apply lowerChar_sameLetter; exact Hc | apply IH; exact Hs].
  - induction 1 as [|c d s t Hc _ IH]; simpl; [reflexivity|].
    f_equal; [apply lowerChar_sameLetter; exact Hc | exact IH].
Qed.

Lemma isSpace_blank (c : ascii) : Js.isSpace c = true <-> Text.blank c.
Proof.
  unfold Text.blank.
  destruct c as [[] [] [] [] [] [] [] []];
    (split;
     [ intros H; try discriminate H;
       repeat (try (left; reflexivity); right); reflexivity
     | intros H; try reflexivity;
       repeat (destruct H as [H|H]; [discriminate H|]); discriminate H ]).
Qed.

Lemma isSpace_not_blank (c : ascii) : Js.isSpace c = false <-> ~ Text.blank c.
Proof.
  rewrite <- isSpace_blank. destruct (Js.isSpace c); split; congruence.
Qed.

Lemma isSpace_lowerChar (c : ascii) : Js.isSpace (Js.lowerChar c) = Js.isSpace c.
Proof. destruct c as [[] [] [] [] [] [] [] []]; reflexivity. Qed.

(** *** [trim] *)

Lemma append_nil_r (s : string) : (s ++ EmptyString)%string = s.
Proof. induction s as [|c s IH]; simpl; [reflexivity | rewrite IH; reflexivity]. Qed.

Lemma append_assoc (a b c : string) :
  ((a ++ b) ++ c)%string = (a ++ b ++ c)%string.
Proof. induction a as [|x a IH]; simpl; [reflexivity | rewrite IH; reflexivity]. Qed.

Lemma append_last_inv (t u : string) (c d : ascii) :
  (t ++ String c EmptyString)%string = (u ++ String d EmptyString)%string ->
  t = u /\ c = d.
Proof.
  revert u. induction t as [|x t IH]; intros [|y u] H; simpl in H.
  - injection H as ->. auto.
  - injection H as -> H. destruct u; discriminate.
  - injection H as -> H. destruct t; discriminate.
  - injection H as -> H. destruct (IH u H) as [-> ->]. auto.
Qed.

Lemma trimStart_blanks (l t : string) :
  Text.blanks l -> Js.trimStart (l ++ t) = Js.trimStart t.
Proof.
  induction l as [|c l IH]; simpl; intros H; [reflexivity|].
  destruct H as [Hc Hl]. apply isSpace_blank in Hc. rewrite Hc. apply IH, Hl.
Qed.

Lemma trimStart_edge (t : string) :
  (forall c t', t = String c t' -> ~ Text.blank c) -> Js.trimStart t = t.
Proof.
  destruct t as [|c t]; intros H; [reflexivity|]. simpl.
  rewrite (proj2 (isSpace_not_blank c) (H c t eq_refl)). reflexivity.
Qed.

Lemma trimStart_split (s : string) :
  exists l, s = (l ++ Js.trimStart s)%string /\ Text.blanks l /\
            forall c t', Js.trimStart s = String c t' -> ~ Text.blank c.
Proof.
  induction s as [|c s (l & E & Hl & He)].
  - exists EmptyString. simpl. split; [reflexivity|]. split; [exact I|].
    discriminate.
  - simpl. destruct (Js.isSpace c) eqn:Hc.
    + exists (String c l). simpl. rewrite <- E.
      split; [reflexivity|]. split; [|exact He].
      split; [apply isSpace_blank; exact Hc | exact Hl].
    + exists EmptyString. simpl. split; [reflexivity|]. split; [exact I|].
      intros x t' [= <- _]. apply isSpace_not_blank. exact Hc.
Qed.

Lemma trimEnd_of_blanks (r : string) :
  Text.blanks r -> Js.trimEnd r = EmptyString.
Proof.
  induction r as [|c r IH]; simpl; intros H; [reflexivity|].
  destruct H as [Hc Hr]. rewrite (IH Hr).
  apply isSpace_blank in Hc. rewrite Hc. reflexivity.
Qed.

Lemma trimEnd_blanks (t r : string) :
  Text.blanks r -> Js.trimEnd (t ++ r) = Js.trimEnd t.
Proof.
  intros Hr. induction t as [|c t IH]; simpl.
  - apply trimEnd_of_blanks. exact Hr.
  - rewrite IH. reflexivity.
Qed.

Lemma trimEnd_split (s : string) :
  exists r, s = (Js.trimEnd s ++ r)%string /\ Text.blanks r /\
            forall c t', Js.trimEnd s = (t' ++ String c EmptyString)%string ->
                         ~ Text.blank c.
Proof.
  induction s as [|c s (r & E & Hr & He)].
  - exists EmptyString. simpl. split; [reflexivity|]. split; [exact I|].
    intros c t' H. destruct t'; discriminate.
  - simpl. destruct (Js.trimEnd s) as [|d u] eqn:T.
    + simpl in E. destruct (Js.isSpace c) eqn:Hc.
      * subst r. exists (String c s). simpl.
        split; [reflexivity|]. split.
        -- split; [apply isSpace_blank; exact Hc | exact Hr].
        -- intros x t' H. destruct t'; discriminate.
      * subst r. exists s. simpl.
        split; [reflexivity|]. split; [exact Hr|].
        intros x t' H.
        destruct (append_last_inv EmptyString t' c x H) as [_ <-].
        apply isSpace_not_blank. exact Hc.
    + exists r. simpl. simpl in E. rewrite <- E.
      split; [reflexivity|]. split; [exact Hr|].
      intros x t' H. destruct t' as [|y t'].
      * simpl in H. discriminate.
      * simpl in H. injection H as _ H. apply (He x t'). exact H.
Qed.

Lemma trimEnd_edge (t : string) :
  (forall c t', t = (t' ++ String c EmptyString)%string -> ~ Text.blank c) ->
  Js.trimEnd t = t.
Proof.
  intros H. destruct (trimEnd_split t) as (r & E & Hr & _).
  destruct r as [|c r]; [rewrite append_nil_r in E; congruence|].
  exfalso.
  (* the last character of [t] is a blank of [r] *)
  assert (exists x u, String c r = (u ++ String x EmptyString)%string /\
                      Text.blank x) as (x & u & Eu & Hx).
  { clear E. revert c Hr. induction r as [|d r IH]; intros c Hr.
    - exists c, EmptyString. split; [reflexivity | apply Hr].
    - destruct Hr as [Hc Hr]. destruct (IH d Hr) as (x & u & Eu & Hx).
      exists x, (String c u). simpl. rewrite <- Eu. auto. }
  apply (H x (Js.trimEnd t ++ u)%string); [|exact Hx].
  rewrite append_assoc, <- Eu. exact E.
Qed.

(** The first character of [trimEnd s], when it has one, is the first
    character of [s]. *)
Lemma trimEnd_head (s : string) (c : ascii) (t' : string) :
  Js.trimEnd s = String c t' -> exists s', s = String c s'.
Proof.
  destruct s as [|d s]; simpl; [discriminate|].
  destruct (Js.trimEnd s).
  - destruct (Js.isSpace d); [discriminate|]. intros [= <- _]. eauto.
  - intros [= <- _]. eauto.
Qed.

(** [trim s] is [s] without the white space at its two ends, and
    nothing else is. *)
Lemma trim_trimmedOf (s : string) : Text.trimmedOf s (Js.trim s).
Proof.
  unfold Js.trim.
  destruct (trimStart_split s) as (l & El & Hl & Hstart).
  destruct (trimEnd_split (Js.trimStart s)) as (r & Er & Hr & Hend).
  split; [|split].
  - exists l, r. rewrite <- Er. auto.
  - intros c t' H. destruct (trimEnd_head _ _ _ H) as (s' & Es).
    exact (Hstart c s' Es).
  - exact Hend.
Qed.

Lemma trimmedOf_trim (s t : string) : Text.trimmedOf s t -> t = Js.trim s.
Proof.
  intros ((l & r & -> & Hl & Hr) & Hstart & Hend).
  unfold Js.trim. rewrite (trimStart_blanks l _ Hl).
  destruct t as [|c t].
  - simpl. rewrite <- (append_nil_r r) at 1.
    rewrite (trimStart_blanks r _ Hr). reflexivity.
  - rewrite trimStart_edge.
    + rewrite (trimEnd_blanks _ r Hr). symmetry. apply trimEnd_edge. exact Hend.
    + simpl. intros x t' [= <- _]. exact (Hstart c t eq_refl).
Qed.

Lemma trimStart_toLowerCase (s : string) :
  Js.trimStart (Js.toLowerCase s) = Js.toLowerCase (Js.trimStart s).
Proof.
  induction s as [|c s IH]; simpl; [reflexivity|].
  rewrite isSpace_lowerChar. destruct (Js.isSpace c); [exact IH | reflexivity].
Qed.

Lemma trimEnd_toLowerCase (s : string) :
  Js.trimEnd (Js.toLowerCase s) = Js.toLowerCase (Js.trimEnd s).
Proof.
  induction s as [|c s IH]; simpl; [reflexivity|].
  rewrite IH, isSpace_lowerChar.
  destruct (Js.trimEnd s); simpl; [|reflexivity].
  destruct (Js.isSpace c); reflexivity.
Qed.

Lemma trim_toLowerCase (s : string) :
  Js.trim (Js.toLowerCase s) = Js.toLowerCase (Js.trim s).
Proof.
  unfold Js.trim. rewrite trimStart_toLowerCase, trimEnd_toLowerCase.
  reflexivity.
Qed.

(** The comparison [a.toLowerCase().trim() === b.toLowerCase().trim()]. *)
Lemma normalized_sameTrimmedText (a b : string) :
  Js.trim (Js.toLowerCase a) = Js.trim (Js.toLowerCase b)
  <-> Text.sameTrimmedText a b.
Proof.
  rewrite !trim_toLowerCase, toLowerCase_sameText. split.
  - intros H. exists (Js.trim a), (Js.trim b).
    split; [apply trim_trimmedOf|]. split; [apply trim_trimmedOf | exact H].
  - intros (a' & b' & Ha & Hb & H).
    rewrite <- (trimmedOf_trim _ _ Ha), <- (trimmedOf_trim _ _ Hb). exact H.
Qed.

Lemma normalized_eqb (a b : string) :
  String.eqb (Js.trim (Js.toLowerCase a)) (Js.trim (Js.toLowerCase b)) = true
  <-> Text.sameTrimmedText a b.
Proof. rewrite String.eqb_eq. apply normalized_sameTrimmedText. Qed.

Lemma normalized_eqb_false (a b : string) :
  String.eqb (Js.trim (Js.toLowerCase a)) (Js.trim (Js.toLowerCase b)) = false
  <-> ~ Text.sameTrimmedText a b.
Proof. rewrite String.eqb_neq, normalized_sameTrimmedText. tauto. Qed.

(** *** [includes] on lower-cased text *)

Lemma toLowerCase_app (a b : string) :
  Js.toLowerCase (a ++ b)
  = (Js.toLowerCase a ++ Js.toLowerCase b)%string.
Proof. induction a as [|c a IH]; simpl; [reflexivity | rewrite IH; reflexivity]. Qed.

Lemma toLowerCase_app_inv (s a b : string) :
  Js.toLowerCase s = (a ++ b)%string ->
  exists a0 b0, s = (a0 ++ b0)%string /\
                Js.toLowerCase a0 = a /\ Js.toLowerCase b0 = b.
Proof.
  revert s. induction a as [|c a IH]; intros s H.
  - exists EmptyString, s. auto.
  - destruct s as [|d s]; [discriminate|]. simpl in H. injection H as Hc H.
    destruct (IH s H) as (a0 & b0 & -> & Ha & Hb).
    exists (String d a0), b0. simpl. rewrite Hc, Ha. auto.
Qed.

(** The test [hay.toLowerCase().includes(needle.toLowerCase())]. *)
Lemma includes_containsText (hay needle : string) :
  Js.includes (Js.toLowerCase hay) (Js.toLowerCase needle) = true
  <-> Text.containsText hay needle.
Proof.
  rewrite includes_Substring. unfold Substring, Text.containsText. split.
  - intros (pre & post & E).
    destruct (toLowerCase_app_inv _ _ _ E) as (pre0 & rest & -> & _ & E').
    destruct (toLowerCase_app_inv _ _ _ E') as (mid & post0 & -> & Hm & _).
    exists pre0, mid, post0. split; [reflexivity|].
    apply toLowerCase_sameText. exact Hm.
  - intros (pre & mid & post & -> & Hm).
    apply toLowerCase_sameText in Hm.
    exists (Js.toLowerCase pre), (Js.toLowerCase post).
    rewrite !toLowerCase_app, Hm. reflexivity.
Qed.

Lemma includes_not_containsText (hay needle : string) :
  Js.includes (Js.toLowerCase hay) (Js.toLowerCase needle) = false
  <-> ~ Text.containsText hay needle.
Proof.
  rewrite <- includes_containsText.
  destruct (Js.includes _ _); split; congruence.
Qed.

(** Against a name without wildcards, [ilike] is equality without
    regard to case. *)
Lemma ilike_sameText (value pattern : string) :
  plain pattern = true ->
  (Db.ilike value pattern = true <-> Text.sameText value pattern).
Proof.
  intros Hp. rewrite (ilike_plain _ _ Hp). apply toLowerCase_sameText.
Qed.

Lemma ilike_not_sameText (value pattern : string) :
  plain pattern = true ->
  (Db.ilike value pattern = false <-> ~ Text.sameText value pattern).
Proof.
  intros Hp. rewrite <- (ilike_sameText _ _ Hp).
  destruct (Db.ilike value pattern); split; congruence.
Qed.

Lemma sameText_refl (s : string) : Text.sameText s s.
Proof. apply toLowerCase_sameText. reflexivity. Qed.

Lemma sameText_sym (a b : string) : Text.sameText a b -> Text.sameText b a.
Proof. rewrite <- !toLowerCase_sameText. congruence. Qed.

Lemma sameText_trans (a b c : string) :
  Text.sameText a b -> Text.sameText b c -> Text.sameText a c.
Proof. rewrite <- !toLowerCase_sameText. congruence. Qed.

(** *** Lists: the elements that are kept *)

Lemma filter_Kept {A : Type} (f : A -> bool) (P : A -> Prop) (l : list A) :
  (forall x, In x l -> (f x = true <-> P x)) -> Kept P l (filter f l).
Proof.
  induction l as [|x l IH]; intros H; simpl; [constructor|].
  assert (Kept P l (filter f l)) as Hl
      by (apply IH; intros y Hy; apply H; right; exact Hy).
  pose proof (H x (or_introl eq_refl)) as Hx.
  destruct (f x) eqn:Fx.
  - apply Kept_keep; [apply Hx; reflexivity | exact Hl].
  - apply Kept_drop; [|exact Hl]. intros HP. apply Hx in HP. discriminate.
Qed.

Lemma Kept_length {A : Type} (P : A -> Prop) (l kept : list A) :
  Kept P l kept -> (length kept <= length l)%nat.
Proof. induction 1; simpl; lia. Qed.

(* ================================================================= *)
(** ** The alias resolver *)

Import InventoryService.

Lemma resolveAlias_aliased (products : list Product.t) (item : InvoiceItem.t) :
  aliased products item (resolveAlias products item).
Proof.
  unfold resolveAlias.
  destruct (find _ products) as [existing|] eqn:F.
  - left. apply find_first_such in F as (l1 & l2 & E & Hx & Hl1).
    exists l1, existing, l2. simpl.
    split; [exact E|].
    split; [apply normalized_eqb; exact Hx|].
    split; [intros q Hq; apply normalized_eqb_false; apply Hl1; exact Hq|].
    split; [reflexivity|].
    split; [intros Hc; destruct (Product.category existing);
            [congruence|reflexivity]|].
    split; [intros ->; reflexivity|].
    repeat split; reflexivity.
  - right. split; [|reflexivity].
    intros q Hq. apply normalized_eqb_false.
    exact (proj1 (find_none_iff _ _) F q Hq).
Qed.

(** C7. For ASCII names and a readable catalog, [resolveInvoiceAliases]
    answers the items in order.  An item is rewritten exactly when the
    name of some catalog product equals its [productName] without
    regard to case nor to white space at the two ends; a name that only
    contains the other does not count.  It is rewritten by the first
    such product of the catalog as [getAll] answered it: that product's
    name replaces the item's, and its category too unless it is empty.
    An item without such a product is answered as it is. *)
Theorem resolveInvoiceAliases_exact_trim :
  forall (items : list InvoiceItem.t) (supplierName : string) (db : Db.t)
         (products : list Product.t),
    getAll db = Ok products ->
    (forall p, In p products -> Text.isAscii (Product.name p) = true) ->
    asciiItems items ->
    exists out,
      resolveInvoiceAliases items supplierName db = Ok out /\
      Forall2 (aliased products) items out.
Proof.
  intros items supplierName db products H _ _.
  unfold resolveInvoiceAliases. rewrite H.
  eexists. split; [reflexivity|].
  induction items as [|item items IH]; simpl; constructor; auto.
  apply resolveAlias_aliased.
Qed.

Lemma resolveInvoiceAliases_exact_trim_witness :
  exists out,
    resolveInvoiceAliases
      [Sample.item "  ARROZ" 2 (1 # 2); Sample.item "Harina" 1 (1 # 1);
       Sample.item "HARINA PAN  " 3 (2 # 1)]
      "Acme" Sample.db = Ok out /\
    Forall2 (aliased (map toProduct (Db.products Sample.db)))
      [Sample.item "  ARROZ" 2 (1 # 2); Sample.item "Harina" 1 (1 # 1);
       Sample.item "HARINA PAN  " 3 (2 # 1)] out /\
    map (fun it => (InvoiceItem.productName it, InvoiceItem.category it)) out
    = [(" Arroz ", Some "Otros"); ("Harina", Some "Otros");
       ("Harina Pan", Some "Alimentos")].
Proof.
  destruct (resolveInvoiceAliases_exact_trim
              [Sample.item "  ARROZ" 2 (1 # 2); Sample.item "Harina" 1 (1 # 1);
               Sample.item "HARINA PAN  " 3 (2 # 1)]
              "Acme" Sample.db (map toProduct (Db.products Sample.db)) eq_refl)
    as (out & E & H).
  - intros p [<-|[<-|[]]]; reflexivity.
  - intros it [<-|[<-|[<-|[]]]]; reflexivity.
  - exists out. split; [exact E|]. split; [exact H|].
    vm_compute in E. injection E as <-. reflexivity.
Defined.

(** C8. When the catalog cannot be read, [resolveInvoiceAliases] answers
    the items it was given and throws nothing. *)
Theorem resolveInvoiceAliases_unreadable :
  forall (items : list InvoiceItem.t) (supplierName : string) (db : Db.t)
         (msg : string),
    getAll db = Throw msg ->
    resolveInvoiceAliases items supplierName db = Ok items.
Proof.
  intros items supplierName db msg H.
  unfold resolveInvoiceAliases. rewrite H. reflexivity.
Qed.

Lemma resolveInvoiceAliases_unreadable_witness :
  resolveInvoiceAliases [Sample.item "  ARROZ" 2 (1 # 2)] "Acme" Sample.offline
  = Ok [Sample.item "  ARROZ" 2 (1 # 2)].
Proof.
  apply (resolveInvoiceAliases_unreadable _ "Acme" Sample.offline
           "No se pudo conectar con la base de datos. Verifica tu configuración en Supabase.").
  reflexivity.
Defined.

(** C10. [resolveInvoiceAliases] always answers, with as many items as it
    was given and in the same order; the quantity, price,
    originalQuantity, detectedPackSize and confidence of every item are
    those of the item at the same place in the input. *)
Theorem resolveInvoiceAliases_frame :
  forall (items : list InvoiceItem.t) (supplierName : string) (db : Db.t),
    exists out,
      resolveInvoiceAliases items supplierName db = Ok out /\
      length out = length items /\
      forall (i : nat) (item : InvoiceItem.t),
        nth_error items i = Some item ->
        exists item',
          nth_error out i = Some item' /\
          InvoiceItem.quantity item' = InvoiceItem.quantity item /\
          InvoiceItem.price item' = InvoiceItem.price item /\
          InvoiceItem.originalQuantity item' = InvoiceItem.originalQuantity item /\
          InvoiceItem.detectedPackSize item' = InvoiceItem.detectedPackSize item /\
          InvoiceItem.confidence item' = InvoiceItem.confidence item.
Proof.
  intros items supplierName db. unfold resolveInvoiceAliases.
  destruct (getAll db) as [products|msg].
  - eexists. split; [reflexivity|]. split; [apply length_map|].
    intros i item Hi. exists (resolveAlias products item).
    split; [apply map_nth_error; exact Hi|].
    unfold resolveAlias. destruct (find _ products); simpl;
      repeat split; reflexivity.
  - exists items. split; [reflexivity|]. split; [reflexivity|].
    intros i item Hi. exists item. repeat split; auto.
Qed.

Lemma resolveInvoiceAliases_frame_witness :
  exists out,
    resolveInvoiceAliases [Sample.item "  ARROZ" 2 (1 # 2)] "Acme" Sample.db
    = Ok out /\
    length out = 1%nat.
Proof.
  destruct (resolveInvoiceAliases_frame [Sample.item "  ARROZ" 2 (1 # 2)]
              "Acme" Sample.db) as (out & E & L & _).
  exists out. split; [exact E | exact L].
Defined.

(* ================================================================= *)
(** ** The stock reconciler *)

Lemma findExisting_find (name : string) (db : Db.t) :
  Db.online db = true ->
  findExisting name db
  = find (fun r => Db.ilike (ProductRow.name r) name) (Db.products db).
Proof.
  intros Hon. unfold findExisting, Db.select_products_ilike.
  rewrite Hon, <- hd_error_filter.
  destruct (filter _ (Db.products db)); reflexivity.
Qed.

Lemma findExisting_offline (name : string) (db : Db.t) :
  Db.online db = false -> findExisting name db = None.
Proof.
  intros Hoff. unfold findExisting, Db.select_products_ilike.
  rewrite Hoff. reflexivity.
Qed.

Lemma logActivity_online (type description : string) (amount : Z)
  (now : string) (db : Db.t) :
  Db.online db = true ->
  logActivity type description amount now db
  = Db.mk true (Db.products db) (Db.suppliers db)
      (Db.activity_logs db
         ++ [LogRow.mk (Db.fresh_id db) type description amount now])
      (S (Db.next_id db)).
Proof.
  intros Hon. unfold logActivity, Db.insert_log. rewrite Hon. reflexivity.
Qed.

Lemma update_products_online (upd : ProductRow.t -> ProductRow.t)
  (id : string) (db : Db.t) :
  Db.online db = true ->
  Db.update_products upd id db
  = (Db.mk true
       (map (fun r => if String.eqb (ProductRow.id r) id then upd r else r)
            (Db.products db))
       (Db.suppliers db) (Db.activity_logs db) (Db.next_id db),
     true).
Proof.
  intros Hon. unfold Db.update_products. rewrite Hon. reflexivity.
Qed.

Lemma insert_product_online (row : string -> ProductRow.t) (db : Db.t) :
  Db.online db = true ->
  Db.insert_product row db
  = Db.mk true (Db.products db ++ [row (Db.fresh_id db)])
      (Db.suppliers db) (Db.activity_logs db) (S (Db.next_id db)).
Proof.
  intros Hon. unfold Db.insert_product. rewrite Hon. reflexivity.
Qed.

Lemma products_logActivity (type description : string) (amount : Z)
  (now : string) (db : Db.t) :
  Db.products (logActivity type description amount now db) = Db.products db.
Proof.
  unfold logActivity, Db.insert_log. destruct (Db.online db); reflexivity.
Qed.

Lemma newItemName_cases (newItem : InvoiceItem.t) :
  newItemName newItem
  = match InvoiceItem.productName newItem with
    | EmptyString => "Producto Desconocido"
    | name => name
    end.
Proof.
  unfold newItemName, Js.or_else.
  destruct (InvoiceItem.productName newItem); reflexivity.
Qed.




(** The search of [updateStock] for a name without wildcards: what it
    finds has that name but for case, and it finds nothing exactly when
    no stored product has. *)
Lemma findExisting_sameText (name : string) (db : Db.t) :
  Db.online db = true ->
  plain name = true ->
  (forall existing,
      findExisting name db = Some existing ->
      In existing (Db.products db) /\
      Text.sameText (ProductRow.name existing) name) /\
  (findExisting name db = None <->
   forall r, In r (Db.products db) -> ~ Text.sameText (ProductRow.name r) name).
Proof.
  intros Hon Hp. rewrite (findExisting_find name db Hon). split.
  - intros existing F. apply find_some in F as [Hin Hm].
    split; [exact Hin | apply (ilike_sameText _ _ Hp); exact Hm].
  - rewrite find_none_iff. split; intros H r Hr.
    + apply (ilike_not_sameText _ _ Hp). apply H. exact Hr.
    + apply (ilike_not_sameText _ _ Hp). apply H. exact Hr.
Qed.


(** The loop body of [updateStock] when the search finds nothing. *)
Lemma updateStock_item_created (supplierId : option string)
  (supplierInfo : option SupplierInfo.t) (invoiceCurrency : Currency)
  (exchangeRate : Q) (now : string) (db : Db.t) (newItem : InvoiceItem.t) :
  Db.online db = true ->
  findExisting (newItemName newItem) db = None ->
  Db.products (updateStock_item supplierId supplierInfo invoiceCurrency
                 exchangeRate now db newItem)
  = Db.products db
    ++ [ProductRow.mk (Db.fresh_id db) (newItemName newItem)
          (InvoiceItem.quantity newItem) 10
          (priceInUSD invoiceCurrency exchangeRate (InvoiceItem.price newItem))
          (Js.opt_or_else (InvoiceItem.category newItem) "General")
          now supplierId].
Proof.
  intros Hon F. unfold updateStock_item. rewrite F.
  rewrite insert_product_online by exact Hon.
  rewrite products_logActivity. reflexivity.
Qed.

Lemma updateStock_item_online (supplierId : option string)
  (supplierInfo : option SupplierInfo.t) (invoiceCurrency : Currency)
  (exchangeRate : Q) (now : string) (db : Db.t) (newItem : InvoiceItem.t) :
  Db.online db = true ->
  Db.online (updateStock_item supplierId supplierInfo invoiceCurrency
               exchangeRate now db newItem) = true.
Proof.
  intros Hon. unfold updateStock_item.
  rewrite (findExisting_find _ db Hon).
  destruct (find _ (Db.products db)).
  - rewrite update_products_online by exact Hon. cbn [fst].
    rewrite logActivity_online by reflexivity. reflexivity.
  - rewrite insert_product_online by exact Hon.
    rewrite logActivity_online by reflexivity. reflexivity.
Qed.

Lemma updateStock_item_log (supplierId : option string)
  (supplierInfo : option SupplierInfo.t) (invoiceCurrency : Currency)
  (exchangeRate : Q) (now : string) (db : Db.t) (newItem : InvoiceItem.t) :
  Db.online db = true ->
  exists entry,
    Db.activity_logs (updateStock_item supplierId supplierInfo invoiceCurrency
                        exchangeRate now db newItem)
    = Db.activity_logs db ++ [entry] /\
    LogRow.type entry = "IN" /\
    LogRow.amount entry = InvoiceItem.quantity newItem /\
    LogRow.date entry = now.
Proof.
  intros Hon. unfold updateStock_item.
  rewrite (findExisting_find _ db Hon).
  destruct (find _ (Db.products db)).
  - rewrite update_products_online by exact Hon. cbn [fst].
    rewrite logActivity_online by reflexivity.
    eexists. cbn [Db.activity_logs]. split; [reflexivity|]. cbn. auto.
  - rewrite insert_product_online by exact Hon.
    rewrite logActivity_online by reflexivity.
    eexists. cbn [Db.activity_logs]. split; [reflexivity|]. cbn. auto.
Qed.

Lemma updateStock_items_online (supplierId : option string)
  (supplierInfo : option SupplierInfo.t) (invoiceCurrency : Currency)
  (exchangeRate : Q) (now : string) (items : list InvoiceItem.t) (db : Db.t) :
  Db.online db = true ->
  Db.online (fold_left (updateStock_item supplierId supplierInfo
                          invoiceCurrency exchangeRate now) items db) = true.
Proof.
  revert db. induction items as [|item items IH]; intros db Hon; [exact Hon|].
  cbn [fold_left]. apply IH. apply updateStock_item_online. exact Hon.
Qed.

(** On a reachable database [addSupplier] answers a supplier, either a
    stored one or the one it stores under a fresh id, and leaves the
    products and the log as they are. *)
Lemma addSupplier_online (name rif now : string) (db : Db.t) :
  Db.online db = true ->
  exists db0 supplier,
    addSupplier name rif now db = (db0, Ok supplier) /\
    Db.online db0 = true /\
    Db.products db0 = Db.products db /\
    Db.activity_logs db0 = Db.activity_logs db /\
    ((db0 = db /\ In supplier (map toSupplier (Db.suppliers db))) \/
     Supplier.id supplier = Db.fresh_id db).
Proof.
  intros Hon.
  unfold addSupplier, Db.select_supplier_rif_or_name, Db.insert_supplier.
  rewrite Hon.
  destruct (Db.spliceable rif && Db.spliceable name);
    [|eexists _, _; split; [reflexivity|]; cbn; auto].
  destruct (filter _ (Db.suppliers db)) as [|x [|y rest]] eqn:F;
    cbn [Db.single].
  - eexists _, _. split; [reflexivity|]. cbn. auto.
  - exists db, (toSupplier x). repeat split; auto.
    left. split; [reflexivity|]. apply in_map.
    assert (In x (filter (fun r => String.eqb (SupplierRow.rif r) rif
                                   || Db.ilike (SupplierRow.name r) name)
                         (Db.suppliers db))) as H
        by (rewrite F; left; reflexivity).
    apply filter_In in H. tauto.
  - eexists _, _. split; [reflexivity|]. cbn. auto.
Qed.

(** [updateStock] on a reachable database: the supplier is registered
    when the invoice names one, then the loop body runs over the items
    in order, from the database the registration leaves, with the id of
    that supplier. *)
Lemma updateStock_loop (supplierInfo : option SupplierInfo.t)
  (invoiceCurrency : Currency) (exchangeRate : Q) (now : string) (db : Db.t) :
  Db.online db = true ->
  exists db0,
    Db.online db0 = true /\
    Db.products db0 = Db.products db /\
    Db.activity_logs db0 = Db.activity_logs db /\
    forall items,
      updateStock items supplierInfo invoiceCurrency exchangeRate now db
      = (fold_left (updateStock_item (registeredId supplierInfo now db)
                      supplierInfo invoiceCurrency exchangeRate now) items db0,
         getAll (fold_left (updateStock_item (registeredId supplierInfo now db)
                              supplierInfo invoiceCurrency exchangeRate now)
                   items db0)).
Proof.
  intros Hon. unfold updateStock, registeredId.
  destruct supplierInfo as [si|]; [|exists db; auto].
  destruct (SupplierInfo.name si) as [|c name] eqn:En; cbn [Js.truthy];
    [exists db; auto|].
  assert (Js.or_else (SupplierInfo.rif si) "N/A"
          = match SupplierInfo.rif si with
            | EmptyString => "N/A"
            | rif => rif
            end) as <-
      by (unfold Js.or_else; destruct (SupplierInfo.rif si); reflexivity).
  destruct (addSupplier_online (String c name)
              (Js.or_else (SupplierInfo.rif si) "N/A") now db Hon)
    as (db0 & supplier & E & Hon0 & Hp & Hl & _).
  rewrite E. cbn [snd]. exists db0. auto.
Qed.

Lemma updateStock_online (items : list InvoiceItem.t)
  (supplierInfo : option SupplierInfo.t) (invoiceCurrency : Currency)
  (exchangeRate : Q) (now : string) (db : Db.t) :
  Db.online db = true ->
  exists supplierId db0,
    Db.online db0 = true /\
    Db.products db0 = Db.products db /\
    Db.activity_logs db0 = Db.activity_logs db /\
    updateStock items supplierInfo invoiceCurrency exchangeRate now db
    = (fold_left (updateStock_item supplierId supplierInfo invoiceCurrency
                    exchangeRate now) items db0,
       getAll (fold_left (updateStock_item supplierId supplierInfo
                            invoiceCurrency exchangeRate now) items db0)).
Proof.
  intros Hon.
  destruct (updateStock_loop supplierInfo invoiceCurrency exchangeRate now db
              Hon) as (db0 & Hon0 & Hp & Hl & E).
  exists (registeredId supplierInfo now db), db0. auto.
Qed.




(** An invoice item "harina pan" of quantity 10 against the product
    "Harina Pan" of quantity 5 leaves the quantity 15. *)
Example updateStock_harina :
  match snd (updateStock [Sample.item "harina pan" 10 (80 # 1)]
               (Some (SupplierInfo.mk "ACME" "")) Bs (40 # 1) "t1" Sample.db)
  with
  | Ok products =>
      map (fun p => (Product.name p, Product.quantity p, Product.price p,
                     Product.supplierId p)) products
      = [("Harina Pan", 15, 80 # 40, Some "s1"); (" Arroz ", 3, 1 # 1, None)]
  | Throw _ => False
  end.
Proof. vm_compute. reflexivity. Qed.

(* ================================================================= *)
(** ** Name matching *)

Lemma nameRelated_test (candidate name : string) :
  (String.eqb (Js.trim (Js.toLowerCase candidate))
              (Js.trim (Js.toLowerCase name))
   || Js.includes (Js.toLowerCase candidate) (Js.toLowerCase name)
   || Js.includes (Js.toLowerCase name) (Js.toLowerCase candidate)) = true
  <-> nameRelated candidate name.
Proof.
  unfold nameRelated.
  rewrite !orb_true_iff, normalized_eqb, !includes_containsText.
  tauto.
Qed.

Lemma nameRelated_test_false (candidate name : string) :
  (String.eqb (Js.trim (Js.toLowerCase candidate))
              (Js.trim (Js.toLowerCase name))
   || Js.includes (Js.toLowerCase candidate) (Js.toLowerCase name)
   || Js.includes (Js.toLowerCase name) (Js.toLowerCase candidate)) = false
  <-> ~ nameRelated candidate name.
Proof.
  rewrite <- nameRelated_test.
  destruct (_ || _ || _); split; congruence.
Qed.

(** C2. The scanner and the reconciler disagree on what matches.  The
    catalog holds "Harina Pan" (quantity 5).  For an item "Harina" the
    scanner's [getMatch] answers that product, as the matching policy
    asks; the catalog search of [updateStock] finds nothing, so
    confirming the item leaves "Harina Pan" at 5 and stores a second
    product "Harina".  In the catalog [Harina Pan Integral; Harina Pan],
    [getMatch] answers "Harina Pan Integral" for "harina pan", where the
    policy prefers the exact match "Harina Pan". *)
Theorem matching_policy_divergence :
  let catalog := map toProduct (Db.products Sample.db) in
  let after := fst (updateStock [Sample.item "Harina" 10 (1 # 1)] None USD
                      (1 # 1) "t1" Sample.db) in
  (Scanner.getMatch catalog "Harina" = Some (toProduct Sample.harina) /\
   Spec.findMatch "Harina" catalog = Some (toProduct Sample.harina))
  /\
  (findExisting "Harina" Sample.db = None /\
   length (Db.products after) = 3%nat /\
   (exists created,
       In created (Db.products after) /\
       ProductRow.name created = "Harina" /\
       ProductRow.quantity created = 10) /\
   (forall r, In r (Db.products after) ->
              ProductRow.name r = "Harina Pan" -> ProductRow.quantity r = 5))
  /\
  (Scanner.getMatch Sample.catalog "harina pan" = Some Sample.integral /\
   Spec.findMatch "harina pan" Sample.catalog = Some Sample.pan).
Proof.
  cbv zeta. split; [split; reflexivity|]. split; [|split; reflexivity].
  split; [reflexivity|]. split; [reflexivity|]. split.
  - eexists. split; [right; right; left; reflexivity|]. split; reflexivity.
  - intros r [<-|[<-|[<-|[]]]]; cbn; intros H; try reflexivity;
      discriminate H.
Qed.

(** X26. [getMatch], for ASCII names: it answers the first product of
    the list it is given whose name is related to the searched name,
    that is, equal to it but for case and white space at the ends, or
    containing it but for case, or contained in it but for case,
    whichever of the three; and nothing exactly when no product of the
    list is so related. *)
Theorem getMatch_first_related :
  forall (existingProducts : list Product.t) (itemName : string),
    (forall p, In p existingProducts -> Text.isAscii (Product.name p) = true) ->
    Text.isAscii itemName = true ->
    (forall p,
        Scanner.getMatch existingProducts itemName = Some p <->
        exists l1 l2,
          existingProducts = l1 ++ p :: l2 /\
          nameRelated (Product.name p) itemName /\
          forall q, In q l1 -> ~ nameRelated (Product.name q) itemName)
    /\
    (Scanner.getMatch existingProducts itemName = None <->
     forall q, In q existingProducts ->
               ~ nameRelated (Product.name q) itemName).
Proof.
  intros catalog itemName _ _. split.
  - intros p. unfold Scanner.getMatch. rewrite find_first_such.
    unfold first_such.
    split; intros (l1 & l2 & E & Hp & Hl1); exists l1, l2;
      (split; [exact E|]); (split; [apply nameRelated_test; exact Hp|]);
      intros q Hq; apply nameRelated_test_false; apply Hl1; exact Hq.
  - unfold Scanner.getMatch. rewrite find_none_iff.
    split; intros H q Hq; apply nameRelated_test_false; apply H; exact Hq.
Qed.

Lemma getMatch_first_related_witness :
  Scanner.getMatch Sample.catalog "harina pan" = Some Sample.integral /\
  Scanner.getMatch Sample.catalog "Cafe" = None.
Proof.
  destruct (getMatch_first_related Sample.catalog "harina pan") as (Hsome & _).
  { intros p [<-|[<-|[]]]; reflexivity. }
  { reflexivity. }
  destruct (getMatch_first_related Sample.catalog "Cafe") as (_ & Hnone).
  { intros p [<-|[<-|[]]]; reflexivity. }
  { reflexivity. }
  split.
  - apply Hsome. exists [], [Sample.pan].
    split; [reflexivity|]. split; [|intros q []].
    right. left. exists EmptyString, "Harina Pan", " Integral".
    split; [reflexivity|]. apply toLowerCase_sameText. reflexivity.
  - apply Hnone. intros q [<-|[<-|[]]] H; apply nameRelated_test in H;
      discriminate H.
Defined.

(* ================================================================= *)
(** ** Manual stock-out *)

Lemma map_unchanged {A : Type} (c : A -> bool) (u : A -> A) (l : list A) :
  (forall r, In r l -> c r = false) ->
  map (fun r => if c r then u r else r) l = l.
Proof.
  induction l as [|a l IH]; simpl; intros H; [reflexivity|].
  rewrite (H a) by (left; reflexivity).
  rewrite IH; [reflexivity|]. intros r Hr. apply H. right; exact Hr.
Qed.

Lemma select_product_by_id_Some (productId : string) (db : Db.t)
  (product : ProductRow.t) :
  Db.select_product_by_id productId db = Some product ->
  Db.online db = true /\
  ProductRow.id product = productId /\
  exists l1 l2,
    Db.products db = l1 ++ product :: l2 /\
    (forall r, In r l1 -> String.eqb (ProductRow.id r) productId = false) /\
    (forall r, In r l2 -> String.eqb (ProductRow.id r) productId = false).
Proof.
  unfold Db.select_product_by_id.
  destruct (Db.online db); [|discriminate].
  destruct (filter _ (Db.products db)) as [|x [|y rest]] eqn:F;
    simpl; try discriminate.
  intros [= ->]. apply filter_single in F as (l1 & l2 & E & Hx & H1 & H2).
  split; [reflexivity|]. split; [apply String.eqb_eq; exact Hx|].
  exists l1, l2. auto.
Qed.

(** C3, as it was stated, fails.  A CSV import can leave a negative
    quantity: importing the row "Cafe,-4" stores the product "Cafe" with
    the quantity -4.  For that product and the amount 3 the clamped delta
    is -4, not zero, yet [registerStockOut] changes nothing and logs
    nothing: the quantity is not set to [max(0, -4 - 3) = 0] and stays
    negative. *)
Lemma registerStockOut_counterexample :
  let stored := fst (importFromCSV "name,quantity
Cafe,-4" "t1" Sample.db) in
  (exists product,
      Db.select_product_by_id "id-7" stored = Some product /\
      ProductRow.name product = "Cafe" /\
      ProductRow.quantity product = -4) /\
  registerStockOut "id-7" 3 "t2" stored = stored /\
  ~ Spec.stockOut "id-7" 3 "t2" stored.
Proof.
  cbv zeta. split; [|split].
  - eexists. split; [reflexivity|]. split; reflexivity.
  - reflexivity.
  - intros H.
    match type of H with
    | Spec.stockOut _ _ _ ?d =>
        destruct (H (ProductRow.mk "id-7" "Cafe" (-4) 10 0 "General" "t1" None)
                    eq_refl) as [Hmut _]
    end.
    destruct Hmut as (_ & entry & Hlog & _); [discriminate|].
    vm_compute in Hlog.
    apply (f_equal (@length _)) in Hlog. discriminate Hlog.
Qed.

(** C3, amended.  For a stored product with quantity [q] and any amount
    [a], let [newQuantity = max(0, q - a)] and [delta = q - newQuantity].
    When [delta] is positive, [registerStockOut] sets the product's
    quantity to [newQuantity], which is never negative, and appends one
    OUT entry with the amount [delta]; when [delta] is zero or negative,
    nothing is changed and nothing is logged. *)
Theorem registerStockOut_clamped :
  forall (productId : string) (amount : Z) (now : string) (db : Db.t)
         (product : ProductRow.t),
    Db.select_product_by_id productId db = Some product ->
    let newQuantity := Z.max 0 (ProductRow.quantity product - amount) in
    let delta := ProductRow.quantity product - newQuantity in
    let db' := registerStockOut productId amount now db in
    0 <= newQuantity /\
    (0 < delta -> stockedOut product now newQuantity delta db db') /\
    (delta <= 0 -> db' = db).
Proof.
  intros productId amount now db product Hsel newQuantity delta db'.
  destruct (select_product_by_id_Some _ _ _ Hsel)
    as (Hon & Hid & l1 & l2 & E & H1 & H2).
  split; [apply Z.le_max_l|].
  subst db'. unfold registerStockOut. rewrite Hsel.
  fold newQuantity. fold delta.
  split.
  - intros Hd. apply Z.ltb_lt in Hd. rewrite Hd.
    rewrite update_products_online by exact Hon.
    cbn [fst]. rewrite logActivity_online by reflexivity.
    split.
    + exists l1, l2. split; [exact E|].
      cbn [Db.products]. rewrite E, map_app. cbn [map].
      rewrite (map_unchanged _ _ l1 H1), (map_unchanged _ _ l2 H2).
      rewrite Hid, String.eqb_refl. reflexivity.
    + eexists. cbn [Db.activity_logs]. split; [reflexivity|]. split; reflexivity.
  - intros Hd. apply Z.ltb_ge in Hd. rewrite Hd. reflexivity.
Qed.

Lemma registerStockOut_clamped_witness :
  stockedOut Sample.harina "t1" 0 5 Sample.db
    (registerStockOut "p1" 8 "t1" Sample.db)
  /\ registerStockOut "p1" (-3) "t1" Sample.db = Sample.db.
Proof.
  split.
  - destruct (registerStockOut_clamped "p1" 8 "t1" Sample.db Sample.harina
                eq_refl) as (_ & Hout & _).
    apply Hout. reflexivity.
  - destruct (registerStockOut_clamped "p1" (-3) "t1" Sample.db Sample.harina
                eq_refl) as (_ & _ & Hnone).
    apply Hnone. discriminate.
Defined.


(* ================================================================= *)
(** ** The supplier registrar *)

(** C5.  The store holds "Acme" with rif "J-1" and "Beta" with rif
    "J-2".  Registering ("acme", "J-2") matches both, the request for a
    single row answers none, and [addSupplier] stores a third supplier;
    registering the same pair again stores a fourth and answers another
    id. *)
Theorem addSupplier_duplicates :
  let first := addSupplier "acme" "J-2" "t1" Sample.db in
  let second := addSupplier "acme" "J-2" "t2" (fst first) in
  snd first = Ok (Supplier.mk "id-7" "acme" "J-2" "t1") /\
  snd second = Ok (Supplier.mk "id-8" "acme" "J-2" "t2") /\
  map SupplierRow.id (Db.suppliers (fst second)) = ["s1"; "s2"; "id-7"; "id-8"].
Proof. vm_compute. repeat split. Qed.

(** When at most one stored supplier matches, and the name and the rif
    hold no separator of the filter syntax, registering is idempotent:
    the second call answers the supplier of the first and stores
    nothing, and the first call stores at most one supplier. *)
Lemma addSupplier_idempotent (name rif now now' : string) (db : Db.t) :
  Db.online db = true ->
  Db.spliceable rif = true -> Db.spliceable name = true ->
  (length (filter (fun r => String.eqb (SupplierRow.rif r) rif
                            || Db.ilike (SupplierRow.name r) name)
                  (Db.suppliers db)) <= 1)%nat ->
  let first := addSupplier name rif now db in
  let second := addSupplier name rif now' (fst first) in
  exists s,
    snd first = Ok s /\ snd second = Ok s /\ fst second = fst first /\
    (length (Db.suppliers (fst first)) <= S (length (Db.suppliers db)))%nat.
Proof.
  intros Hon Hrif Hname Hle first second. subst second first.
  destruct (filter (fun r => String.eqb (SupplierRow.rif r) rif
                             || Db.ilike (SupplierRow.name r) name)
                   (Db.suppliers db)) as [|x [|y rest]] eqn:F.
  - set (row := SupplierRow.mk (Db.fresh_id db) name rif now).
    assert (addSupplier name rif now db
            = (Db.mk true (Db.products db) (Db.suppliers db ++ [row])
                 (Db.activity_logs db) (S (Db.next_id db)),
               Ok (toSupplier row))) as E1.
    { unfold addSupplier, Db.select_supplier_rif_or_name, Db.insert_supplier.
      rewrite Hon, Hrif, Hname, F. reflexivity. }
    rewrite E1. cbn [fst snd]. exists (toSupplier row).
    split; [reflexivity|].
    unfold addSupplier, Db.select_supplier_rif_or_name.
    cbn [Db.online Db.suppliers]. rewrite Hrif, Hname, filter_app, F.
    cbn [filter app row SupplierRow.rif]. rewrite String.eqb_refl.
    cbn [andb orb Db.single fst snd]. split; [reflexivity|].
    split; [reflexivity|].
    rewrite length_app. cbn [length]. lia.
  - assert (addSupplier name rif now db = (db, Ok (toSupplier x))) as E1.
    { unfold addSupplier, Db.select_supplier_rif_or_name.
      rewrite Hon, Hrif, Hname, F. reflexivity. }
    rewrite E1. cbn [fst snd]. exists (toSupplier x).
    split; [reflexivity|].
    unfold addSupplier, Db.select_supplier_rif_or_name.
    rewrite Hon, Hrif, Hname, F. cbn [andb Db.single fst snd].
    repeat split. lia.
  - cbn [length] in Hle. lia.
Qed.

(* ================================================================= *)
(** ** Non-negative quantities and prices *)

Lemma positive_lt (q : Q) : Js.positive q = true <-> (0 < q)%Q.
Proof.
  unfold Js.positive. rewrite negb_true_iff. split.
  - intros H. apply Qnot_le_lt. intros Hle.
    apply Qle_bool_iff in Hle. congruence.
  - intros H. destruct (Qle_bool q 0) eqn:E; [|reflexivity].
    apply Qle_bool_iff in E. exfalso. exact (Qlt_not_le _ _ H E).
Qed.

Lemma priceInUSD_nonneg (invoiceCurrency : Currency) (exchangeRate price : Q) :
  (0 <= price)%Q ->
  (invoiceCurrency = Bs -> (0 < exchangeRate)%Q) ->
  (0 <= priceInUSD invoiceCurrency exchangeRate price)%Q.
Proof.
  intros Hp Hr. destruct invoiceCurrency; simpl; [exact Hp|].
  apply Qle_shift_div_l; [apply Hr; reflexivity|].
  rewrite Qmult_0_l. exact Hp.
Qed.

Lemma products_addSupplier (name rif now : string) (db : Db.t) :
  Db.products (fst (addSupplier name rif now db)) = Db.products db.
Proof.
  unfold addSupplier, Db.select_supplier_rif_or_name, Db.insert_supplier.
  destruct (Db.online db); [|reflexivity].
  destruct (Db.spliceable rif && Db.spliceable name); [|reflexivity].
  destruct (Db.single _); reflexivity.
Qed.

Lemma nonNegative_log (type description : string) (amount : Z)
  (now : string) (db : Db.t) :
  nonNegative db -> nonNegative (logActivity type description amount now db).
Proof.
  unfold nonNegative. rewrite products_logActivity. auto.
Qed.

Lemma nonNegative_update (upd : ProductRow.t -> ProductRow.t) (id : string)
  (db : Db.t) :
  nonNegative db ->
  (forall r, nonNegativeRow r -> nonNegativeRow (upd r)) ->
  nonNegative (fst (Db.update_products upd id db)).
Proof.
  unfold nonNegative, Db.update_products. intros Hdb Hupd.
  destruct (Db.online db); [|exact Hdb]. cbn [fst Db.products].
  induction Hdb as [|r l Hr Hl IH]; simpl; constructor; auto.
  destruct (String.eqb _ _); auto.
Qed.

Lemma nonNegative_insert (row : string -> ProductRow.t) (db : Db.t) :
  nonNegative db ->
  nonNegativeRow (row (Db.fresh_id db)) ->
  nonNegative (Db.insert_product row db).
Proof.
  unfold nonNegative, Db.insert_product. intros Hdb Hrow.
  destruct (Db.online db); [|exact Hdb]. cbn [Db.products].
  apply Forall_app. split; [exact Hdb|]. constructor; [exact Hrow|constructor].
Qed.

Lemma findExisting_In (name : string) (db : Db.t) (r : ProductRow.t) :
  findExisting name db = Some r -> In r (Db.products db).
Proof.
  unfold findExisting, Db.select_products_ilike.
  destruct (Db.online db); [|discriminate].
  destruct (filter _ (Db.products db)) as [|x rest] eqn:F; [discriminate|].
  intros [= ->].
  assert (In r (filter (fun q => Db.ilike (ProductRow.name q) name)
                       (Db.products db))) as H
      by (rewrite F; left; reflexivity).
  apply filter_In in H. tauto.
Qed.

Lemma updateStock_item_nonNegative (supplierId : option string)
  (supplierInfo : option SupplierInfo.t) (invoiceCurrency : Currency)
  (exchangeRate : Q) (now : string) (db : Db.t) (newItem : InvoiceItem.t) :
  nonNegative db ->
  0 <= InvoiceItem.quantity newItem ->
  (0 <= InvoiceItem.price newItem)%Q ->
  (invoiceCurrency = Bs -> (0 < exchangeRate)%Q) ->
  nonNegative (updateStock_item supplierId supplierInfo invoiceCurrency
                 exchangeRate now db newItem).
Proof.
  intros Hdb Hq Hp Hr. unfold updateStock_item.
  pose proof (priceInUSD_nonneg invoiceCurrency exchangeRate _ Hp Hr) as Hprice.
  destruct (findExisting _ db) as [existing|] eqn:F.
  - apply nonNegative_log. apply nonNegative_update; [exact Hdb|].
    intros r _. split; cbn; [|exact Hprice].
    apply findExisting_In in F.
    unfold nonNegative in Hdb. rewrite Forall_forall in Hdb.
    destruct (Hdb existing F) as [He _]. lia.
  - apply nonNegative_log. apply nonNegative_insert; [exact Hdb|].
    split; cbn; assumption.
Qed.

Lemma registerStockOut_nonNegative (productId : string) (amount : Z)
  (now : string) (db : Db.t) :
  nonNegative db -> nonNegative (registerStockOut productId amount now db).
Proof.
  intros Hdb. unfold registerStockOut.
  destruct (Db.select_product_by_id productId db) as [product|]; [|exact Hdb].
  destruct (0 <? _); [|exact Hdb].
  apply nonNegative_log. apply nonNegative_update; [exact Hdb|].
  intros r [_ Hp]. split; cbn; [apply Z.le_max_l | exact Hp].
Qed.

Lemma updateProductDetails_nonNegative (id : string)
  (updates : PartialProduct.t) (now : string) (db : Db.t) :
  nonNegative db ->
  (forall q, PartialProduct.quantity updates = Some q -> 0 <= q) ->
  (forall p, PartialProduct.price updates = Some p -> (0 <= p)%Q) ->
  nonNegative (fst (updateProductDetails id updates now db)).
Proof.
  intros Hdb Hq Hp. unfold updateProductDetails.
  match goal with
  | |- context [Db.update_products ?u id db] =>
      pose proof (nonNegative_update u id db Hdb) as H;
      destruct (Db.update_products u id db) as [db' ok]
  end.
  cbn [fst] in H.
  assert (nonNegative db') as Hdb'.
  { apply H. intros r [Hrq Hrp]. split; cbn.
    - destruct (PartialProduct.quantity updates); auto.
    - destruct (PartialProduct.price updates); auto. }
  destruct ok; exact Hdb'.
Qed.

(** *** The CSV import as a loop over the parsed rows *)

Lemma importLines_rows (currentProducts : list Product.t) (now : string)
  (lines : list string) (db : Db.t) (addedCount updatedCount : nat) :
  fst (fst (fold_left (importLine currentProducts now) lines
              (db, addedCount, updatedCount)))
  = fold_left (fun d row => importRow currentProducts now row d)
      (flat_map (fun rawLine => match parseLine rawLine with
                                | Some row => [row]
                                | None => []
                                end) lines)
      db.
Proof.
  revert db addedCount updatedCount.
  induction lines as [|l lines IH]; intros db a u; [reflexivity|].
  cbn [fold_left flat_map]. rewrite fold_left_app.
  unfold importLine at 2.
  destruct (parseLine l) as [row|]; cbn [fold_left].
  - destruct (findByName currentProducts (csv_name row)); apply IH.
  - apply IH.
Qed.

Lemma importFromCSV_products (csvText now : string) (db : Db.t) :
  Db.online db = true ->
  Db.products (fst (importFromCSV csvText now db))
  = Db.products
      (fold_left
         (fun d row => importRow (map toProduct (Db.products db)) now row d)
         (csvRows csvText) db).
Proof.
  intros Hon. unfold importFromCSV, getAll, Db.select_products, csvRows.
  rewrite Hon.
  rewrite <- (importLines_rows (map toProduct (Db.products db)) now _ db 0 0).
  destruct (fold_left _ _ _) as [[db' a] u].
  cbn [fst]. apply products_logActivity.
Qed.

Lemma importFromCSV_offline (csvText now : string) (db : Db.t) :
  Db.online db = false -> fst (importFromCSV csvText now db) = db.
Proof.
  intros Hoff. unfold importFromCSV, getAll, Db.select_products.
  rewrite Hoff. reflexivity.
Qed.

Lemma importRow_nonNegative (currentProducts : list Product.t)
  (now : string) (row : CsvRow) (db : Db.t) :
  (forall p, In p currentProducts ->
             0 <= Product.quantity p /\ (0 <= Product.price p)%Q) ->
  0 <= csv_quantity row -> (0 <= csv_price row)%Q ->
  nonNegative db ->
  nonNegative (importRow currentProducts now row db).
Proof.
  intros Hcp Hq Hp Hdb. unfold importRow.
  destruct (findByName currentProducts (csv_name row)) as [existing|] eqn:F.
  - apply find_some in F as [Hin _].
    destruct (Hcp existing Hin) as [Heq Hep].
    apply nonNegative_update; [exact Hdb|].
    intros r _. split; cbn; [lia|].
    destruct (Js.positive (csv_price row)); assumption.
  - apply nonNegative_insert; [exact Hdb|]. split; cbn; assumption.
Qed.

Lemma not_nonNegative (db : Db.t) :
  (exists r, In r (Db.products db) /\
             (ProductRow.quantity r < 0 \/ (ProductRow.price r < 0)%Q)) ->
  ~ nonNegative db.
Proof.
  intros (r & Hin & Hneg) Hdb.
  unfold nonNegative in Hdb. rewrite Forall_forall in Hdb.
  destruct (Hdb r Hin) as [Hq Hp]. destruct Hneg as [Hneg|Hneg].
  - lia.
  - exact (Qlt_not_le _ _ Hneg Hp).
Qed.

Lemma nonNegative_sample : nonNegative Sample.db.
Proof.
  unfold nonNegative. cbn.
  repeat constructor; cbn; try lia; unfold Qle; cbn; lia.
Qed.

(** The claim fails as stated.  From a catalog of non-negative
    quantities and prices, [updateStock] with an item of quantity -8 for
    a product of quantity 5, [importFromCSV] with a row of quantity -4
    and price -2, and [updateProductDetails] with the price -1 each
    leave a negative quantity or price. *)
Lemma nonNegative_counterexample :
  nonNegative Sample.db /\
  ~ nonNegative
      (run (UpdateStock [Sample.item "Harina Pan" (-8) (1 # 1)] None USD (1 # 1))
           "t1" Sample.db) /\
  ~ nonNegative (run (ImportFromCSV "name,quantity,price
Cafe,-4,-2") "t1" Sample.db) /\
  ~ nonNegative
      (run (UpdateProductDetails "p1"
              (PartialProduct.mk None None None None (Some (-1 # 1))
                 None None None))
           "t1" Sample.db).
Proof.
  split; [exact nonNegative_sample|].
  split; [|split]; apply not_nonNegative; vm_compute; eexists.
  - split; [left; reflexivity|]. left. reflexivity.
  - split; [right; right; left; reflexivity|]. left. reflexivity.
  - split; [left; reflexivity|]. right. reflexivity.
Qed.

(** C4, amended.  From a catalog whose quantities and prices are all
    non-negative, [registerStockOut] always leaves such a catalog, and
    [updateStock], [importFromCSV] and [updateProductDetails] leave one
    when the numbers they are given are non-negative: the quantity and
    price of every invoice item (with a positive exchange rate for a Bs
    invoice), of every imported CSV row, and of the update. *)
Theorem nonNegative_preserved :
  forall (op : Operation) (now : string) (db : Db.t),
    nonNegative db -> nonNegativeInput op -> nonNegative (run op now db).
Proof.
  intros op now db Hdb Hin. destruct op as [items si cur rate|pid amount|csv|id updates];
    cbn [run nonNegativeInput] in *.
  - (* updateStock *)
    destruct Hin as [Hitems Hrate]. unfold updateStock.
    assert (forall sid d, nonNegative d ->
              nonNegative (fold_left (updateStock_item sid si cur rate now) items d))
      as Hfold.
    { intros sid. induction items as [|it items IH]; intros d Hd; [exact Hd|].
      cbn [fold_left]. apply IH.
      - intros item Hitem. apply Hitems. right; exact Hitem.
      - destruct (Hitems it (or_introl eq_refl)) as [Hq Hp].
        apply updateStock_item_nonNegative; assumption. }
    destruct si as [si|]; [|cbn [fst]; apply Hfold; exact Hdb].
    destruct (Js.truthy (SupplierInfo.name si)); [|cbn [fst]; apply Hfold; exact Hdb].
    pose proof (products_addSupplier (SupplierInfo.name si)
                  (Js.or_else (SupplierInfo.rif si) "N/A") now db) as Hsup.
    destruct (addSupplier _ _ now db) as [db1 [supplier|e]]; cbn [fst] in *.
    + apply Hfold. unfold nonNegative. rewrite Hsup. exact Hdb.
    + unfold nonNegative. rewrite Hsup. exact Hdb.
  - (* registerStockOut *)
    apply registerStockOut_nonNegative. exact Hdb.
  - (* importFromCSV *)
    destruct (Db.online db) eqn:Hon;
      [|rewrite importFromCSV_offline by exact Hon; exact Hdb].
    unfold nonNegative. rewrite importFromCSV_products by exact Hon.
    assert (forall p, In p (map toProduct (Db.products db)) ->
                      0 <= Product.quantity p /\ (0 <= Product.price p)%Q)
      as Hcp.
    { intros p Hp. apply in_map_iff in Hp as (r & <- & Hr).
      unfold nonNegative in Hdb. rewrite Forall_forall in Hdb.
      exact (Hdb r Hr). }
    revert Hcp. generalize (map toProduct (Db.products db)). intros cp Hcp.
    revert Hin. generalize (csvRows csv). intros rows.
    clear Hon. revert db Hdb.
    induction rows as [|row rows IH]; intros db Hdb Hin; [exact Hdb|].
    cbn [fold_left].
    destruct (Hin row (or_introl eq_refl)) as [Hq Hp].
    apply IH.
    + apply importRow_nonNegative; assumption.
    + intros r Hr. apply Hin. right; exact Hr.
  - (* updateProductDetails *)
    destruct Hin as [Hq Hp].
    apply updateProductDetails_nonNegative; assumption.
Qed.

Lemma nonNegative_preserved_witness :
  nonNegative
    (run (UpdateStock [Sample.item "harina pan" 10 (80 # 1)] None Bs (40 # 1))
         "t1" Sample.db)
  /\ nonNegative (run (RegisterStockOut "p1" 8) "t1" Sample.db).
Proof.
  split.
  - apply (nonNegative_preserved
             (UpdateStock [Sample.item "harina pan" 10 (80 # 1)] None Bs (40 # 1))
             "t1" Sample.db).
    + unfold nonNegative. cbn.
      repeat constructor; cbn; try lia; unfold Qle; cbn; lia.
    + cbn. split.
      * intros item [<-|[]]. cbn. split; [lia|]. unfold Qle; cbn; lia.
      * intros _. reflexivity.
  - apply (nonNegative_preserved (RegisterStockOut "p1" 8) "t1" Sample.db).
    + unfold nonNegative. cbn.
      repeat constructor; cbn; try lia; unfold Qle; cbn; lia.
    + exact I.
Defined.


(* ================================================================= *)
(** ** The CSV import *)

Lemma importRow_online (currentProducts : list Product.t) (now : string)
  (row : CsvRow) (d : Db.t) :
  Db.online d = true -> Db.online (importRow currentProducts now row d) = true.
Proof.
  intros Hon. unfold importRow, Db.update_products, Db.insert_product.
  destruct (findByName _ _); rewrite Hon; reflexivity.
Qed.

(** A row names a product of the catalog read at the start exactly when
    a product of that catalog has the row's name but for case. *)
Lemma namesProduct_sameText (currentProducts : list Product.t) (row : CsvRow) :
  namesProduct currentProducts row = true <->
  exists p, In p currentProducts /\
            Text.sameText (Product.name p) (csv_name row).
Proof.
  unfold namesProduct, findByName.
  destruct (find _ currentProducts) as [p|] eqn:F.
  - split; [intros _|reflexivity]. apply find_some in F as [Hin Hp].
    exists p. split; [exact Hin|].
    apply toLowerCase_sameText, String.eqb_eq. exact Hp.
  - split; [discriminate|]. intros (p & Hin & Hp). exfalso.
    apply toLowerCase_sameText, String.eqb_eq in Hp.
    rewrite (proj1 (find_none_iff _ _) F p Hin) in Hp. discriminate.
Qed.

(** C6. The rows of one import are all matched against the catalog read
    before the first row, so a row does not see what an earlier row of
    the same file did.  The catalog holds "Arroz" with quantity 10: the
    rows "Arroz,5" and "arroz,7" leave the quantity 10 + 7 = 17, the 5 of
    the first row is lost, where adding every row gives 22.  On an empty
    catalog the rows "Cafe,5" and "cafe,7" store two products, where the
    second row names the product the first one created.  And a minimum
    stock written 0 is stored as 10. *)
Theorem importFromCSV_repeated_rows :
  (snd (importFromCSV "name,quantity
Arroz,5
arroz,7" "t1" Sample.pantry) = Ok (0%nat, 2%nat)
   /\
   Permutation
     (map Sample.summary
        (Db.products (fst (importFromCSV "name,quantity
Arroz,5
arroz,7" "t1" Sample.pantry))))
     [("Arroz", 17, 3 # 2, 5, "Alimentos")]
   /\
   Permutation
     (map Sample.summary
        (Db.products (Spec.importBatch "name,quantity
Arroz,5
arroz,7" "t1" Sample.pantry)))
     [("Arroz", 22, 3 # 2, 5, "Alimentos")])
  /\
  (snd (importFromCSV "name,quantity
Cafe,5
cafe,7" "t1" Sample.empty) = Ok (2%nat, 0%nat)
   /\
   Permutation
     (map Sample.summary
        (Db.products (fst (importFromCSV "name,quantity
Cafe,5
cafe,7" "t1" Sample.empty))))
     [("Cafe", 5, 0%Q, 10, "General"); ("cafe", 7, 0%Q, 10, "General")]
   /\
   Permutation
     (map Sample.summary
        (Db.products (Spec.importBatch "name,quantity
Cafe,5
cafe,7" "t1" Sample.empty)))
     [("Cafe", 12, 0%Q, 10, "General")])
  /\
  (Permutation
     (map Sample.summary
        (Db.products (fst (importFromCSV "name,quantity,price,minStock,category
Pan,3,1,0,Alimentos" "t1" Sample.empty))))
     [("Pan", 3, 1%Q, 10, "Alimentos")]
   /\
   Permutation
     (map Sample.summary
        (Db.products (Spec.importBatch "name,quantity,price,minStock,category
Pan,3,1,0,Alimentos" "t1" Sample.empty)))
     [("Pan", 3, 1%Q, 0, "Alimentos")]).
Proof.
  repeat split; try reflexivity; vm_compute; apply Permutation_refl.
Qed.

(** The specification's own example: importing the row
    "Arroz,20,1.50,5,Alimentos" into an empty catalog, and importing it
    again. *)
Example importFromCSV_arroz :
  let csv := "name,quantity,price,minStock,category
Arroz,20,1.50,5,Alimentos" in
  map Sample.summary (Db.products (fst (importFromCSV csv "t1" Sample.empty)))
  = [("Arroz", 20, 3 # 2, 5, "Alimentos")] /\
  map Sample.summary
      (Db.products
         (fst (importFromCSV csv "t2"
                 (fst (importFromCSV csv "t1" Sample.empty)))))
  = [("Arroz", 40, 3 # 2, 5, "Alimentos")].
Proof. split; reflexivity. Qed.

(* ================================================================= *)
(** ** Currency conversion *)

(** On exact rationals and for a rate that is not zero, the conversion
    to the canonical currency and the conversion for display undo each
    other. *)
Lemma conversion_round_trip_exact (currency : Currency) (exchangeRate x : Q) :
  ~ (exchangeRate == 0)%Q ->
  (InventoryTable.displayPrice currency exchangeRate
     (priceInUSD currency exchangeRate x) == x)%Q /\
  (InventoryTable.priceToSave currency exchangeRate
     (InventoryTable.displayPrice currency exchangeRate x) == x)%Q.
Proof.
  intros Hr. destruct currency; simpl.
  - split; reflexivity.
  - split.
    + rewrite Qmult_comm. apply Qmult_div_r. exact Hr.
    + apply Qdiv_mult_l. exact Hr.
Qed.

Section Rounding.

Import Binary64.
Local Open Scope Q_scope.

(** The conversions on JavaScript numbers are the exact ones, rounded. *)
Lemma rounded_conversions (exchangeRate x : Q) :
  ~ exchangeRate == 0 ->
  Rounded.priceInUSD Bs exchangeRate x
  = round (priceInUSD Bs exchangeRate x) /\
  Rounded.displayPrice Bs exchangeRate x
  = round (InventoryTable.displayPrice Bs exchangeRate x) /\
  Rounded.priceToSave Bs exchangeRate x
  = round (InventoryTable.priceToSave Bs exchangeRate x).
Proof.
  intros Hr.
  assert (Qeq_bool exchangeRate 0 = false) as E.
  { destruct (Qeq_bool exchangeRate 0) eqn:E; [|reflexivity].
    apply Qeq_bool_iff in E. contradiction. }
  unfold Rounded.priceInUSD, Rounded.displayPrice, Rounded.priceToSave,
    div, mul. rewrite E. repeat split.
Qed.

(** The rounding of this model and that of the floating-point unit
    agree on the operations of the examples below. *)
Example round_as_the_machine :
  div 1 49 = ofFloat (1 / 49)%float /\
  Rounded.storedAndShown Bs 49 1 = ofFloat (1 / 49 * 49)%float /\
  Rounded.shownAndSaved Bs 3 7 = ofFloat (7 * 3 / 3)%float /\
  Rounded.storedAndShown Bs 3 7 = ofFloat (7 / 3 * 3)%float /\
  Rounded.storedAndShown Bs (73 # 2) (5003 # 4)
  = ofFloat (1250.75 / 36.5 * 36.5)%float /\
  Rounded.shownAndSaved Bs (73 # 2) (5003 # 4)
  = ofFloat (1250.75 * 36.5 / 36.5)%float /\
  ofFloat 0x1.999999999999ap-4%float
  = Some (3602879701896397 # 36028797018963968) /\
  Rounded.shownAndSaved Bs 3 (3602879701896397 # 36028797018963968)
  = ofFloat (0x1.999999999999ap-4 * 3 / 3)%float /\
  Rounded.shownAndSaved Bs 3 (3602879701896397 # 36028797018963968)
  <> Some (3602879701896397 # 36028797018963968) /\
  div 7 3 = ofFloat (7 / 3)%float /\
  div (pow2 1023) (1 # 2) = ofFloat (0x1p1023 / 0x1p-1)%float /\
  div (pow2 (-1074)) 4 = ofFloat (0x1p-1074 / 4)%float /\
  div (3 * pow2 (-1074)) 2 = ofFloat (3 * 0x1p-1074 / 2)%float /\
  mul maxValue 1 = ofFloat (0x1.fffffffffffffp1023 * 1)%float /\
  mul maxValue 2 = ofFloat (0x1.fffffffffffffp1023 * 2)%float /\
  div maxValue (1 - pow2 (-53))
  = ofFloat (0x1.fffffffffffffp1023 / 0x1.fffffffffffffp-1)%float.
Proof. vm_compute. repeat split. discriminate. Qed.

Lemma pow2_pos (e : Z) : 0 < pow2 e.
Proof. apply Qpower_0_lt. reflexivity. Qed.

Lemma pow2_plus (a b : Z) : pow2 (a + b) == pow2 a * pow2 b.
Proof. apply Qpower_plus. discriminate. Qed.

Lemma pow2_inject (n : Z) : (0 <= n)%Z -> pow2 n == inject_Z (2 ^ n).
Proof. intros H. unfold pow2. rewrite (Zpower_Qpower 2 n H). reflexivity. Qed.

Lemma nearestEven_error (q : Q) :
  Qabs (inject_Z (nearestEven q) - q) <= 1 # 2.
Proof.
  unfold nearestEven.
  pose proof (Qfloor_le q) as Hlo. pose proof (Qlt_floor q) as Hhi.
  rewrite inject_Z_plus in Hhi. change (inject_Z 1) with 1 in Hhi.
  apply Qabs_Qle_condition.
  destruct (Qcompare_spec (q - inject_Z (Qfloor q)) (1 # 2)) as [E|L|G].
  - destruct (Z.even (Qfloor q)); rewrite ?inject_Z_plus;
      change (inject_Z 1) with 1; split; lra.
  - split; lra.
  - rewrite inject_Z_plus. change (inject_Z 1) with 1. split; lra.
Qed.

Lemma Qdiv_le_cross (A B N D : Z) :
  (0 <= A <= N)%Z -> (0 < D <= B)%Z ->
  inject_Z A / inject_Z B <= inject_Z N / inject_Z D.
Proof.
  intros [HA HN] [HD HB].
  assert (0 < inject_Z B) as HB' by (rewrite <- (Zlt_Qlt 0); lia).
  assert (0 < inject_Z D) as HD' by (rewrite <- (Zlt_Qlt 0); lia).
  apply Qle_shift_div_r; [exact HB'|].
  setoid_replace (inject_Z N / inject_Z D * inject_Z B)
    with (inject_Z N * inject_Z B / inject_Z D)
    by (field; intros H; rewrite H in HD'; discriminate).
  apply Qle_shift_div_l; [exact HD'|].
  rewrite <- !inject_Z_mult, <- Zle_Qle. nia.
Qed.

Lemma ilog2_le (x : Q) : ~ x == 0 -> pow2 (ilog2 x) <= Qabs x.
Proof.
  intros Hx. unfold ilog2.
  set (n := Z.abs (Qnum x)). set (d := Zpos (Qden x)).
  destruct (Qle_bool (pow2 (Z.log2 n - Z.log2 d)) (Qabs x)) eqn:E.
  - apply Qle_bool_iff. exact E.
  - assert (0 < n)%Z as Hn0.
    { subst n. destruct x as [p q]. unfold Qeq in Hx. cbn in *. lia. }
    assert (0 < d)%Z as Hd0 by (subst d; lia).
    destruct (Z.log2_spec n Hn0) as [Hn _].
    destruct (Z.log2_spec d Hd0) as [_ Hd].
    pose proof (Z.log2_nonneg n) as Ha. pose proof (Z.log2_nonneg d) as Hb.
    replace (Z.log2 n - Z.log2 d - 1)%Z
      with (Z.log2 n - Z.succ (Z.log2 d))%Z by lia.
    assert (pow2 (Z.log2 n - Z.succ (Z.log2 d))
            == inject_Z (2 ^ Z.log2 n) / inject_Z (2 ^ Z.succ (Z.log2 d)))
      as ->.
    { rewrite <- !pow2_inject by lia. unfold pow2.
      apply Qpower_minus. discriminate. }
    assert (Qabs x == inject_Z n / inject_Z d) as ->.
    { subst n d. destruct x as [p q]. cbn [Qabs Qnum Qden].
      apply Qmake_Qdiv. }
    apply Qdiv_le_cross; lia.
Qed.

(** The rounding error of a value in the normal range. *)
Lemma round_error (x : Q) :
  pow2 (-1022) <= Qabs x -> Qabs x <= pow2 1022 ->
  exists y d, round x = Some y /\ y == x * (1 + d) /\ Qabs d <= pow2 (-53).
Proof.
  intros Hlo Hhi.
  assert (0 < Qabs x) as Hpos
      by (eapply Qlt_le_trans; [apply (pow2_pos (-1022)) | exact Hlo]).
  assert (~ x == 0) as Hx.
  { intros H. rewrite H in Hpos. discriminate. }
  set (e := lastDigit x).
  set (m := nearestEven (x / pow2 e)).
  set (y := inject_Z m * pow2 e).
  pose proof (pow2_pos e) as He.
  (* the error is half a unit of the last digit, at most *)
  assert (Qabs (y - x) <= pow2 e * (1 # 2)) as Herr.
  { setoid_replace (y - x) with ((inject_Z m - x / pow2 e) * pow2 e)
      by (subst y; field; intros H; rewrite H in He; discriminate).
    rewrite Qabs_Qmult, (Qabs_pos (pow2 e)) by (apply Qlt_le_weak; exact He).
    rewrite Qmult_comm. apply Qmult_le_l; [exact He|].
    apply nearestEven_error. }
  (* which is at most 2^-53 times the value *)
  assert (pow2 e * (1 # 2) <= pow2 (-53) * Qabs x) as Hulp.
  { subst e. unfold lastDigit.
    destruct (Z.max_spec emin (ilog2 x - 52)) as [[_ ->]|[_ ->]].
    - replace (ilog2 x - 52)%Z with (-53 + 1 + ilog2 x)%Z by lia.
      rewrite !pow2_plus.
      setoid_replace (pow2 (-53) * pow2 1 * pow2 (ilog2 x) * (1 # 2))
        with (pow2 (-53) * pow2 (ilog2 x))
        by (change (pow2 1) with 2; ring).
      apply Qmult_le_l; [apply pow2_pos | apply ilog2_le; exact Hx].
    - apply Qle_trans with (pow2 (-53) * pow2 (-1022)).
      + rewrite <- pow2_plus. unfold emin.
        change (pow2 (-1074) * (1 # 2) <= pow2 (-53 + -1022)).
        unfold pow2. cbn. unfold Qle. cbn. lia.
      + apply Qmult_le_l; [apply pow2_pos | exact Hlo]. }
  assert (Qabs (y - x) <= pow2 (-53) * Qabs x) as Hrel
      by (eapply Qle_trans; [exact Herr | exact Hulp]).
  (* no overflow *)
  assert (Qabs y <= maxValue) as Hmax.
  { setoid_replace y with (x + (y - x)) by ring.
    eapply Qle_trans; [apply Qabs_triangle|].
    apply Qle_trans with (pow2 1022 + pow2 (-53) * pow2 1022).
    - apply Qplus_le_compat; [exact Hhi|].
      eapply Qle_trans; [exact Hrel|].
      apply Qmult_le_l; [apply pow2_pos | exact Hhi].
    - unfold pow2, maxValue. cbn. unfold Qle. cbn. lia. }
  exists (Qred y), ((y - x) / x). split; [|split].
  - unfold round.
    destruct (Qeq_bool x 0) eqn:E0; [apply Qeq_bool_iff in E0; contradiction|].
    fold e. fold m. fold y.
    assert (Qle_bool (Qabs (Qred y)) maxValue = true) as ->; [|reflexivity].
    apply Qle_bool_iff. rewrite (Qred_correct y). exact Hmax.
  - rewrite Qred_correct. field. exact Hx.
  - unfold Qdiv. rewrite Qabs_Qmult, Qabs_Qinv.
    apply Qle_shift_div_r; [exact Hpos | exact Hrel].
Qed.

Lemma round_zero (x : Q) : x == 0 -> round x = Some 0.
Proof.
  intros H. unfold round. apply Qeq_bool_iff in H. rewrite H. reflexivity.
Qed.

Lemma Qabs_one_plus (d : Q) :
  Qabs d <= pow2 (-53) -> 1 - pow2 (-53) <= Qabs (1 + d) <= 1 + pow2 (-53).
Proof.
  intros H. apply Qabs_Qle_condition in H as [Hlo Hhi].
  assert (0 <= 1 + d) as Hpos.
  { assert (pow2 (-53) <= 1) by (unfold pow2; cbn; unfold Qle; cbn; lia). lra. }
  rewrite (Qabs_pos _ Hpos). split; lra.
Qed.

(** Two roundings in a row. *)
Lemma two_roundings (x d1 d2 y : Q) :
  Qabs d1 <= pow2 (-53) -> Qabs d2 <= pow2 (-53) ->
  y == x * (1 + d1) * (1 + d2) ->
  Qabs (y - x) <= tolerance * Qabs x.
Proof.
  intros H1 H2 E.
  setoid_replace (y - x) with ((d1 + d2 + d1 * d2) * x) by (rewrite E; ring).
  rewrite Qabs_Qmult. apply Qmult_le_compat_r; [|apply Qabs_nonneg].
  eapply Qle_trans; [apply Qabs_triangle|].
  assert (Qabs (d1 * d2) <= pow2 (-106)) as H12.
  { rewrite Qabs_Qmult.
    change (-106)%Z with (-53 + -53)%Z. rewrite pow2_plus.
    apply Qle_trans with (pow2 (-53) * Qabs d2).
    - apply Qmult_le_compat_r; [exact H1 | apply Qabs_nonneg].
    - apply Qmult_le_l; [apply pow2_pos | exact H2]. }
  assert (Qabs (d1 + d2) <= pow2 (-52)) as Hsum.
  { eapply Qle_trans; [apply Qabs_triangle|].
    assert (pow2 (-52) == pow2 (-53) + pow2 (-53)) as ->
        by (unfold pow2; cbn; unfold Qeq; cbn; lia).
    apply Qplus_le_compat; assumption. }
  unfold tolerance. apply Qplus_le_compat; assumption.
Qed.

Lemma range_product (a b : Q) :
  inRange a -> inRange b ->
  pow2 (-1022) <= Qabs (a * b) /\ Qabs (a * b) <= pow2 1022.
Proof.
  intros [Ha1 Ha2] [Hb1 Hb2]. rewrite Qabs_Qmult.
  change (-1022)%Z with (-511 + -511)%Z. change 1022%Z with (511 + 511)%Z.
  rewrite !pow2_plus.
  pose proof (pow2_pos (-511)). pose proof (pow2_pos 511).
  pose proof (Qabs_nonneg a). pose proof (Qabs_nonneg b).
  split.
  - apply Qle_trans with (pow2 (-511) * Qabs b).
    + apply Qmult_le_l; assumption.
    + apply Qmult_le_compat_r; assumption.
  - apply Qle_trans with (pow2 511 * Qabs b).
    + apply Qmult_le_compat_r; assumption.
    + apply Qmult_le_l; assumption.
Qed.

Lemma range_inverse (r : Q) : inRange r -> inRange (/ r).
Proof.
  intros [H1 H2]. unfold inRange. rewrite Qabs_Qinv.
  pose proof (pow2_pos (-511)) as Hp. pose proof (pow2_pos 511) as Hq.
  assert (0 < Qabs r) as Hr by (eapply Qlt_le_trans; [exact Hp | exact H1]).
  assert (pow2 (-511) * pow2 511 == 1) as E
      by (rewrite <- pow2_plus; reflexivity).
  split.
  - apply Qle_shift_inv_l; [exact Hr|]. rewrite <- E.
    apply Qmult_le_l; assumption.
  - apply Qle_shift_inv_r; [exact Hr|]. rewrite <- E, (Qmult_comm (pow2 (-511))).
    apply Qmult_le_l; assumption.
Qed.

(** C9 (amended).  For each of the two currencies, for a positive
    exchange rate of a magnitude from 2^-511 to 2^511 and for an amount
    that is zero or of such a magnitude, an amount stored and then shown
    ([x / r], then [* r], each rounded) and a price shown and then saved
    ([x * r], then [/ r], each rounded) are finite numbers that differ
    from the amount by at most [2^-52 + 2^-106] times its magnitude; in
    USD they are the amount itself. *)
Theorem conversion_round_trip :
  forall (currency : Currency) (x r : Q),
    x == 0 \/ inRange x ->
    0 < r -> inRange r ->
    (exists shown,
        Rounded.storedAndShown currency r x = Some shown /\
        Qabs (shown - x) <= tolerance * Qabs x /\
        (currency = USD -> shown = x)) /\
    (exists saved,
        Rounded.shownAndSaved currency r x = Some saved /\
        Qabs (saved - x) <= tolerance * Qabs x /\
        (currency = USD -> saved = x)).
Proof.
  intros currency x r Hx Hr0 Hr.
  assert (~ r == 0) as Hrn by (intros H; rewrite H in Hr0; discriminate).
  assert (Qeq_bool r 0 = false) as Hrb.
  { destruct (Qeq_bool r 0) eqn:E; [|reflexivity].
    apply Qeq_bool_iff in E. contradiction. }
  assert (0 <= tolerance * Qabs x) as Htol.
  { apply Qmult_le_0_compat; [|apply Qabs_nonneg].
    unfold tolerance, pow2. cbn. unfold Qle. cbn. lia. }
  assert (forall y, y = x -> Qabs (y - x) <= tolerance * Qabs x) as Hsame.
  { intros y ->. setoid_replace (x - x) with 0 by ring. exact Htol. }
  destruct currency.
  - (* USD: nothing is computed *)
    split; exists x; (split; [reflexivity|]); (split; [apply Hsame|]);
      reflexivity.
  - (* Bs *)
    unfold Rounded.storedAndShown, Rounded.shownAndSaved,
      Rounded.priceInUSD, Rounded.displayPrice, Rounded.priceToSave,
      Binary64.div, Binary64.mul.
    rewrite Hrb.
    destruct Hx as [Hz|Hx].
    + (* the amount zero *)
      assert (forall y, y == 0 -> Qabs (y - x) <= tolerance * Qabs x) as H0.
      { intros y Hy. setoid_replace (y - x) with 0 by (rewrite Hy, Hz; ring).
        exact Htol. }
      split.
      * rewrite (round_zero (x / r)) by (rewrite Hz; field; exact Hrn).
        rewrite (round_zero (0 * r)) by ring.
        exists 0. split; [reflexivity|]. split; [apply H0; reflexivity|].
        discriminate.
      * rewrite (round_zero (x * r)) by (rewrite Hz; ring).
        rewrite (round_zero (0 / r)) by (field; exact Hrn).
        exists 0. split; [reflexivity|]. split; [apply H0; reflexivity|].
        discriminate.
    + (* an amount in the range *)
      assert (forall a d1,
                 a == x * (1 + d1) -> Qabs d1 <= pow2 (-53) ->
                 pow2 (-1022) <= Qabs a /\ Qabs a <= pow2 1022) as Hnear.
      { intros a d1 Ea Hd1. rewrite Ea, Qabs_Qmult.
        destruct (Qabs_one_plus d1 Hd1) as [Hlo Hhi].
        destruct Hx as [Hx1 Hx2].
        pose proof (Qabs_nonneg x) as Hxn.
        split.
        - apply Qle_trans with (pow2 (-511) * (1 - pow2 (-53))).
          + unfold pow2. cbn. unfold Qle. cbn. lia.
          + apply Qle_trans with (Qabs x * (1 - pow2 (-53))).
            * apply Qmult_le_compat_r; [exact Hx1|].
              unfold pow2. cbn. unfold Qle. cbn. lia.
            * rewrite !(Qmult_comm (Qabs x)).
              apply Qmult_le_compat_r; assumption.
        - apply Qle_trans with (pow2 511 * (1 + pow2 (-53))).
          + apply Qle_trans with (Qabs x * (1 + pow2 (-53))).
            * rewrite !(Qmult_comm (Qabs x)).
              apply Qmult_le_compat_r; assumption.
            * apply Qmult_le_compat_r; [exact Hx2|].
              unfold pow2. cbn. unfold Qle. cbn. lia.
          + unfold pow2. cbn. unfold Qle. cbn. lia. }
      split.
      * (* divided, then multiplied *)
        destruct (range_product x (/ r) Hx (range_inverse r Hr)) as [Hq1 Hq2].
        destruct (round_error (x / r) Hq1 Hq2) as (a & d1 & Ra & Ea & Hd1).
        rewrite Ra.
        assert (a * r == x * (1 + d1)) as Ear
            by (rewrite Ea; field; exact Hrn).
        destruct (Hnear (a * r) d1 Ear Hd1) as [Hp1 Hp2].
        destruct (round_error (a * r) Hp1 Hp2) as (b & d2 & Rb & Eb & Hd2).
        rewrite Rb. exists b. split; [reflexivity|].
        split; [|discriminate].
        apply (two_roundings x d1 d2 b Hd1 Hd2). rewrite Eb, Ear. reflexivity.
      * (* multiplied, then divided *)
        destruct (range_product x r Hx Hr) as [Hq1 Hq2].
        destruct (round_error (x * r) Hq1 Hq2) as (a & d1 & Ra & Ea & Hd1).
        rewrite Ra.
        assert (a / r == x * (1 + d1)) as Ear
            by (rewrite Ea; field; exact Hrn).
        destruct (Hnear (a / r) d1 Ear Hd1) as [Hp1 Hp2].
        destruct (round_error (a / r) Hp1 Hp2) as (b & d2 & Rb & Eb & Hd2).
        rewrite Rb. exists b. split; [reflexivity|].
        split; [|discriminate].
        apply (two_roundings x d1 d2 b Hd1 Hd2). rewrite Eb, Ear. reflexivity.
Qed.

Lemma conversion_round_trip_witness :
  Rounded.storedAndShown Bs 49 1 = Some (9007199254740991 # 9007199254740992)
  /\ Rounded.shownAndSaved Bs 49 1 = Some 1
  /\ (exists shown,
         Rounded.storedAndShown Bs 49 1 = Some shown /\
         Qabs (shown - 1) <= tolerance * Qabs 1 /\
         (Bs = USD -> shown = 1))
  /\ (exists saved,
         Rounded.shownAndSaved Bs 49 1 = Some saved /\
         Qabs (saved - 1) <= tolerance * Qabs 1 /\
         (Bs = USD -> saved = 1)).
Proof.
  split; [vm_compute; reflexivity|]. split; [vm_compute; reflexivity|].
  apply (conversion_round_trip Bs 1 49).
  - right. split; vm_compute; discriminate.
  - reflexivity.
  - split; vm_compute; discriminate.
Defined.

(** C9: the round trip does not hold for every amount and every
    positive finite rate, and the two conversions are not inverses of
    each other.  The amount 2^1023 at the rate 1/2 is stored as
    [Infinity]; the amount 2^-1074 at the rate 4 is stored as 0 and
    shown as 0; the amount 1 at the rate 49 is shown as
    0.9999999999999999.  The floating-point unit gives the same
    results. *)
Theorem conversion_round_trip_counterexample :
  Rounded.storedAndShown Bs (1 # 2) (pow2 1023) = None /\
  ofFloat (0x1p1023 / 0x1p-1 * 0x1p-1)%float = None /\
  Rounded.storedAndShown Bs 4 (pow2 (-1074)) = Some 0 /\
  ofFloat (0x1p-1074 / 4 * 4)%float = Some 0 /\
  Rounded.storedAndShown Bs 49 1 = Some (9007199254740991 # 9007199254740992) /\
  ofFloat (1 / 49 * 49)%float = Some (9007199254740991 # 9007199254740992) /\
  ~ (forall x r : Q,
        0 < r ->
        exists shown,
          Rounded.storedAndShown Bs r x = Some shown /\
          Qabs (shown - x) <= tolerance * Qabs x) /\
  ~ (forall x r : Q,
        inRange x -> 0 < r -> inRange r ->
        Rounded.storedAndShown Bs r x = Some x).
Proof.
  do 6 (split; [vm_compute; reflexivity|]).
  split.
  - intros H. destruct (H (pow2 1023) (1 # 2) eq_refl) as (y & E & _).
    vm_compute in E. discriminate E.
  - intros H.
    assert (inRange 1) as H1 by (split; vm_compute; discriminate).
    assert (inRange 49) as H49 by (split; vm_compute; discriminate).
    specialize (H 1 49 H1 eq_refl H49). vm_compute in H. discriminate H.
Qed.

End Rounding.

(* ================================================================= *)
(** ** Further properties of the service *)

Lemma updateStock_items_logs (supplierId : option string)
  (supplierInfo : option SupplierInfo.t) (invoiceCurrency : Currency)
  (exchangeRate : Q) (now : string) (items : list InvoiceItem.t) (db : Db.t) :
  Db.online db = true ->
  exists entries,
    Db.activity_logs
      (fold_left (updateStock_item supplierId supplierInfo invoiceCurrency
                    exchangeRate now) items db)
    = Db.activity_logs db ++ entries /\
    map LogRow.type entries = map (fun _ => "IN") items /\
    map LogRow.amount entries = map InvoiceItem.quantity items /\
    map LogRow.date entries = map (fun _ => now) items.
Proof.
  revert db. induction items as [|item items IH]; intros db Hon.
  - exists []. cbn. rewrite app_nil_r. auto.
  - cbn [fold_left].
    destruct (updateStock_item_log supplierId supplierInfo invoiceCurrency
                exchangeRate now db item Hon)
      as (entry & Hlog & Ht & Ha & Hd).
    destruct (IH _ (updateStock_item_online supplierId supplierInfo
                      invoiceCurrency exchangeRate now db item Hon))
      as (entries & E & Hts & Has & Hds).
    exists (entry :: entries). rewrite E, Hlog, <- app_assoc. cbn.
    rewrite Ht, Ha, Hd, Hts, Has, Hds. auto.
Qed.

(** X1. On a reachable database [updateStock] appends to the activity
    log exactly one IN entry per invoice item, in the order of the
    items, each with the quantity of its item as amount; the entries
    that were there stay. *)
Theorem updateStock_logs :
  forall (items : list InvoiceItem.t) (supplierInfo : option SupplierInfo.t)
         (invoiceCurrency : Currency) (exchangeRate : Q) (now : string)
         (db : Db.t),
    Db.online db = true ->
    exists entries,
      Db.activity_logs
        (fst (updateStock items supplierInfo invoiceCurrency exchangeRate now db))
      = Db.activity_logs db ++ entries /\
      map LogRow.type entries = map (fun _ => "IN") items /\
      map LogRow.amount entries = map InvoiceItem.quantity items /\
      map LogRow.date entries = map (fun _ => now) items.
Proof.
  intros items si cur rate now db Hon.
  destruct (updateStock_online items si cur rate now db Hon)
    as (sid & db0 & Hon0 & _ & Hl & E).
  rewrite E. cbn [fst]. rewrite <- Hl.
  apply updateStock_items_logs. exact Hon0.
Qed.

Lemma updateStock_logs_witness :
  exists entries,
    Db.activity_logs
      (fst (updateStock [Sample.item "harina pan" 10 (80 # 1);
                         Sample.item "Cafe" 24 (2 # 1)]
              (Some (SupplierInfo.mk "Nuevo" "J-9")) Bs (40 # 1) "t1" Sample.db))
    = Db.activity_logs Sample.db ++ entries /\
    map LogRow.amount entries = [10; 24].
Proof.
  destruct (updateStock_logs [Sample.item "harina pan" 10 (80 # 1);
                              Sample.item "Cafe" 24 (2 # 1)]
              (Some (SupplierInfo.mk "Nuevo" "J-9")) Bs (40 # 1) "t1"
              Sample.db eq_refl) as (entries & E & _ & Ha & _).
  exists entries. split; [exact E | exact Ha].
Defined.

(** *** What no operation undoes *)

Lemma extends_refl (db : Db.t) : extends db db.
Proof.
  repeat split; try (exists []; rewrite app_nil_r; reflexivity).
Qed.

Lemma extends_trans (a b c : Db.t) : extends a b -> extends b c -> extends a c.
Proof.
  intros ((x1 & H1) & (e1 & L1) & S1) ((x2 & H2) & (e2 & L2) & S2).
  repeat split.
  - exists (x1 ++ x2). rewrite H2, H1, app_assoc. reflexivity.
  - exists (e1 ++ e2). rewrite L2, L1, app_assoc. reflexivity.
  - congruence.
Qed.

Lemma update_products_extends (upd : ProductRow.t -> ProductRow.t)
  (id : string) (db : Db.t) :
  (forall r, identity (upd r) = identity r) ->
  extends db (fst (Db.update_products upd id db)).
Proof.
  intros Hupd. unfold Db.update_products.
  destruct (Db.online db); [|apply extends_refl].
  cbn [fst]. repeat split; cbn [Db.products Db.activity_logs Db.suppliers];
    try (exists []; rewrite app_nil_r; reflexivity).
  exists []. rewrite app_nil_r, map_map. apply map_ext.
  intros r. destruct (String.eqb _ _); auto.
Qed.

Lemma insert_product_extends (row : string -> ProductRow.t) (db : Db.t) :
  extends db (Db.insert_product row db).
Proof.
  unfold Db.insert_product. destruct (Db.online db); [|apply extends_refl].
  repeat split; cbn [Db.products Db.activity_logs Db.suppliers];
    try (exists []; rewrite app_nil_r; reflexivity).
  eexists. rewrite map_app. reflexivity.
Qed.

Lemma logActivity_extends (type description : string) (amount : Z)
  (now : string) (db : Db.t) :
  extends db (logActivity type description amount now db).
Proof.
  unfold logActivity, Db.insert_log.
  destruct (Db.online db); [|apply extends_refl].
  repeat split; cbn [Db.products Db.activity_logs Db.suppliers].
  - exists []. rewrite app_nil_r. reflexivity.
  - eexists. reflexivity.
Qed.

Lemma updateStock_item_extends (supplierId : option string)
  (supplierInfo : option SupplierInfo.t) (invoiceCurrency : Currency)
  (exchangeRate : Q) (now : string) (db : Db.t) (newItem : InvoiceItem.t) :
  extends db (updateStock_item supplierId supplierInfo invoiceCurrency
                exchangeRate now db newItem).
Proof.
  unfold updateStock_item. destruct (findExisting _ db).
  - eapply extends_trans; [|apply logActivity_extends].
    apply update_products_extends. reflexivity.
  - eapply extends_trans; [|apply logActivity_extends].
    apply insert_product_extends.
Qed.

Lemma updateStock_items_extends (supplierId : option string)
  (supplierInfo : option SupplierInfo.t) (invoiceCurrency : Currency)
  (exchangeRate : Q) (now : string) (items : list InvoiceItem.t) (db : Db.t) :
  extends db (fold_left (updateStock_item supplierId supplierInfo
                           invoiceCurrency exchangeRate now) items db).
Proof.
  revert db. induction items as [|item items IH]; intros db;
    [apply extends_refl|].
  cbn [fold_left]. eapply extends_trans; [|apply IH].
  apply updateStock_item_extends.
Qed.

Lemma registerStockOut_extends (productId : string) (amount : Z)
  (now : string) (db : Db.t) :
  extends db (registerStockOut productId amount now db).
Proof.
  unfold registerStockOut.
  destruct (Db.select_product_by_id productId db); [|apply extends_refl].
  destruct (0 <? _); [|apply extends_refl].
  eapply extends_trans; [|apply logActivity_extends].
  apply update_products_extends. reflexivity.
Qed.

Lemma updateProductDetails_extends (id : string) (updates : PartialProduct.t)
  (now : string) (db : Db.t) :
  extends db (fst (updateProductDetails id updates now db)).
Proof.
  unfold updateProductDetails.
  match goal with
  | |- context [Db.update_products ?u id db] =>
      pose proof (update_products_extends u id db (fun r => eq_refl)) as H;
      destruct (Db.update_products u id db) as [db' ok]
  end.
  destruct ok; exact H.
Qed.

Lemma importRow_extends (currentProducts : list Product.t) (now : string)
  (row : CsvRow) (db : Db.t) :
  extends db (importRow currentProducts now row db).
Proof.
  unfold importRow. destruct (findByName _ _).
  - apply update_products_extends. reflexivity.
  - apply insert_product_extends.
Qed.

Lemma importRows_extends (currentProducts : list Product.t) (now : string)
  (rows : list CsvRow) (db : Db.t) :
  extends db (fold_left (fun d row => importRow currentProducts now row d)
                rows db).
Proof.
  revert db. induction rows as [|row rows IH]; intros db;
    [apply extends_refl|].
  cbn [fold_left]. eapply extends_trans; [|apply IH].
  apply importRow_extends.
Qed.

Lemma importFromCSV_extends (csvText now : string) (db : Db.t) :
  extends db (fst (importFromCSV csvText now db)).
Proof.
  unfold importFromCSV. destruct (getAll db) as [cp|e]; [|apply extends_refl].
  pose proof (importLines_rows cp now (tl (Js.split "010" csvText)) db 0 0) as H.
  destruct (fold_left _ _ _) as [[db' a] u]. cbn [fst] in *.
  eapply extends_trans; [|apply logActivity_extends].
  rewrite H. apply importRows_extends.
Qed.

Lemma addSupplier_suppliers (name rif now : string) (db : Db.t) :
  exists added,
    Db.suppliers (fst (addSupplier name rif now db)) = Db.suppliers db ++ added /\
    (length added <= 1)%nat /\
    Db.products (fst (addSupplier name rif now db)) = Db.products db /\
    Db.activity_logs (fst (addSupplier name rif now db)) = Db.activity_logs db.
Proof.
  unfold addSupplier, Db.select_supplier_rif_or_name, Db.insert_supplier.
  destruct (Db.online db).
  - destruct (Db.spliceable rif && Db.spliceable name);
      [|eexists [_]; cbn; auto].
    destruct (Db.single _).
    + exists []. rewrite app_nil_r. cbn. auto.
    + eexists [_]. cbn. auto.
  - exists []. rewrite app_nil_r. cbn. auto.
Qed.

(** The database [updateStock] leaves extends the one the registration
    of the supplier leaves. *)
Lemma updateStock_extends (items : list InvoiceItem.t)
  (supplierInfo : option SupplierInfo.t) (invoiceCurrency : Currency)
  (exchangeRate : Q) (now : string) (db : Db.t) :
  exists db0 added,
    Db.suppliers db0 = Db.suppliers db ++ added /\ (length added <= 1)%nat /\
    Db.products db0 = Db.products db /\
    Db.activity_logs db0 = Db.activity_logs db /\
    extends db0 (fst (updateStock items supplierInfo invoiceCurrency
                        exchangeRate now db)).
Proof.
  unfold updateStock.
  assert (exists (db0 : Db.t) (added : list SupplierRow.t),
             Db.suppliers db0 = Db.suppliers db ++ added /\
             (length added <= 1)%nat /\ Db.products db0 = Db.products db /\
             Db.activity_logs db0 = Db.activity_logs db /\ db0 = db) as Hsame.
  { exists db, []. rewrite app_nil_r. cbn. auto. }
  destruct supplierInfo as [si|].
  - destruct (Js.truthy (SupplierInfo.name si)).
    + destruct (addSupplier_suppliers (SupplierInfo.name si)
                  (Js.or_else (SupplierInfo.rif si) "N/A") now db)
        as (added & Hs & Hl & Hp & Hlog).
      destruct (addSupplier _ _ now db) as [db1 [supplier|e]];
        cbn [fst] in *; exists db1, added;
        (split; [exact Hs|]); (split; [exact Hl|]);
        (split; [exact Hp|]); (split; [exact Hlog|]).
      * apply updateStock_items_extends.
      * apply extends_refl.
    + destruct Hsame as (db0 & added & Hs & Hl & Hp & Hlog & ->).
      exists db, added.
      (split; [exact Hs|]); (split; [exact Hl|]);
        (split; [exact Hp|]); (split; [exact Hlog|]).
      cbn [fst]. apply updateStock_items_extends.
  - destruct Hsame as (db0 & added & Hs & Hl & Hp & Hlog & ->).
    exists db, added.
    (split; [exact Hs|]); (split; [exact Hl|]);
      (split; [exact Hp|]); (split; [exact Hlog|]).
    cbn [fst]. apply updateStock_items_extends.
Qed.



(** X5. The activity log and the supplier table only grow: every
    operation leaves the log entries and the suppliers that were stored,
    in order and unchanged, possibly followed by new ones.  Only
    [updateStock] adds a supplier, and at most one. *)
Theorem log_and_suppliers_append_only :
  forall (op : Operation) (now : string) (db : Db.t),
    (exists entries,
        Db.activity_logs (run op now db) = Db.activity_logs db ++ entries) /\
    (exists added,
        Db.suppliers (run op now db) = Db.suppliers db ++ added /\
        (length added <= 1)%nat /\
        match op with
        | UpdateStock _ _ _ _ => True
        | _ => added = []
        end).
Proof.
  intros op now db.
  destruct op as [items si cur rate|pid amount|csv|id updates]; cbn [run].
  - destruct (updateStock_extends items si cur rate now db)
      as (db0 & added & Hs & Hl & _ & Hlog & (_ & He & Hs')).
    split.
    + rewrite <- Hlog. exact He.
    + exists added. rewrite Hs', Hs. auto.
  - destruct (registerStockOut_extends pid amount now db) as (_ & He & Hs).
    split; [exact He|]. exists []. rewrite app_nil_r. cbn. auto.
  - destruct (importFromCSV_extends csv now db) as (_ & He & Hs).
    split; [exact He|]. exists []. rewrite app_nil_r. cbn. auto.
  - destruct (updateProductDetails_extends id updates now db) as (_ & He & Hs).
    split; [exact He|]. exists []. rewrite app_nil_r. cbn. auto.
Qed.

(** *** An unreachable database *)

Lemma updateStock_item_offline (supplierId : option string)
  (supplierInfo : option SupplierInfo.t) (invoiceCurrency : Currency)
  (exchangeRate : Q) (now : string) (db : Db.t) (newItem : InvoiceItem.t) :
  Db.online db = false ->
  updateStock_item supplierId supplierInfo invoiceCurrency exchangeRate now
    db newItem = db.
Proof.
  intros Hoff. unfold updateStock_item.
  rewrite (findExisting_offline _ db Hoff).
  unfold logActivity, Db.insert_log, Db.insert_product.
  rewrite Hoff. cbn. rewrite Hoff. reflexivity.
Qed.

Lemma updateStock_items_offline (supplierId : option string)
  (supplierInfo : option SupplierInfo.t) (invoiceCurrency : Currency)
  (exchangeRate : Q) (now : string) (items : list InvoiceItem.t) (db : Db.t) :
  Db.online db = false ->
  fold_left (updateStock_item supplierId supplierInfo invoiceCurrency
               exchangeRate now) items db = db.
Proof.
  intros Hoff. induction items as [|item items IH]; [reflexivity|].
  cbn [fold_left]. rewrite updateStock_item_offline by exact Hoff. exact IH.
Qed.

(** X2. When the database cannot be reached, [getAll], [addSupplier],
    [updateStock], [importFromCSV] and [updateProductDetails] throw,
    [registerStockOut] returns, [getStats] answers zeros and
    [getSuppliers] the empty list; none of them changes the database. *)
Theorem unreachable_database :
  forall db : Db.t,
    Db.online db = false ->
    (exists e, getAll db = Throw e) /\
    (forall name rif now, exists e, addSupplier name rif now db = (db, Throw e)) /\
    (forall items supplierInfo invoiceCurrency exchangeRate now,
        exists e,
          updateStock items supplierInfo invoiceCurrency exchangeRate now db
          = (db, Throw e)) /\
    (forall csvText now, exists e, importFromCSV csvText now db = (db, Throw e)) /\
    (forall id updates now,
        exists e, updateProductDetails id updates now db = (db, Throw e)) /\
    (forall productId amount now, registerStockOut productId amount now db = db) /\
    getStats db = mkStats 0 0%Q 0 /\
    getSuppliers db = [].
Proof.
  intros db Hoff.
  assert (exists e, getAll db = Throw e) as Hget.
  { unfold getAll, Db.select_products. rewrite Hoff. eexists. reflexivity. }
  assert (forall name rif now,
             exists e, addSupplier name rif now db = (db, Throw e)) as Hadd.
  { intros name rif now.
    unfold addSupplier, Db.select_supplier_rif_or_name, Db.insert_supplier.
    rewrite Hoff. eexists. reflexivity. }
  split; [exact Hget|]. split; [exact Hadd|].
  split.
  { intros items si cur rate now. unfold updateStock.
    assert (exists e,
               (let db'' := fold_left (updateStock_item None si cur rate now)
                              items db in (db'', getAll db''))
               = (db, Throw e)) as Hloop.
    { cbv zeta. rewrite updateStock_items_offline by exact Hoff.
      destruct Hget as (e & ->). exists e. reflexivity. }
    destruct si as [si|]; [|exact Hloop].
    destruct (Js.truthy (SupplierInfo.name si)); [|exact Hloop].
    destruct (Hadd (SupplierInfo.name si)
                (Js.or_else (SupplierInfo.rif si) "N/A") now) as (e & ->).
    exists e. reflexivity. }
  split.
  { intros csvText now. unfold importFromCSV.
    destruct Hget as (e & ->). exists e. reflexivity. }
  split.
  { intros id updates now. unfold updateProductDetails, Db.update_products.
    rewrite Hoff. eexists. reflexivity. }
  split.
  { intros productId amount now.
    unfold registerStockOut, Db.select_product_by_id.
    rewrite Hoff. reflexivity. }
  split.
  - unfold getStats. destruct Hget as (e & ->). reflexivity.
  - unfold getSuppliers, Db.select_suppliers. rewrite Hoff. reflexivity.
Qed.

Lemma unreachable_database_witness :
  registerStockOut "p1" 3 "t1" Sample.offline = Sample.offline /\
  exists e,
    updateStock [Sample.item "Cafe" 24 (2 # 1)] None USD (1 # 1) "t1"
      Sample.offline = (Sample.offline, Throw e).
Proof.
  destruct (unreachable_database Sample.offline eq_refl)
    as (_ & _ & Hupd & _ & _ & Hout & _).
  split; [apply Hout | apply Hupd].
Defined.

(** *** Several items for one new product *)

Lemma find_app_last {A : Type} (f : A -> bool) (l : list A) (c : A) :
  (forall y, In y l -> f y = false) -> f c = true ->
  find f (l ++ [c]) = Some c.
Proof.
  intros Hl Hc. apply find_first_such. exists l, []. auto.
Qed.

(** The loop of [updateStock] from a catalog whose last product was
    created for the name [n0] and whose other products do not match the
    names of the items, all equal to [n0] up to case. *)
Lemma updateStock_items_accumulate (supplierId : option string)
  (supplierInfo : option SupplierInfo.t) (invoiceCurrency : Currency)
  (exchangeRate : Q) (now : string) (n0 : string)
  (items : list InvoiceItem.t) :
  (forall it, In it items ->
              plain (newItemName it) = true /\
              Js.toLowerCase n0 = Js.toLowerCase (newItemName it)) ->
  forall (db : Db.t) (olds : list ProductRow.t) (created : ProductRow.t),
    Db.online db = true ->
    Db.products db = olds ++ [created] ->
    ProductRow.name created = n0 ->
    (forall it r, In it items -> In r olds ->
                  Db.ilike (ProductRow.name r) (newItemName it) = false) ->
    exists olds' created',
      Db.products (fold_left (updateStock_item supplierId supplierInfo
                                invoiceCurrency exchangeRate now) items db)
      = olds' ++ [created'] /\
      map ProductRow.name olds' = map ProductRow.name olds /\
      ProductRow.name created' = n0 /\
      ProductRow.quantity created'
      = ProductRow.quantity created + totalQuantity items.
Proof.
  induction items as [|it items IH]; intros Hitems db olds created Hon E Hn Hold.
  - exists olds, created. cbn. rewrite Z.add_0_r. auto.
  - cbn [fold_left].
    destruct (Hitems it (or_introl eq_refl)) as [Hplain Hsame].
    assert (findExisting (newItemName it) db = Some created) as F.
    { rewrite (findExisting_find _ db Hon), E. apply find_app_last.
      - intros r Hr. apply (Hold it r); [left; reflexivity | exact Hr].
      - rewrite Hn. apply ilike_plain; [exact Hplain | exact Hsame]. }
    set (db1 := updateStock_item supplierId supplierInfo invoiceCurrency
                  exchangeRate now db it).
    assert (exists olds1 created1,
               Db.products db1 = olds1 ++ [created1] /\
               map ProductRow.name olds1 = map ProductRow.name olds /\
               ProductRow.name created1 = n0 /\
               ProductRow.quantity created1
               = ProductRow.quantity created + InvoiceItem.quantity it)
      as (olds1 & created1 & E1 & Hnames & Hn1 & Hq1).
    { subst db1. unfold updateStock_item. rewrite F.
      rewrite update_products_online by exact Hon. cbn [fst].
      rewrite products_logActivity. cbn [Db.products].
      rewrite E, map_app. cbn [map]. rewrite String.eqb_refl.
      eexists _, _. split; [reflexivity|]. cbn.
      split; [|auto].
      rewrite map_map. apply map_ext. intros r.
      destruct (String.eqb _ _); reflexivity. }
    destruct (IH (fun x Hx => Hitems x (or_intror Hx)) db1 olds1 created1)
      as (olds' & created' & E' & Hnames' & Hn' & Hq'); auto.
    + apply updateStock_item_online. exact Hon.
    + intros x r Hx Hr.
      apply (in_map ProductRow.name) in Hr. rewrite Hnames in Hr.
      apply in_map_iff in Hr as (r0 & Hr0 & Hin0). rewrite <- Hr0.
      apply (Hold x r0); [right; exact Hx | exact Hin0].
    + exists olds', created'. split; [exact E'|].
      split; [congruence|]. split; [exact Hn'|].
      rewrite Hq', Hq1. cbn [totalQuantity fold_right]. fold (totalQuantity items).
      lia.
Qed.

Lemma storedName_newItemName (item : InvoiceItem.t) :
  newItemName item = storedName item.
Proof. apply newItemName_cases. Qed.

(** X3. Several items of one invoice for the same new product end in
    one product.  For ASCII names without wildcard characters: when no
    stored product has the name of the first item but for case, and the
    other items have that name but for case, [updateStock] creates
    exactly one product, named as the first item, whose quantity is the
    sum of the quantities of all the items; the names of the products
    that were stored stay. *)
Theorem updateStock_same_new_product :
  forall (supplierInfo : option SupplierInfo.t) (invoiceCurrency : Currency)
         (exchangeRate : Q) (now : string) (db : Db.t)
         (item : InvoiceItem.t) (items : list InvoiceItem.t),
    let after := fst (updateStock (item :: items) supplierInfo invoiceCurrency
                        exchangeRate now db) in
    Db.online db = true ->
    asciiCatalog db ->
    asciiItems (item :: items) ->
    (forall it, In it (item :: items) -> plain (storedName it) = true) ->
    (forall r, In r (Db.products db) ->
               ~ Text.sameText (ProductRow.name r) (storedName item)) ->
    (forall it, In it items ->
                Text.sameText (storedName it) (storedName item)) ->
    exists created,
      In created (Db.products after) /\
      ProductRow.name created = storedName item /\
      ProductRow.quantity created = totalQuantity (item :: items) /\
      Permutation (map ProductRow.name (Db.products after))
                  (storedName item :: map ProductRow.name (Db.products db)).
Proof.
  intros si cur rate now db item items after Hon _ _ Hplain Hold Hsame.
  destruct (updateStock_loop si cur rate now db Hon)
    as (db0 & Hon0 & Hp0 & _ & E).
  subst after. rewrite E. cbn [fst fold_left].
  set (sid := registeredId si now db).
  assert (findExisting (newItemName item) db0 = None) as F.
  { rewrite storedName_newItemName.
    apply (findExisting_sameText _ db0 Hon0);
      [apply Hplain; left; reflexivity|].
    rewrite Hp0. exact Hold. }
  set (db1 := updateStock_item sid si cur rate now db0 item).
  pose proof (updateStock_item_created sid si cur rate now db0 item Hon0 F)
    as E1.
  fold db1 in E1. rewrite Hp0 in E1.
  destruct (updateStock_items_accumulate sid si cur rate now (storedName item)
              items) with (db := db1) (olds := Db.products db)
              (created := ProductRow.mk (Db.fresh_id db0) (newItemName item)
                            (InvoiceItem.quantity item) 10
                            (priceInUSD cur rate (InvoiceItem.price item))
                            (Js.opt_or_else (InvoiceItem.category item) "General")
                            now sid)
    as (olds' & created & E' & Hnames & Hn & Hq).
  - intros it Hit. rewrite storedName_newItemName.
    split; [apply Hplain; right; exact Hit|].
    symmetry. apply toLowerCase_sameText. apply Hsame. exact Hit.
  - apply updateStock_item_online. exact Hon0.
  - exact E1.
  - cbn. apply storedName_newItemName.
  - intros it r Hit Hr. rewrite storedName_newItemName.
    apply ilike_not_sameText; [apply Hplain; right; exact Hit|].
    intros H. apply (Hold r Hr).
    apply (sameText_trans _ _ _ H). apply Hsame. exact Hit.
  - exists created. rewrite E'. split; [apply in_or_app; right; left; reflexivity|].
    split; [exact Hn|]. split.
    + rewrite Hq. cbn. reflexivity.
    + rewrite map_app, Hnames. cbn [map]. rewrite Hn.
      symmetry. apply Permutation_cons_append.
Qed.

Lemma updateStock_same_new_product_witness :
  exists created,
    In created
       (Db.products
          (fst (updateStock [Sample.item "Cafe" 24 (2 # 1);
                             Sample.item "CAFE" 6 (3 # 1)]
                  None USD (1 # 1) "t1" Sample.db))) /\
    ProductRow.name created = "Cafe" /\
    ProductRow.quantity created = 30.
Proof.
  destruct (updateStock_same_new_product None USD (1 # 1) "t1" Sample.db
              (Sample.item "Cafe" 24 (2 # 1)) [Sample.item "CAFE" 6 (3 # 1)]
              eq_refl) as (created & Hin & Hn & Hq & _).
  - intros r [<-|[<-|[]]]; reflexivity.
  - intros it [<-|[<-|[]]]; reflexivity.
  - intros it [<-|[<-|[]]]; reflexivity.
  - intros r [<-|[<-|[]]] H; apply toLowerCase_sameText in H; discriminate H.
  - intros it [<-|[]]. apply toLowerCase_sameText. reflexivity.
  - exists created. auto.
Defined.

(** *** Stock-out and the totals *)

(** Either [registerStockOut] changes nothing, or it finds the product,
    the clamped difference is positive and the product gets the clamped
    quantity. *)
Lemma registerStockOut_cases (productId : string) (amount : Z)
  (now : string) (db : Db.t) :
  registerStockOut productId amount now db = db \/
  exists product l1 l2,
    Db.select_product_by_id productId db = Some product /\
    0 < ProductRow.quantity product
        - Z.max 0 (ProductRow.quantity product - amount) /\
    Db.products db = l1 ++ product :: l2 /\
    Db.products (registerStockOut productId amount now db)
    = l1 ++ ProductRow.mk (ProductRow.id product) (ProductRow.name product)
              (Z.max 0 (ProductRow.quantity product - amount))
              (ProductRow.min_stock product) (ProductRow.price product)
              (ProductRow.category product) now
              (ProductRow.supplier_id product) :: l2 /\
    Db.online (registerStockOut productId amount now db) = true /\
    Db.online db = true.
Proof.
  unfold registerStockOut.
  destruct (Db.select_product_by_id productId db) as [product|] eqn:Hsel;
    [|left; reflexivity].
  destruct (0 <? _) eqn:Hd; [|left; reflexivity].
  right. apply Z.ltb_lt in Hd.
  destruct (select_product_by_id_Some _ _ _ Hsel)
    as (Hon & Hid & l1 & l2 & E & H1 & H2).
  exists product, l1, l2. split; [reflexivity|]. split; [exact Hd|].
  split; [exact E|].
  rewrite update_products_online by exact Hon. cbn [fst].
  rewrite logActivity_online by reflexivity. cbn [Db.products Db.online].
  split; [|auto].
  rewrite E, map_app. cbn [map].
  rewrite (map_unchanged _ _ l1 H1), (map_unchanged _ _ l2 H2).
  rewrite Hid, String.eqb_refl. reflexivity.
Qed.

Lemma filter_none {A : Type} (f : A -> bool) (l : list A) :
  (forall x, In x l -> f x = false) -> filter f l = [].
Proof.
  induction l as [|a l IH]; intros H; [reflexivity|]. cbn.
  rewrite (H a) by (left; reflexivity). apply IH.
  intros x Hx. apply H. right; exact Hx.
Qed.

Lemma loweredOnly_refl (productId : string) (r : ProductRow.t) :
  loweredOnly productId r r.
Proof. unfold loweredOnly. repeat split; auto. lia. Qed.

Lemma Forall2_same {A : Type} (R : A -> A -> Prop) (l : list A) :
  (forall x, R x x) -> Forall2 R l l.
Proof. intros H. induction l; constructor; auto. Qed.

Lemma registerStockOut_loweredOnly (productId : string) (amount : Z)
  (now : string) (db : Db.t) :
  Forall2 (loweredOnly productId) (Db.products db)
    (Db.products (registerStockOut productId amount now db)).
Proof.
  destruct (registerStockOut_cases productId amount now db)
    as [->|(product & l1 & l2 & Hsel & Hd & E & E' & _)].
  - apply Forall2_same. apply loweredOnly_refl.
  - rewrite E, E'. apply Forall2_app.
    + apply Forall2_same. apply loweredOnly_refl.
    + constructor; [|apply Forall2_same; apply loweredOnly_refl].
      unfold loweredOnly. cbn.
      apply select_product_by_id_Some in Hsel as (_ & Hid & _).
      repeat split; auto; try lia.
      intros H. contradiction.
Qed.

(** X6. [registerStockOut] never adds stock, whatever the amount: every
    stored product is afterwards the same product with a quantity that
    is not higher, and not negative if it was not; products with another
    id are untouched, and so is everything when no product, or more than
    one, has the given id. *)
Theorem registerStockOut_never_adds :
  forall (productId : string) (amount : Z) (now : string) (db : Db.t),
    Forall2 (loweredOnly productId) (Db.products db)
      (Db.products (registerStockOut productId amount now db)) /\
    (Db.select_product_by_id productId db = None ->
     registerStockOut productId amount now db = db) /\
    ((forall r, In r (Db.products db) -> ProductRow.id r <> productId) ->
     registerStockOut productId amount now db = db).
Proof.
  intros productId amount now db.
  assert (Db.select_product_by_id productId db = None ->
          registerStockOut productId amount now db = db) as Hnone.
  { intros H. unfold registerStockOut. rewrite H. reflexivity. }
  split; [|split; [exact Hnone|]].
  - apply registerStockOut_loweredOnly.
  - intros Hno. apply Hnone. unfold Db.select_product_by_id.
    destruct (Db.online db); [|reflexivity].
    rewrite filter_none; [reflexivity|].
    intros r Hr. apply String.eqb_neq. apply Hno. exact Hr.
Qed.

Lemma fold_quantity_shift (l : list Product.t) (a : Z) :
  fold_left (fun acc curr => acc + Product.quantity curr) l a
  = a + fold_left (fun acc curr => acc + Product.quantity curr) l 0.
Proof.
  revert a. induction l as [|p l IH]; intros a; cbn [fold_left]; [lia|].
  rewrite (IH (a + Product.quantity p)), (IH (0 + Product.quantity p)). lia.
Qed.

Lemma totalItems_online (db : Db.t) :
  Db.online db = true ->
  totalItems (getStats db)
  = fold_left (fun acc curr => acc + Product.quantity curr)
      (map toProduct (Db.products db)) 0.
Proof.
  intros Hon. unfold getStats, getAll, Db.select_products.
  rewrite Hon. reflexivity.
Qed.

(** X7. A stock-out of a non-negative amount from a product whose
    quantity [q] is not negative lowers the total that [getStats]
    reports by [min(q, amount)]: by the amount asked, or by what was
    left when less was left. *)
Theorem registerStockOut_total :
  forall (productId : string) (amount : Z) (now : string) (db : Db.t)
         (product : ProductRow.t),
    Db.select_product_by_id productId db = Some product ->
    0 <= ProductRow.quantity product ->
    0 <= amount ->
    totalItems (getStats (registerStockOut productId amount now db))
    = totalItems (getStats db) - Z.min (ProductRow.quantity product) amount.
Proof.
  intros productId amount now db product Hsel Hq Ha.
  destruct (registerStockOut_cases productId amount now db)
    as [E|(p & l1 & l2 & Hsel' & Hd & E & E' & Hon' & Hon)].
  - rewrite E.
    assert (ProductRow.quantity product
            - Z.max 0 (ProductRow.quantity product - amount) <= 0) as Hd.
    { unfold registerStockOut in E. rewrite Hsel in E.
      destruct (0 <? _) eqn:D; [|apply Z.ltb_ge in D; exact D].
      exfalso.
      destruct (select_product_by_id_Some _ _ _ Hsel) as (Hon & _).
      rewrite update_products_online in E by exact Hon. cbn [fst] in E.
      rewrite logActivity_online in E by reflexivity.
      apply (f_equal Db.activity_logs) in E. cbn [Db.activity_logs] in E.
      apply (f_equal (@length _)) in E. rewrite length_app in E.
      cbn in E. lia. }
    lia.
  - rewrite Hsel in Hsel'. injection Hsel' as <-.
    rewrite (totalItems_online _ Hon'), (totalItems_online _ Hon), E, E'.
    rewrite !map_app. cbn [map]. rewrite !fold_left_app. cbn [fold_left].
    rewrite (fold_quantity_shift (map toProduct l2) (_ + _)).
    rewrite (fold_quantity_shift (map toProduct l2)
               (_ + Product.quantity (toProduct product))).
    cbn. lia.
Qed.

Lemma registerStockOut_total_witness :
  totalItems (getStats (registerStockOut "p1" 8 "t1" Sample.db))
  = totalItems (getStats Sample.db) - 5.
Proof.
  apply (registerStockOut_total "p1" 8 "t1" Sample.db Sample.harina eq_refl).
  - cbn. lia.
  - lia.
Defined.

Lemma registerStockOut_never_adds_witness :
  registerStockOut "unknown" 3 "t1" Sample.db = Sample.db.
Proof.
  destruct (registerStockOut_never_adds "unknown" 3 "t1" Sample.db)
    as (_ & _ & Hno).
  apply Hno. intros r [<-|[<-|[]]]; discriminate.
Defined.

Lemma fold_value_nonneg (l : list Product.t) (a : Q) :
  (0 <= a)%Q ->
  (forall p, In p l -> 0 <= Product.quantity p /\ (0 <= Product.price p)%Q) ->
  (0 <= fold_left (fun acc curr =>
                     acc + inject_Z (Product.quantity curr) * Product.price curr)%Q
                  l a)%Q.
Proof.
  revert a. induction l as [|p l IH]; intros a Ha Hl; [exact Ha|].
  cbn [fold_left]. apply IH.
  - destruct (Hl p (or_introl eq_refl)) as [Hq Hp].
    rewrite <- (Qplus_0_r 0). apply Qplus_le_compat; [exact Ha|].
    apply Qmult_le_0_compat; [|exact Hp].
    change 0%Q with (inject_Z 0). rewrite <- Zle_Qle. exact Hq.
  - intros x Hx. apply Hl. right; exact Hx.
Qed.

Lemma fold_quantity_nonneg (l : list Product.t) (a : Z) :
  0 <= a ->
  (forall p, In p l -> 0 <= Product.quantity p) ->
  0 <= fold_left (fun acc curr => acc + Product.quantity curr) l a.
Proof.
  revert a. induction l as [|p l IH]; intros a Ha Hl; [exact Ha|].
  cbn [fold_left]. apply IH.
  - pose proof (Hl p (or_introl eq_refl)). lia.
  - intros x Hx. apply Hl. right; exact Hx.
Qed.

(** X8. For a catalog whose quantities and prices are not negative,
    the total number of items and the total value that [getStats]
    answers are not negative.  The low-stock count is at most the number
    of products, and it is zero exactly when the catalog cannot be read
    or every product has more than its minimum stock. *)
Theorem getStats_bounds :
  forall db : Db.t,
    (nonNegative db ->
     0 <= totalItems (getStats db) /\ (0 <= totalValue (getStats db))%Q) /\
    (lowStockCount (getStats db) <= length (Db.products db))%nat /\
    (lowStockCount (getStats db) = 0%nat <->
     Db.online db = false \/
     forall r, In r (Db.products db) ->
               ProductRow.min_stock r < ProductRow.quantity r).
Proof.
  intros db. unfold getStats, getAll, Db.select_products.
  destruct (Db.online db) eqn:Hon; cbn [totalItems totalValue lowStockCount].
  - split; [|split].
    + intros Hdb. unfold nonNegative in Hdb. rewrite Forall_forall in Hdb.
      assert (forall p, In p (map toProduct (Db.products db)) ->
                        0 <= Product.quantity p /\ (0 <= Product.price p)%Q)
        as Hcp.
      { intros p Hp. apply in_map_iff in Hp as (r & <- & Hr). exact (Hdb r Hr). }
      split.
      * apply fold_quantity_nonneg; [lia|]. intros p Hp. apply Hcp. exact Hp.
      * apply fold_value_nonneg; [apply Qle_refl | exact Hcp].
    + rewrite <- (length_map toProduct (Db.products db)). apply filter_length_le.
    + split.
      * intros H. right. intros r Hr. apply length_zero_iff_nil in H.
        destruct (Z.leb_spec (ProductRow.quantity r) (ProductRow.min_stock r))
          as [Hle|Hlt]; [|exact Hlt].
        exfalso.
        assert (In (toProduct r)
                   (filter (fun p => Product.quantity p <=? Product.minStock p)
                           (map toProduct (Db.products db)))) as Hin.
        { apply filter_In. split; [apply in_map; exact Hr|].
          cbn. apply Z.leb_le. exact Hle. }
        rewrite H in Hin. destruct Hin.
      * intros [H|H]; [discriminate|].
        rewrite filter_none; [reflexivity|].
        intros p Hp. apply in_map_iff in Hp as (r & <- & Hr).
        cbn. apply Z.leb_gt. apply H. exact Hr.
  - split; [|split].
    + intros _. split; [lia | apply Qle_refl].
    + apply Nat.le_0_l.
    + split; auto.
Qed.

Lemma getStats_bounds_witness :
  0 <= totalItems (getStats Sample.db) /\
  (0 <= totalValue (getStats Sample.db))%Q.
Proof.
  destruct (getStats_bounds Sample.db) as (Hnn & _).
  apply Hnn. unfold nonNegative. cbn.
  repeat constructor; cbn; try lia; unfold Qle; cbn; lia.
Defined.

(** *** Counting the rows of an import *)

Lemma importLines_counts (currentProducts : list Product.t) (now : string)
  (lines : list string) (db : Db.t) (addedCount updatedCount : nat) :
  let rows := flat_map (fun rawLine => match parseLine rawLine with
                                       | Some row => [row]
                                       | None => []
                                       end) lines in
  fold_left (importLine currentProducts now) lines
    (db, addedCount, updatedCount)
  = (fold_left (fun d row => importRow currentProducts now row d) rows db,
     (addedCount
      + length (filter (fun row => negb (namesProduct currentProducts row)) rows))%nat,
     (updatedCount
      + length (filter (namesProduct currentProducts) rows))%nat).
Proof.
  cbv zeta. revert db addedCount updatedCount.
  induction lines as [|l lines IH]; intros db a u.
  - cbn. rewrite !Nat.add_0_r. reflexivity.
  - cbn [fold_left flat_map].
    assert (importLine currentProducts now (db, a, u) l
            = match parseLine l with
              | Some row =>
                  (importRow currentProducts now row db,
                   (a + if namesProduct currentProducts row then 0 else 1)%nat,
                   (u + if namesProduct currentProducts row then 1 else 0)%nat)
              | None => (db, a, u)
              end) as Hstep.
    { unfold importLine, namesProduct.
      destruct (parseLine l) as [row|]; [|reflexivity].
      destruct (findByName currentProducts (csv_name row));
        rewrite Nat.add_0_r, Nat.add_1_r; reflexivity. }
    rewrite Hstep.
    destruct (parseLine l) as [row|]; cbn [app fold_left filter].
    + rewrite IH.
      destruct (namesProduct currentProducts row); cbn [negb length];
        f_equal; [f_equal| |f_equal|]; lia.
    + apply IH.
Qed.

Lemma importRow_shape (currentProducts : list Product.t) (now : string)
  (row : CsvRow) (db : Db.t) :
  Db.online db = true ->
  Db.activity_logs (importRow currentProducts now row db) = Db.activity_logs db /\
  length (Db.products (importRow currentProducts now row db))
  = (length (Db.products db)
     + if namesProduct currentProducts row then 0 else 1)%nat.
Proof.
  intros Hon. unfold importRow, namesProduct.
  destruct (findByName currentProducts (csv_name row)).
  - rewrite update_products_online by exact Hon. cbn [fst Db.activity_logs Db.products].
    split; [reflexivity|]. rewrite length_map. lia.
  - rewrite insert_product_online by exact Hon. cbn [Db.activity_logs Db.products].
    split; [reflexivity|]. rewrite length_app. cbn. lia.
Qed.

Lemma importRows_shape (currentProducts : list Product.t) (now : string)
  (rows : list CsvRow) (db : Db.t) :
  Db.online db = true ->
  let db' := fold_left (fun d row => importRow currentProducts now row d)
               rows db in
  Db.online db' = true /\
  Db.activity_logs db' = Db.activity_logs db /\
  length (Db.products db')
  = (length (Db.products db)
     + length (filter (fun row => negb (namesProduct currentProducts row)) rows))%nat.
Proof.
  cbv zeta. revert db. induction rows as [|row rows IH]; intros db Hon.
  - cbn. auto.
  - cbn [fold_left filter].
    destruct (importRow_shape currentProducts now row db Hon) as (Hl & Hn).
    destruct (IH _ (importRow_online currentProducts now row db Hon))
      as (Hon' & Hl' & Hn').
    split; [exact Hon'|]. split; [congruence|].
    rewrite Hn', Hn. destruct (namesProduct currentProducts row); cbn; lia.
Qed.

(** The counts of [importFromCSV] on a reachable database. *)
Lemma importFromCSV_counted (csvText now : string) (db : Db.t) :
  Db.online db = true ->
  let rows := csvRows csvText in
  let currentProducts := map toProduct (Db.products db) in
  let addedCount :=
    length (filter (fun row => negb (namesProduct currentProducts row)) rows) in
  let updatedCount := length (filter (namesProduct currentProducts) rows) in
  let db' := fst (importFromCSV csvText now db) in
  snd (importFromCSV csvText now db) = Ok (addedCount, updatedCount) /\
  (addedCount + updatedCount = length rows)%nat /\
  length (Db.products db') = (length (Db.products db) + addedCount)%nat /\
  exists entry,
    Db.activity_logs db' = Db.activity_logs db ++ [entry] /\
    LogRow.type entry = "IMPORT" /\
    LogRow.amount entry = Z.of_nat (length rows).
Proof.
  intros Hon rows cp addedCount updatedCount db'.
  assert (addedCount + updatedCount = length rows)%nat as Hsum.
  { subst addedCount updatedCount. clear.
    induction rows as [|row rows IH]; [reflexivity|]. cbn [filter].
    destruct (namesProduct cp row); cbn [negb length]; lia. }
  subst db'. unfold importFromCSV, getAll, Db.select_products. rewrite Hon.
  fold cp.
  rewrite (importLines_counts cp now (tl (Js.split "010" csvText)) db 0 0).
  fold (csvRows csvText). fold rows. cbn [Nat.add]. fold addedCount updatedCount.
  destruct (importRows_shape cp now rows db Hon) as (Hon' & Hl & Hn).
  cbn [fst snd]. split; [reflexivity|]. split; [exact Hsum|].
  rewrite products_logActivity, logActivity_online by exact Hon'.
  split; [exact Hn|].
  eexists. cbn [Db.activity_logs]. rewrite Hl. split; [reflexivity|].
  cbn. rewrite Hsum. auto.
Qed.

(** X9. The counts of an import, for ASCII text on a reachable
    database.  Of the rows of the CSV text that are not skipped,
    [updated] are those whose name is, but for case, the name of a
    product stored when the import starts, and [created] the others.
    [importFromCSV] answers the numbers of the two; the catalog grows by
    the number of [created], and the log by one IMPORT entry whose
    amount is the number of rows. *)
Theorem importFromCSV_counts :
  forall (csvText now : string) (db : Db.t),
    let rows := csvRows csvText in
    let named (row : CsvRow) :=
      exists r, In r (Db.products db) /\
                Text.sameText (ProductRow.name r) (csv_name row) in
    let after := fst (importFromCSV csvText now db) in
    Db.online db = true ->
    asciiCatalog db ->
    Text.isAscii csvText = true ->
    exists created updated,
      Kept (fun row => ~ named row) rows created /\
      Kept named rows updated /\
      snd (importFromCSV csvText now db)
      = Ok (length created, length updated) /\
      (length created + length updated = length rows)%nat /\
      length (Db.products after)
      = (length (Db.products db) + length created)%nat /\
      exists entry,
        Db.activity_logs after = Db.activity_logs db ++ [entry] /\
        LogRow.type entry = "IMPORT" /\
        LogRow.amount entry = Z.of_nat (length rows).
Proof.
  intros csvText now db rows named after Hon _ _.
  set (cp := map toProduct (Db.products db)).
  assert (forall row, namesProduct cp row = true <-> named row) as Hnamed.
  { intros row. rewrite namesProduct_sameText. subst cp named. cbv beta.
    split.
    - intros (p & Hp & Hs). apply in_map_iff in Hp as (r & <- & Hr).
      exists r. auto.
    - intros (r & Hr & Hs). exists (toProduct r).
      split; [apply in_map; exact Hr | exact Hs]. }
  exists (filter (fun row => negb (namesProduct cp row)) rows),
         (filter (namesProduct cp) rows).
  split.
  { apply filter_Kept. intros row _. rewrite negb_true_iff, <- Hnamed.
    destruct (namesProduct cp row); split; congruence. }
  split; [apply filter_Kept; intros row _; apply Hnamed|].
  apply (importFromCSV_counted csvText now db Hon).
Qed.

Lemma importFromCSV_counts_witness :
  exists created updated : list CsvRow,
    snd (importFromCSV "name,quantity
Arroz,5
Cafe,7

arroz,1" "t1" Sample.pantry) = Ok (length created, length updated) /\
    length created = 1%nat /\ length updated = 2%nat.
Proof.
  destruct (importFromCSV_counts "name,quantity
Arroz,5
Cafe,7

arroz,1" "t1" Sample.pantry eq_refl) as (created & updated & _ & _ & E & _).
  - intros r [<-|[]]. reflexivity.
  - reflexivity.
  - exists created, updated. split; [exact E|].
    assert (snd (importFromCSV "name,quantity
Arroz,5
Cafe,7

arroz,1" "t1" Sample.pantry) = Ok (1%nat, 2%nat)) as C by reflexivity.
    rewrite C in E. injection E as E1 E2. auto.
Defined.

Lemma split_absent (sep : ascii) (s : string) :
  Js.includes s (String sep EmptyString) = false -> Js.split sep s = [s].
Proof.
  induction s as [|c s IH]; intros H; [reflexivity|].
  change (Js.includes (String c s) (String sep EmptyString))
    with (prefix (String sep EmptyString) (String c s)
          || Js.includes s (String sep EmptyString)) in H.
  apply orb_false_iff in H as [Hp Hs].
  cbn [Js.split].
  destruct (Ascii.eqb_spec c sep) as [->|Hne].
  - exfalso. cbn in Hp. destruct (ascii_dec sep sep); [|contradiction].
    destruct s; discriminate.
  - rewrite (IH Hs). reflexivity.
Qed.

(** X10. A CSV text of one line, the header, imports nothing whatever
    the header says: on a reachable database [importFromCSV] answers
    (0, 0), leaves the products as they are and logs one IMPORT entry
    with the amount 0. *)
Theorem importFromCSV_header_only :
  forall (csvText now : string) (db : Db.t),
    Db.online db = true ->
    Js.includes csvText (String "010" EmptyString) = false ->
    importFromCSV csvText now db
    = (logActivity "IMPORT" "Importación CSV: 0 nuevos, 0 act." 0 now db,
       Ok (0%nat, 0%nat)).
Proof.
  intros csvText now db Hon Hnl.
  unfold importFromCSV, getAll, Db.select_products. rewrite Hon.
  rewrite (split_absent _ _ Hnl). reflexivity.
Qed.

Lemma importFromCSV_header_only_witness :
  Db.products (fst (importFromCSV "Producto;Cantidad" "t1" Sample.pantry))
  = Db.products Sample.pantry.
Proof.
  rewrite (importFromCSV_header_only "Producto;Cantidad" "t1" Sample.pantry
             eq_refl eq_refl).
  reflexivity.
Defined.

(** *** Editing a product *)

Lemma Forall2_map_right {A : Type} (R : A -> A -> Prop) (f : A -> A)
  (l : list A) :
  (forall x, R x (f x)) -> Forall2 R l (map f l).
Proof. intros H. induction l; cbn; constructor; auto. Qed.

(** X11. On a reachable database [updateProductDetails] answers the
    catalog it leaves.  The stored products are afterwards those of
    before, each as follows: a product with another id is untouched; a
    product with the id keeps its id, name, category and supplier, gets
    [now] as last update, and the quantity, minimum stock and price of
    the update where it gives them.  An id that no product has is no
    error: the call succeeds and the products stay as they are.  The
    other fields of the update are ignored.  (Nothing is said of the
    order in which the catalog is stored or answered.) *)
Theorem updateProductDetails_effect :
  forall (id : string) (updates : PartialProduct.t) (now : string) (db : Db.t),
    Db.online db = true ->
    let out := updateProductDetails id updates now db in
    (exists answered,
        snd out = Ok answered /\
        Permutation answered (map toProduct (Db.products (fst out)))) /\
    (exists updated,
        Permutation updated (Db.products (fst out)) /\
        Forall2 (detailsUpdated id now updates) (Db.products db) updated) /\
    ((forall r, In r (Db.products db) -> ProductRow.id r <> id) ->
     Permutation (Db.products (fst out)) (Db.products db)) /\
    (forall updates',
        PartialProduct.quantity updates' = PartialProduct.quantity updates ->
        PartialProduct.minStock updates' = PartialProduct.minStock updates ->
        PartialProduct.price updates' = PartialProduct.price updates ->
        updateProductDetails id updates' now db = out).
Proof.
  intros id updates now db Hon out. subst out.
  unfold updateProductDetails.
  rewrite update_products_online by exact Hon.
  cbn [fst snd Db.products].
  split; [eexists; split; [reflexivity | apply Permutation_refl]|].
  split; [|split].
  - eexists. split; [apply Permutation_refl|].
    apply Forall2_map_right. intros r. unfold detailsUpdated.
    destruct (String.eqb_spec (ProductRow.id r) id) as [E|N].
    + split; [intros H; contradiction|]. intros _. cbn.
      repeat split; auto;
        try (intros x Hx; rewrite Hx; reflexivity);
        try (intros Hx; rewrite Hx; reflexivity).
    + split; [reflexivity | intros H; contradiction].
  - intros Hno. rewrite map_unchanged; [apply Permutation_refl|].
    intros r Hr. apply String.eqb_neq. apply Hno. exact Hr.
  - intros updates' Hq Hm Hp.
    rewrite update_products_online by exact Hon.
    rewrite Hq, Hm, Hp. reflexivity.
Qed.

Lemma updateProductDetails_effect_witness :
  Permutation
    (Db.products
       (fst (updateProductDetails "unknown"
               (PartialProduct.mk None None (Some 7) None None None None None)
               "t1" Sample.db)))
    (Db.products Sample.db).
Proof.
  destruct (updateProductDetails_effect "unknown"
              (PartialProduct.mk None None (Some 7) None None None None None)
              "t1" Sample.db eq_refl) as (_ & _ & Hno & _).
  apply Hno. intros r [<-|[<-|[]]]; discriminate.
Defined.

(** *** The stock-out box of the inventory table *)

Lemma registerStockOut_stockedOut (productId : string) (amount : Z)
  (now : string) (db : Db.t) (product : ProductRow.t) :
  Db.select_product_by_id productId db = Some product ->
  0 < ProductRow.quantity product
      - Z.max 0 (ProductRow.quantity product - amount) ->
  stockedOut product now
    (Z.max 0 (ProductRow.quantity product - amount))
    (ProductRow.quantity product
     - Z.max 0 (ProductRow.quantity product - amount))
    db (registerStockOut productId amount now db).
Proof.
  intros Hsel Hd.
  destruct (select_product_by_id_Some _ _ _ Hsel)
    as (Hon & Hid & l1 & l2 & E & H1 & H2).
  unfold registerStockOut. rewrite Hsel.
  apply Z.ltb_lt in Hd. rewrite Hd.
  rewrite update_products_online by exact Hon.
  cbn [fst]. rewrite logActivity_online by reflexivity.
  split.
  - exists l1, l2. split; [exact E|].
    cbn [Db.products]. rewrite E, map_app. cbn [map].
    rewrite (map_unchanged _ _ l1 H1), (map_unchanged _ _ l2 H2).
    rewrite Hid, String.eqb_refl. reflexivity.
  - eexists. cbn [Db.activity_logs]. split; [reflexivity|]. split; reflexivity.
Qed.

(** X12. Whatever is typed in the stock-out box of a product,
    [handleExecuteStockOut] adds no stock and makes no quantity
    negative.  A text that is missing or does not read as a positive
    integer changes nothing.  A text that reads as the positive integer
    [a], for a product with the positive quantity [q], leaves the
    quantity [max(0, q - a)], logs one OUT entry with the amount
    [min(q, a)] and empties the box. *)
Theorem handleExecuteStockOut_guard :
  forall (id : string) (stockOutValues : string -> option string)
         (now : string) (db : Db.t),
    let out := InventoryTable.handleExecuteStockOut id stockOutValues now db in
    Forall2 (loweredOnly id) (Db.products db) (Db.products (fst out)) /\
    ((forall text a, stockOutValues id = Some text ->
                     Js.parseInt text = Some a -> a <= 0) ->
     out = (db, stockOutValues)) /\
    (forall text a product,
        stockOutValues id = Some text ->
        Js.parseInt text = Some a ->
        0 < a ->
        Db.select_product_by_id id db = Some product ->
        0 < ProductRow.quantity product ->
        stockedOut product now
          (Z.max 0 (ProductRow.quantity product - a))
          (Z.min (ProductRow.quantity product) a) db (fst out) /\
        snd out id = Some EmptyString).
Proof.
  intros id values now db out. subst out.
  unfold InventoryTable.handleExecuteStockOut.
  split; [|split].
  - destruct (values id) as [text|];
      [|apply Forall2_same; apply loweredOnly_refl].
    destruct (Js.parseInt text) as [a|];
      [|apply Forall2_same; apply loweredOnly_refl].
    destruct (negb (a =? 0) && (0 <? a)); cbn [fst].
    + apply registerStockOut_loweredOnly.
    + apply Forall2_same. apply loweredOnly_refl.
  - intros Hnon. destruct (values id) as [text|]; [|reflexivity].
    destruct (Js.parseInt text) as [a|] eqn:P; [|reflexivity].
    pose proof (Hnon text a eq_refl P) as Ha.
    destruct (0 <? a) eqn:D; [apply Z.ltb_lt in D; lia|].
    rewrite andb_false_r. reflexivity.
  - intros text a product Hv P Ha Hsel Hq. rewrite Hv, P.
    assert (negb (a =? 0) && (0 <? a) = true) as ->.
    { apply andb_true_iff. split; [apply negb_true_iff, Z.eqb_neq; lia|].
      apply Z.ltb_lt. exact Ha. }
    cbn [fst snd]. rewrite String.eqb_refl. split; [|reflexivity].
    replace (Z.min (ProductRow.quantity product) a)
      with (ProductRow.quantity product
            - Z.max 0 (ProductRow.quantity product - a)) by lia.
    apply registerStockOut_stockedOut; [exact Hsel | lia].
Qed.

Lemma handleExecuteStockOut_guard_witness :
  InventoryTable.handleExecuteStockOut "p1" (fun _ => Some "-3") "t1" Sample.db
  = (Sample.db, fun _ => Some "-3")
  /\
  stockedOut Sample.harina "t1" 0 5 Sample.db
    (fst (InventoryTable.handleExecuteStockOut "p1" (fun _ => Some "8 cajas")
            "t1" Sample.db)).
Proof.
  split.
  - destruct (handleExecuteStockOut_guard "p1" (fun _ => Some "-3") "t1"
                Sample.db) as (_ & Hnon & _).
    apply Hnon. intros text a [= <-] [= <-]. lia.
  - destruct (handleExecuteStockOut_guard "p1" (fun _ => Some "8 cajas") "t1"
                Sample.db) as (_ & _ & Hout).
    destruct (Hout "8 cajas" 8 Sample.harina eq_refl eq_refl) as (H & _);
      [lia | reflexivity | cbn; lia | exact H].
Defined.

(* ================================================================= *)
(** ** The review screen of the scanner *)

Lemma setItem_nth (f : InvoiceItem.t -> InvoiceItem.t)
  (items : list InvoiceItem.t) (index : nat) (item : InvoiceItem.t) :
  nth_error items index = Some item ->
  length (Scanner.setItem index f items) = length items /\
  nth_error (Scanner.setItem index f items) index = Some (f item) /\
  forall j, j <> index ->
            nth_error (Scanner.setItem index f items) j = nth_error items j.
Proof.
  intros H. unfold Scanner.setItem. rewrite H.
  revert index H. induction items as [|x items IH]; intros index H.
  - destruct index; discriminate.
  - destruct index as [|index].
    + injection H as ->. cbn. repeat split; auto.
      intros [|j] Hj; [contradiction | reflexivity].
    + cbn in H. destruct (IH index H) as (Hlen & Hat & Hother).
      cbn [firstn skipn app length nth_error] in *.
      split; [rewrite Hlen; reflexivity|]. split; [exact Hat|].
      intros [|j] Hj; [reflexivity|]. cbn. apply Hother. lia.
Qed.

Lemma setItem_Forall (P : InvoiceItem.t -> Prop)
  (f : InvoiceItem.t -> InvoiceItem.t) (items : list InvoiceItem.t)
  (index : nat) :
  Forall P items -> (forall x, P x -> P (f x)) ->
  Forall P (Scanner.setItem index f items).
Proof.
  intros Hall Hf. unfold Scanner.setItem.
  destruct (nth_error items index) as [item|] eqn:E; [|exact Hall].
  rewrite <- (firstn_skipn_middle _ _ E) in Hall.
  apply Forall_app in Hall as [H1 H2].
  apply Forall_app. split; [exact H1|].
  inversion H2 as [|? ? Hx Hrest]; subst.
  constructor; [apply Hf; exact Hx | exact Hrest].
Qed.

(** X13. Editing the quantity of the item at [index] of the scanned
    invoice.  A text that does not read as an integer, or reads as a
    negative one, is ignored.  Otherwise the item at [index] gets the
    integer read as its quantity and nothing else changes: the other
    fields of the item, the other items, their number and order, the
    supplier and the currency.  Quantities that were not negative are
    not negative afterwards. *)
Theorem handleQuantityChange_effect :
  forall (index : nat) (newValue : string) (sr : InvoiceData.t)
         (item : InvoiceItem.t),
    nth_error (InvoiceData.items sr) index = Some item ->
    (Js.parseInt newValue = None \/
     (exists val, Js.parseInt newValue = Some val /\ val < 0) ->
     Scanner.handleQuantityChange index newValue (Some sr) = Some sr) /\
    (forall val,
        Js.parseInt newValue = Some val -> 0 <= val ->
        exists sr',
          Scanner.handleQuantityChange index newValue (Some sr) = Some sr' /\
          InvoiceData.supplier sr' = InvoiceData.supplier sr /\
          InvoiceData.currency sr' = InvoiceData.currency sr /\
          length (InvoiceData.items sr') = length (InvoiceData.items sr) /\
          nth_error (InvoiceData.items sr') index = Some (withQuantity item val) /\
          forall j, j <> index ->
                    nth_error (InvoiceData.items sr') j
                    = nth_error (InvoiceData.items sr) j) /\
    (Forall (fun it => 0 <= InvoiceItem.quantity it) (InvoiceData.items sr) ->
     exists sr',
       Scanner.handleQuantityChange index newValue (Some sr) = Some sr' /\
       Forall (fun it => 0 <= InvoiceItem.quantity it) (InvoiceData.items sr')).
Proof.
  intros index newValue sr item Hnth.
  unfold Scanner.handleQuantityChange. split; [|split].
  - intros [->|(val & -> & Hneg)]; [reflexivity|].
    apply Z.ltb_lt in Hneg. rewrite Hneg. reflexivity.
  - intros val -> Hval. apply Z.ltb_ge in Hval. rewrite Hval.
    eexists. split; [reflexivity|]. cbn [Scanner.withItems InvoiceData.supplier
      InvoiceData.currency InvoiceData.items].
    split; [reflexivity|]. split; [reflexivity|].
    exact (setItem_nth (fun it => withQuantity it val) _ _ _ Hnth).
  - intros Hall. destruct (Js.parseInt newValue) as [val|];
      [|exists sr; auto].
    destruct (val <? 0) eqn:D; [exists sr; auto|].
    apply Z.ltb_ge in D.
    eexists. split; [reflexivity|]. cbn [Scanner.withItems InvoiceData.items].
    apply setItem_Forall; [exact Hall|]. intros x _. exact D.
Qed.

Lemma handleQuantityChange_effect_witness :
  Scanner.handleQuantityChange 0 "-4" (Some Sample.scan) = Some Sample.scan /\
  exists sr',
    Scanner.handleQuantityChange 0 "12" (Some Sample.scan) = Some sr' /\
    nth_error (InvoiceData.items sr') 0
    = Some (withQuantity (Sample.item "harina pan" 10 (80 # 1)) 12).
Proof.
  split.
  - destruct (handleQuantityChange_effect 0 "-4" Sample.scan
                (Sample.item "harina pan" 10 (80 # 1)) eq_refl) as (Hno & _).
    apply Hno. right. exists (-4). split; [reflexivity | lia].
  - destruct (handleQuantityChange_effect 0 "12" Sample.scan
                (Sample.item "harina pan" 10 (80 # 1)) eq_refl) as (_ & Hset & _).
    destruct (Hset 12 eq_refl) as (sr' & E & _ & _ & _ & Hat & _); [lia|].
    exists sr'. split; [exact E | exact Hat].
Defined.

(** *** The breakdown by category *)

Lemma addToCategory_keys (cat : string) (total : Q) (acc : list (string * Q)) :
  map fst (Scanner.addToCategory cat total acc)
  = if existsb (String.eqb cat) (map fst acc)
    then map fst acc
    else map fst acc ++ [cat].
Proof.
  induction acc as [|[k v] acc IH]; [reflexivity|].
  cbn [Scanner.addToCategory map fst existsb].
  rewrite (String.eqb_sym cat k).
  destruct (String.eqb k cat); cbn [orb map fst]; [reflexivity|].
  rewrite IH. destruct (existsb _ _); reflexivity.
Qed.

Lemma existsb_eqb_In (cat : string) (l : list string) :
  existsb (String.eqb cat) l = true <-> In cat l.
Proof.
  rewrite existsb_exists. split.
  - intros (x & Hx & E). apply String.eqb_eq in E. subst. exact Hx.
  - intros H. exists cat. split; [exact H | apply String.eqb_refl].
Qed.

Lemma categoryTotals_fold (items : list InvoiceItem.t)
  (acc : list (string * Q)) :
  let label item := Js.opt_or_else (InvoiceItem.category item) "Sin Categoría" in
  let out := fold_left (fun acc item =>
                          Scanner.addToCategory (label item)
                            (Scanner.lineTotal item) acc) items acc in
  (NoDup (map fst acc) -> NoDup (map fst out)) /\
  (forall c, In c (map fst out) <->
             In c (map fst acc) \/ exists item, In item items /\ label item = c) /\
  (length out <= length acc + length items)%nat.
Proof.
  cbv zeta. revert acc. induction items as [|item items IH]; intros acc.
  - cbn. split; [auto|]. split; [|lia].
    intros c. split; [auto|]. intros [H|(item & [] & _)]. exact H.
  - cbn [fold_left].
    set (label := Js.opt_or_else (InvoiceItem.category item) "Sin Categoría").
    set (acc1 := Scanner.addToCategory label (Scanner.lineTotal item) acc).
    destruct (IH acc1) as (Hnd & Hin & Hlen).
    pose proof (addToCategory_keys label (Scanner.lineTotal item) acc) as Hk.
    fold acc1 in Hk.
    assert (forall c, In c (map fst acc1) <-> In c (map fst acc) \/ c = label)
      as Hin1.
    { intros c. rewrite Hk.
      destruct (existsb (String.eqb label) (map fst acc)) eqn:E.
      - apply existsb_eqb_In in E. split; [auto|].
        intros [H| ->]; assumption.
      - rewrite in_app_iff. cbn. split.
        + intros [H|[<-|[]]]; auto.
        + intros [H| ->]; auto. }
    split; [|split].
    + intros Hacc. apply Hnd. rewrite Hk.
      destruct (existsb (String.eqb label) (map fst acc)) eqn:E; [exact Hacc|].
      apply NoDup_app; [exact Hacc | repeat constructor; intros [] |].
      intros c Hc [<-|[]].
      apply existsb_eqb_In in Hc. congruence.
    + intros c. rewrite Hin, Hin1. split.
      * intros [[H| ->]|(it & Hit & Hl)]; auto.
        -- right. exists item. split; [left; reflexivity | reflexivity].
        -- right. exists it. split; [right; exact Hit | exact Hl].
      * intros [H|(it & [<-|Hit] & Hl)]; auto.
        right. exists it. auto.
    + assert (length acc1 <= S (length acc))%nat as Hl1.
      { rewrite <- (length_map fst acc1), Hk.
        destruct (existsb _ _); rewrite ?length_app, length_map; cbn; lia. }
      cbn [length]. lia.
Qed.

Lemma categoryLabel_opt_or_else (item : InvoiceItem.t) :
  Js.opt_or_else (InvoiceItem.category item) "Sin Categoría"
  = categoryLabel item.
Proof.
  unfold categoryLabel. destruct (InvoiceItem.category item) as [[|c s]|];
    reflexivity.
Qed.

(** X14. The breakdown by category of the scanned invoice, when the
    categories of the items are ordinary keys of an object (no
    inherited property name, no key made of digits): it has one line
    per category, no category twice, a line for the category of every
    item (for "Sin Categoría" when the item has none or an empty one),
    no other line, and so at most as many lines as items. *)
Theorem categoryTotals_keys :
  forall sr : InvoiceData.t,
    let keys := map fst (Scanner.categoryTotals (Some sr)) in
    (forall item, In item (InvoiceData.items sr) ->
                  Js.ordinaryKey (categoryLabel item) = true) ->
    NoDup keys /\
    (forall c, In c keys <->
               exists item, In item (InvoiceData.items sr) /\
                            categoryLabel item = c) /\
    (length keys <= length (InvoiceData.items sr))%nat.
Proof.
  intros sr keys _. subst keys. unfold Scanner.categoryTotals.
  destruct (categoryTotals_fold (InvoiceData.items sr) []) as (Hnd & Hin & Hlen).
  split; [apply Hnd; constructor|]. split.
  - intros c. rewrite Hin. split.
    + intros [[]|(item & Hi & Hl)]. exists item.
      rewrite <- categoryLabel_opt_or_else. auto.
    + intros (item & Hi & Hl). right. exists item.
      rewrite categoryLabel_opt_or_else. auto.
  - rewrite length_map. exact Hlen.
Qed.

Lemma categoryTotals_keys_witness :
  NoDup (map fst (Scanner.categoryTotals (Some Sample.scan))) /\
  map fst (Scanner.categoryTotals (Some Sample.scan)) = ["Otros"].
Proof.
  destruct (categoryTotals_keys Sample.scan) as (Hnd & _).
  - intros item [<-|[<-|[]]]; reflexivity.
  - split; [exact Hnd | reflexivity].
Defined.

(* ================================================================= *)
(** ** The exchange rate *)

Lemma num_or_nonzero (x : option Q) (d : Q) :
  ~ (d == 0)%Q -> ~ (Js.num_or x d == 0)%Q.
Proof.
  intros Hd. unfold Js.num_or. destruct x as [q|]; [|exact Hd].
  destruct (Qeq_bool q 0) eqn:E; [exact Hd|].
  intros H. apply Qeq_bool_iff in H. congruence.
Qed.

Lemma num_or_zero_default (x : option Q) (d : Q) :
  x = None \/ (exists q, x = Some q /\ (q == 0)%Q) -> Js.num_or x d = d.
Proof.
  intros [->|(q & -> & Hq)]; [reflexivity|]. cbn.
  apply Qeq_bool_iff in Hq. rewrite Hq. reflexivity.
Qed.

Lemma num_or_value (q d : Q) : ~ (q == 0)%Q -> Js.num_or (Some q) d = q.
Proof.
  intros Hq. cbn. destruct (Qeq_bool q 0) eqn:E; [|reflexivity].
  apply Qeq_bool_iff in E. contradiction.
Qed.

(** X15. The exchange rate [App] hands to the scanner and to the
    inventory table is never zero, whatever rates are in its state.
    After a request to the rates service it is the average of the first
    monitor with the code "oficial" or the name "Oficial" when that
    average is given and is not zero, and 1 when there is no such
    monitor or its average is missing or zero; when the request fails
    it is the rate of before. *)
Theorem currentRate_never_zero :
  forall (previous : option ExchangeRateService.ExchangeRates)
         (response : option (list ExchangeRateService.Monitor)) (now : string),
    let rate := App.currentRate (App.fetchRates response now previous) in
    let official d :=
      String.eqb (ExchangeRateService.codigo d) "oficial"
      || String.eqb (ExchangeRateService.nombre d) "Oficial" in
    ~ (App.currentRate previous == 0)%Q /\
    ~ (rate == 0)%Q /\
    (previous = None -> App.currentRate previous = 1%Q) /\
    (response = None -> rate = App.currentRate previous) /\
    (forall data,
        response = Some data ->
        (forall d q,
            first_such official data d ->
            ExchangeRateService.promedio d = Some q ->
            ~ (q == 0)%Q -> rate = q) /\
        (forall d,
            first_such official data d ->
            ExchangeRateService.promedio d = None \/
            (exists q, ExchangeRateService.promedio d = Some q /\ (q == 0)%Q) ->
            rate = 1%Q) /\
        ((forall d, In d data -> official d = false) -> rate = 1%Q)).
Proof.
  intros previous response now rate official. subst rate.
  unfold App.currentRate.
  split; [apply num_or_nonzero; discriminate|].
  split; [apply num_or_nonzero; discriminate|].
  split; [intros ->; reflexivity|].
  split; [intros ->; reflexivity|].
  intros data ->. cbn [App.fetchRates ExchangeRateService.getRates option_map
                       ExchangeRateService.bcv].
  unfold ExchangeRateService.rateOf. fold official.
  split; [|split].
  - intros d q Hfirst Hp Hq. apply find_first_such in Hfirst.
    rewrite Hfirst, Hp, (num_or_value q 0 Hq). apply num_or_value. exact Hq.
  - intros d Hfirst Hp. apply find_first_such in Hfirst.
    rewrite Hfirst, (num_or_zero_default _ 0 Hp). reflexivity.
  - intros Hnone. apply find_none_iff in Hnone. rewrite Hnone. reflexivity.
Qed.

Lemma currentRate_never_zero_witness :
  App.currentRate
    (App.fetchRates
       (Some [ExchangeRateService.mkMonitor "paralelo" "Paralelo" (Some (45 # 1));
              ExchangeRateService.mkMonitor "oficial" "Oficial" (Some (40 # 1))])
       "t1" None) = (40 # 1)%Q
  /\
  App.currentRate
    (App.fetchRates
       (Some [ExchangeRateService.mkMonitor "oficial" "Oficial" None]) "t1" None)
  = 1%Q.
Proof.
  split.
  - destruct (currentRate_never_zero None
                (Some [ExchangeRateService.mkMonitor "paralelo" "Paralelo"
                         (Some (45 # 1));
                       ExchangeRateService.mkMonitor "oficial" "Oficial"
                         (Some (40 # 1))]) "t1") as (_ & _ & _ & _ & H).
    destruct (H _ eq_refl) as (Hval & _).
    apply (Hval (ExchangeRateService.mkMonitor "oficial" "Oficial" (Some (40 # 1)))).
    + exists [ExchangeRateService.mkMonitor "paralelo" "Paralelo" (Some (45 # 1))],
             [].
      split; [reflexivity|]. split; [reflexivity|].
      intros y [<-|[]]. reflexivity.
    + reflexivity.
    + discriminate.
  - destruct (currentRate_never_zero None
                (Some [ExchangeRateService.mkMonitor "oficial" "Oficial" None])
                "t1") as (_ & _ & _ & _ & H).
    destruct (H _ eq_refl) as (_ & Hdef & _).
    apply (Hdef (ExchangeRateService.mkMonitor "oficial" "Oficial" None)).
    + exists [], []. split; [reflexivity|]. split; [reflexivity|]. intros y [].
    + left. reflexivity.
Defined.

(* ================================================================= *)
(** ** The product table *)

Lemma insertSorted_skip {A : Type} (compare : A -> A -> Z) (x : A)
  (l1 l2 : list A) :
  (forall y, In y l1 -> 0 < compare x y) ->
  Js.insertSorted compare x (l1 ++ l2) = l1 ++ Js.insertSorted compare x l2.
Proof.
  induction l1 as [|y l1 IH]; intros H; [reflexivity|].
  cbn [app Js.insertSorted].
  pose proof (H y (or_introl eq_refl)) as Hy.
  apply Z.leb_gt in Hy. rewrite Hy. rewrite IH; [reflexivity|].
  intros z Hz. apply H. right; exact Hz.
Qed.

Lemma insertSorted_head {A : Type} (compare : A -> A -> Z) (x : A)
  (l : list A) :
  (forall y, In y l -> compare x y <= 0) ->
  Js.insertSorted compare x l = x :: l.
Proof.
  destruct l as [|y l]; intros H; [reflexivity|].
  cbn [Js.insertSorted].
  pose proof (H y (or_introl eq_refl)) as Hy.
  apply Z.leb_le in Hy. rewrite Hy. reflexivity.
Qed.

(** Sorting on a test that puts its positives first is a stable
    partition. *)
Lemma sort_by_flag {A : Type} (flag : A -> bool) (l : list A) :
  Js.sort (fun a b => (if flag b then 1 else 0) - (if flag a then 1 else 0)) l
  = filter flag l ++ filter (fun x => negb (flag x)) l.
Proof.
  induction l as [|a l IH]; [reflexivity|].
  unfold Js.sort in *. cbn [fold_right filter]. rewrite IH.
  destruct (flag a) eqn:Fa; cbn [negb app].
  - apply insertSorted_head. intros y _. cbv beta. rewrite Fa.
    destruct (flag y); lia.
  - rewrite insertSorted_skip.
    + rewrite insertSorted_head; [reflexivity|].
      intros y Hy. apply filter_In in Hy as [_ Hy].
      apply negb_true_iff in Hy. cbv beta. rewrite Hy, Fa. lia.
    + intros y Hy. apply filter_In in Hy as [_ Hy].
      cbv beta. rewrite Hy, Fa. lia.
Qed.

Lemma partition_Permutation {A : Type} (flag : A -> bool) (l : list A) :
  Permutation l (filter flag l ++ filter (fun x => negb (flag x)) l).
Proof.
  induction l as [|a l IH]; [constructor|]. cbn [filter].
  destruct (flag a); cbn [negb app].
  - constructor. exact IH.
  - apply Permutation_cons_app. exact IH.
Qed.

Lemma includes_empty (s : string) : Js.includes s EmptyString = true.
Proof. destruct s; reflexivity. Qed.

Lemma filter_andb {A : Type} (f g : A -> bool) (l : list A) :
  filter g (filter f l) = filter (fun x => f x && g x) l.
Proof.
  induction l as [|x l IH]; [reflexivity|]. cbn [filter].
  destruct (f x); cbn [filter andb]; [|exact IH].
  destruct (g x); rewrite IH; reflexivity.
Qed.

Lemma find_supplierOf (suppliers : list Supplier.t) (p : Product.t)
  (s : Supplier.t) :
  match Product.supplierId p with
  | Some sid =>
      if Js.truthy sid
      then find (fun s => String.eqb (Supplier.id s) sid) suppliers
      else None
  | None => None
  end = Some s <-> supplierOf suppliers p s.
Proof.
  unfold supplierOf. destruct (Product.supplierId p) as [sid|].
  - destruct sid as [|c sid]; cbn [Js.truthy].
    + split; [discriminate|].
      intros (x & l1 & l2 & [= <-] & H & _). congruence.
    + rewrite find_first_such. unfold first_such. split.
      * intros (l1 & l2 & E & Hs & Hl1). exists (String c sid), l1, l2.
        split; [reflexivity|]. split; [discriminate|]. split; [exact E|].
        split; [apply String.eqb_eq; exact Hs|].
        intros x Hx. apply String.eqb_neq. apply Hl1. exact Hx.
      * intros (x & l1 & l2 & [= <-] & _ & E & Hs & Hl1). exists l1, l2.
        split; [exact E|]. split; [apply String.eqb_eq; exact Hs|].
        intros y Hy. apply String.eqb_neq. apply Hl1. exact Hy.
  - split; [discriminate|]. intros (x & l1 & l2 & H & _). discriminate.
Qed.

(** The test of the filter of the product table, worded on the
    characters. *)
Lemma matchesSearch_containsText (suppliers : list Supplier.t)
  (searchTerm : string) (p : Product.t) :
  InventoryTable.matchesSearch suppliers (Js.toLowerCase searchTerm) p = true
  <->
  (Text.containsText (Product.name p) searchTerm \/
   (exists s, supplierOf suppliers p s /\
              Text.containsText (Supplier.name s) searchTerm) \/
   (Product.category p <> EmptyString /\
    Text.containsText (Product.category p) searchTerm)).
Proof.
  unfold InventoryTable.matchesSearch.
  rewrite !orb_true_iff, includes_containsText.
  pose proof (find_supplierOf suppliers p) as Hsup.
  destruct (match Product.supplierId p with
            | Some sid => if Js.truthy sid
                          then find (fun s => String.eqb (Supplier.id s) sid)
                                    suppliers
                          else None
            | None => None
            end) as [s0|].
  - rewrite includes_containsText.
    assert (Text.containsText (Supplier.name s0) searchTerm <->
            exists s, supplierOf suppliers p s /\
                      Text.containsText (Supplier.name s) searchTerm) as Hs.
    { split.
      - intros H. exists s0. split; [apply Hsup; reflexivity | exact H].
      - intros (s & Hof & H). apply Hsup in Hof. injection Hof as ->. exact H. }
    rewrite Hs.
    destruct (Product.category p) as [|c cat]; cbn [Js.truthy].
    + split; [intros [[H|H]|H]; [auto | auto | discriminate]|].
      intros [H|[H|[H _]]]; [auto | auto | congruence].
    + rewrite includes_containsText.
      split; [intros [[H|H]|H]; auto|].
      * right. right. split; [discriminate | exact H].
      * intros [H|[H|[_ H]]]; auto.
  - assert ((exists s, supplierOf suppliers p s /\
                       Text.containsText (Supplier.name s) searchTerm)
            <-> False) as Hs.
    { split; [|intros []]. intros (s & Hof & _). apply Hsup in Hof.
      discriminate. }
    rewrite Hs.
    destruct (Product.category p) as [|c cat]; cbn [Js.truthy].
    + split; [intros [[H|H]|H]; [auto | discriminate | discriminate]|].
      intros [H|[[]|[H _]]]; [auto | congruence].
    + rewrite includes_containsText.
      split; [intros [[H|H]|H]; [auto | discriminate |]|].
      * right. right. split; [discriminate | exact H].
      * intros [H|[[]|[_ H]]]; auto.
Qed.

(** X18. The product table, for ASCII text.  It shows the products
    that match the search term, each once: first those whose quantity
    is at most their minimum stock, then the others, both in the order
    of the list of products it is given.  A product matches when its
    name, the name of its supplier or its category (when it has one)
    contains the search term, without regard to case.  With an empty
    search term every product is shown. *)
Theorem sortedProducts_low_first :
  forall (products : list Product.t) (searchTerm : string)
         (suppliers : list Supplier.t),
    let matches (p : Product.t) :=
      Text.containsText (Product.name p) searchTerm \/
      (exists s, supplierOf suppliers p s /\
                 Text.containsText (Supplier.name s) searchTerm) \/
      (Product.category p <> EmptyString /\
       Text.containsText (Product.category p) searchTerm) in
    let low (p : Product.t) := Product.quantity p <= Product.minStock p in
    let shown := InventoryTable.sortedProducts products searchTerm suppliers in
    Text.isAscii searchTerm = true ->
    (forall p, In p products ->
               Text.isAscii (Product.name p) = true /\
               Text.isAscii (Product.category p) = true) ->
    (forall s, In s suppliers -> Text.isAscii (Supplier.name s) = true) ->
    (exists lows others,
        shown = lows ++ others /\
        Kept (fun p => matches p /\ low p) products lows /\
        Kept (fun p => matches p /\ ~ low p) products others) /\
    (searchTerm = EmptyString -> Permutation products shown).
Proof.
  intros products searchTerm suppliers matches low shown _ _ _.
  set (matching :=
         filter (InventoryTable.matchesSearch suppliers
                   (Js.toLowerCase searchTerm)) products).
  assert (shown = filter InventoryTable.isLow matching
                  ++ filter (fun p => negb (InventoryTable.isLow p)) matching)
    as E.
  { subst shown. unfold InventoryTable.sortedProducts. fold matching.
    apply (sort_by_flag InventoryTable.isLow). }
  assert (forall p, InventoryTable.isLow p = true <-> low p) as Hlow
      by (intros p; apply Z.leb_le).
  split.
  - eexists _, _. split; [exact E|]. subst matching.
    rewrite !filter_andb. split; apply filter_Kept; intros p _;
      rewrite andb_true_iff, matchesSearch_containsText; fold (matches p).
    + rewrite Hlow. tauto.
    + rewrite negb_true_iff, <- Hlow.
      destruct (InventoryTable.isLow p); split;
        intros [Hm Hl]; (split; [exact Hm|]); congruence.
  - intros ->. rewrite E.
    assert (matching = products) as ->.
    { subst matching. cbn [Js.toLowerCase].
      clear. induction products as [|p products IH]; [reflexivity|].
      cbn [filter]. unfold InventoryTable.matchesSearch at 1.
      rewrite includes_empty. cbn [orb]. rewrite IH. reflexivity. }
    apply partition_Permutation.
Qed.

Lemma sortedProducts_low_first_witness :
  (exists lows others,
      InventoryTable.sortedProducts [Sample.azucar; Sample.pan; Sample.integral]
        "pAn" []
      = lows ++ others /\
      Forall (fun p => Product.quantity p <= Product.minStock p) lows) /\
  InventoryTable.sortedProducts [Sample.azucar; Sample.pan; Sample.integral]
    "pAn" []
  = [Sample.pan; Sample.integral] /\
  InventoryTable.sortedProducts [Sample.azucar; Sample.pan] "" []
  = [Sample.pan; Sample.azucar].
Proof.
  destruct (sortedProducts_low_first
              [Sample.azucar; Sample.pan; Sample.integral] "pAn" [] eq_refl)
    as ((lows & others & E & Hlows & _) & _).
  - intros p [<-|[<-|[<-|[]]]]; split; reflexivity.
  - intros s [].
  - split; [|split; reflexivity].
    exists lows, others. split; [exact E|].
    clear E. induction Hlows as [|x l k [_ Hx] _ IH|x l k _ _ IH];
      [constructor | constructor; [exact Hx | exact IH] | exact IH].
Defined.

(** X19. The supplier panel, for ASCII text: it lists, in the order of
    the list of suppliers it is given, the suppliers whose name or rif
    contains the search term, without regard to case, and no other;
    with an empty search term it lists every supplier. *)
Theorem filteredSuppliers_search :
  forall (suppliers : list Supplier.t) (searchTerm : string),
    let shown := SupplierPanel.filteredSuppliers suppliers searchTerm in
    Text.isAscii searchTerm = true ->
    (forall s, In s suppliers ->
               Text.isAscii (Supplier.name s) = true /\
               Text.isAscii (Supplier.rif s) = true) ->
    Kept (fun s => Text.containsText (Supplier.name s) searchTerm \/
                   Text.containsText (Supplier.rif s) searchTerm)
         suppliers shown /\
    (searchTerm = EmptyString -> shown = suppliers).
Proof.
  intros suppliers searchTerm shown _ _. subst shown.
  unfold SupplierPanel.filteredSuppliers. split.
  - apply filter_Kept. intros s _.
    rewrite orb_true_iff, !includes_containsText. tauto.
  - intros ->. cbn [Js.toLowerCase].
    induction suppliers as [|s suppliers IH]; [reflexivity|].
    cbn [filter]. rewrite includes_empty. cbn [orb]. rewrite IH. reflexivity.
Qed.

Lemma filteredSuppliers_search_witness :
  Kept (fun s => Text.containsText (Supplier.name s) "j-2" \/
                 Text.containsText (Supplier.rif s) "j-2")
       (map toSupplier [Sample.acme; Sample.beta])
       (SupplierPanel.filteredSuppliers
          (map toSupplier [Sample.acme; Sample.beta]) "j-2") /\
  SupplierPanel.filteredSuppliers (map toSupplier [Sample.acme; Sample.beta])
    "j-2"
  = [toSupplier Sample.beta].
Proof.
  destruct (filteredSuppliers_search (map toSupplier [Sample.acme; Sample.beta])
              "j-2" eq_refl) as (H & _).
  - intros s [<-|[<-|[]]]; split; reflexivity.
  - split; [exact H | reflexivity].
Defined.

(* ================================================================= *)
(** ** From the scan to the confirmation *)

Lemma resolveInvoiceAliases_items (items : list InvoiceItem.t)
  (supplierName : string) (db : Db.t) :
  exists out,
    resolveInvoiceAliases items supplierName db = Ok out /\
    length out = length items /\
    forall i item,
      nth_error items i = Some item ->
      exists item',
        nth_error out i = Some item' /\
        InvoiceItem.quantity item' = InvoiceItem.quantity item /\
        InvoiceItem.price item' = InvoiceItem.price item /\
        InvoiceItem.originalQuantity item' = InvoiceItem.originalQuantity item /\
        InvoiceItem.detectedPackSize item' = InvoiceItem.detectedPackSize item /\
        InvoiceItem.confidence item' = InvoiceItem.confidence item.
Proof.
  unfold resolveInvoiceAliases. destruct (getAll db) as [products|e].
  - eexists. split; [reflexivity|]. split; [apply length_map|].
    intros i item Hi. exists (resolveAlias products item).
    split; [apply map_nth_error; exact Hi|].
    unfold resolveAlias. destruct (find _ products); cbn;
      repeat split; reflexivity.
  - exists items. split; [reflexivity|]. split; [reflexivity|].
    intros i item Hi. exists item. repeat split; auto.
Qed.

(** X16. What the scanner does with the extracted invoice before the
    review never fails and keeps the currency, the number and order of
    the items and, of every item, the quantity, price, originalQuantity,
    detectedPackSize and confidence.  An invoice without a supplier
    name is kept as it is, item names included: aliases are resolved
    only when the invoice names a supplier.  For ASCII names, a named
    supplier is kept when the name of no stored supplier contains the
    extracted name, without regard to case, and is otherwise replaced
    by the name and rif of a stored supplier whose name does. *)
Theorem resolveScan_frame :
  forall (data : InvoiceData.t) (db : Db.t),
    asciiSuppliers db ->
    (forall sup, InvoiceData.supplier data = Some sup ->
                 Text.isAscii (SupplierInfo.name sup) = true) ->
    exists out,
      Scanner.resolveScan data db = Ok out /\
      InvoiceData.currency out = InvoiceData.currency data /\
      length (InvoiceData.items out) = length (InvoiceData.items data) /\
      (forall i item,
          nth_error (InvoiceData.items data) i = Some item ->
          exists item',
            nth_error (InvoiceData.items out) i = Some item' /\
            InvoiceItem.quantity item' = InvoiceItem.quantity item /\
            InvoiceItem.price item' = InvoiceItem.price item /\
            InvoiceItem.originalQuantity item' = InvoiceItem.originalQuantity item /\
            InvoiceItem.detectedPackSize item' = InvoiceItem.detectedPackSize item /\
            InvoiceItem.confidence item' = InvoiceItem.confidence item) /\
      (InvoiceData.supplier data = None \/
       (exists sup, InvoiceData.supplier data = Some sup /\
                    SupplierInfo.name sup = EmptyString) ->
       out = data) /\
      (forall sup,
          InvoiceData.supplier data = Some sup ->
          SupplierInfo.name sup <> EmptyString ->
          ((forall e, In e (getSuppliers db) ->
                      ~ Text.containsText (Supplier.name e)
                          (SupplierInfo.name sup)) ->
           InvoiceData.supplier out = Some sup) /\
          ((exists e, In e (getSuppliers db) /\
                      Text.containsText (Supplier.name e)
                        (SupplierInfo.name sup)) ->
           exists e,
             In e (getSuppliers db) /\
             Text.containsText (Supplier.name e) (SupplierInfo.name sup) /\
             InvoiceData.supplier out
             = Some (SupplierInfo.mk (Supplier.name e) (Supplier.rif e)))).
Proof.
  intros [items supplier currency] db _ _. unfold Scanner.resolveScan.
  cbn [InvoiceData.supplier InvoiceData.items InvoiceData.currency].
  assert (forall i item,
             nth_error items i = Some item ->
             exists item',
               nth_error items i = Some item' /\
               InvoiceItem.quantity item' = InvoiceItem.quantity item /\
               InvoiceItem.price item' = InvoiceItem.price item /\
               InvoiceItem.originalQuantity item'
               = InvoiceItem.originalQuantity item /\
               InvoiceItem.detectedPackSize item'
               = InvoiceItem.detectedPackSize item /\
               InvoiceItem.confidence item' = InvoiceItem.confidence item)
    as Hsame.
  { intros i item Hi. exists item. repeat split; auto. }
  destruct supplier as [sup|].
  - destruct (SupplierInfo.name sup) as [|c n] eqn:En; cbn [Js.truthy].
    + eexists. split; [reflexivity|]. cbn.
      split; [reflexivity|]. split; [reflexivity|]. split; [exact Hsame|].
      split; [reflexivity|]. intros x [= <-] H. congruence.
    + destruct (find _ (getSuppliers db)) as [e|] eqn:F.
      * destruct (resolveInvoiceAliases_items items
                    (SupplierInfo.name
                       (SupplierInfo.mk (Supplier.name e) (Supplier.rif e))) db)
          as (out & -> & Hlen & Hitems).
        eexists. split; [reflexivity|]. cbn.
        split; [reflexivity|]. split; [exact Hlen|]. split; [exact Hitems|].
        split.
        -- intros [H|(x & [= <-] & H)]; [discriminate | congruence].
        -- intros x [= <-] _.
           apply find_some in F as [Hin Hinc].
           apply includes_containsText in Hinc. rewrite En. split.
           ++ intros Hno. exfalso. exact (Hno e Hin Hinc).
           ++ intros _. exists e. auto.
      * destruct (resolveInvoiceAliases_items items (SupplierInfo.name sup) db)
          as (out & -> & Hlen & Hitems).
        eexists. split; [reflexivity|]. cbn.
        split; [reflexivity|]. split; [exact Hlen|]. split; [exact Hitems|].
        split.
        -- intros [H|(x & [= <-] & H)]; [discriminate | congruence].
        -- intros x [= <-] _. rewrite En. split; [reflexivity|].
           intros (e & Hin & Hc). exfalso.
           apply includes_containsText in Hc.
           rewrite (proj1 (find_none_iff _ _) F e Hin) in Hc. discriminate.
  - eexists. split; [reflexivity|]. cbn.
    split; [reflexivity|]. split; [reflexivity|]. split; [exact Hsame|].
    split; [reflexivity|]. intros x H. discriminate.
Qed.

Lemma resolveScan_frame_witness :
  exists out,
    Scanner.resolveScan Sample.scan Sample.db = Ok out /\
    InvoiceData.supplier out = Some (SupplierInfo.mk "Acme" "J-1") /\
    map InvoiceItem.productName (InvoiceData.items out) = ["Harina Pan"; "Cafe"].
Proof.
  destruct (resolveScan_frame Sample.scan Sample.db)
    as (out & E & _ & _ & _ & _ & Hsup).
  - intros r [<-|[<-|[]]]; split; reflexivity.
  - intros sup [= <-]. reflexivity.
  - exists out. split; [exact E|].
    vm_compute in E. injection E as <-. split; reflexivity.
Defined.

Lemma getAll_online (db : Db.t) :
  Db.online db = true -> getAll db = Ok (map toProduct (Db.products db)).
Proof.
  intros Hon. unfold getAll, Db.select_products. rewrite Hon. reflexivity.
Qed.

Lemma or_else_nonempty (s d : string) :
  s <> EmptyString -> Js.or_else s d = s.
Proof. intros H. destruct s; [congruence | reflexivity]. Qed.

Lemma unquoted_spliceable (s : string) :
  unquoted s = true -> Db.spliceable s = true.
Proof.
  induction s as [|c s IH]; [reflexivity|]. cbn [unquoted Db.spliceable].
  rewrite !andb_true_iff, !negb_true_iff, !orb_false_iff.
  intros [[[[[[Hc _] _] _] _] _] Hs]. split; [exact Hc | apply IH; exact Hs].
Qed.

Lemma literalName_parts (s : string) :
  literalName s = true ->
  Text.isAscii s = true /\ Db.spliceable s = true /\ plain s = true.
Proof.
  unfold literalName. rewrite !andb_true_iff. intros [[Ha Hu] Hp].
  split; [exact Ha|]. split; [apply unquoted_spliceable; exact Hu | exact Hp].
Qed.

(** The test of the lookup of [addSupplier], for a name without
    wildcards. *)
Lemma supplier_test (rif name : string) (r : SupplierRow.t) :
  plain name = true ->
  (String.eqb (SupplierRow.rif r) rif || Db.ilike (SupplierRow.name r) name
   = true
   <-> SupplierRow.rif r = rif \/ Text.sameText (SupplierRow.name r) name).
Proof.
  intros Hp. rewrite orb_true_iff, String.eqb_eq, (ilike_sameText _ _ Hp).
  tauto.
Qed.

Lemma supplier_test_false (rif name : string) (r : SupplierRow.t) :
  plain name = true ->
  (String.eqb (SupplierRow.rif r) rif || Db.ilike (SupplierRow.name r) name
   = false
   <-> SupplierRow.rif r <> rif /\ ~ Text.sameText (SupplierRow.name r) name).
Proof.
  intros Hp. rewrite orb_false_iff, String.eqb_neq, (ilike_not_sameText _ _ Hp).
  tauto.
Qed.

(** When one stored supplier exactly has the rif or the name,
    [addSupplier] answers it and stores nothing. *)
Lemma addSupplier_unique (name rif now : string) (db : Db.t)
  (l1 l2 : list SupplierRow.t) (e : SupplierRow.t) :
  Db.online db = true ->
  unquoted rif = true -> literalName name = true ->
  Db.suppliers db = l1 ++ e :: l2 ->
  SupplierRow.rif e = rif \/ Text.sameText (SupplierRow.name e) name ->
  (forall r, In r (l1 ++ l2) ->
             SupplierRow.rif r <> rif /\
             ~ Text.sameText (SupplierRow.name r) name) ->
  addSupplier name rif now db = (db, Ok (toSupplier e)).
Proof.
  intros Hon Hrif Hname E He Hothers.
  apply unquoted_spliceable in Hrif.
  apply literalName_parts in Hname as (_ & Hname & Hplain).
  unfold addSupplier, Db.select_supplier_rif_or_name.
  rewrite Hon, Hrif, Hname, E, filter_app. cbn [filter andb].
  rewrite (proj2 (supplier_test rif name e Hplain) He).
  rewrite (filter_none _ l1), (filter_none _ l2).
  - reflexivity.
  - intros r Hr. apply (supplier_test_false _ _ _ Hplain).
    apply Hothers. apply in_or_app. right; exact Hr.
  - intros r Hr. apply (supplier_test_false _ _ _ Hplain).
    apply Hothers. apply in_or_app. left; exact Hr.
Qed.

Lemma confirmedCurrency_other (c : ascii) (s : string) :
  String c s <> "Bs" -> confirmedCurrency (Some (String c s)) = USD.
Proof.
  intros N. unfold confirmedCurrency.
  destruct c as [[] [] [] [] [] [] [] []]; try reflexivity.
  destruct s as [|d s]; [reflexivity|].
  destruct d as [[] [] [] [] [] [] [] []]; try reflexivity.
  destruct s; [congruence | reflexivity].
Qed.

Lemma confirmedCurrency_currencyOf (currency : option string) :
  Scanner.currencyOf (Js.opt_or_else currency "Bs") = confirmedCurrency currency.
Proof.
  destruct currency as [[|c s]|]; [reflexivity| |reflexivity].
  change (Js.opt_or_else (Some (String c s)) "Bs") with (String c s).
  unfold Scanner.currencyOf.
  destruct (String.eqb_spec (String c s) "Bs") as [E|N].
  - rewrite E. reflexivity.
  - symmetry. apply confirmedCurrency_other. exact N.
Qed.

(** [updateStock] when the registration answers the stored supplier
    [e]. *)
Lemma updateStock_with_supplier (items : list InvoiceItem.t)
  (si : SupplierInfo.t) (invoiceCurrency : Currency) (exchangeRate : Q)
  (now : string) (db : Db.t) (e : SupplierRow.t) :
  Db.online db = true ->
  SupplierInfo.name si <> EmptyString ->
  addSupplier (SupplierInfo.name si) (Js.or_else (SupplierInfo.rif si) "N/A")
    now db = (db, Ok (toSupplier e)) ->
  let out := updateStock items (Some si) invoiceCurrency exchangeRate now db in
  (exists products, snd out = Ok products) /\
  Db.suppliers (fst out) = Db.suppliers db /\
  registeredId (Some si) now db = Some (SupplierRow.id e).
Proof.
  intros Hon Hname Hadd out. subst out.
  assert (registeredId (Some si) now db = Some (SupplierRow.id e)) as Hid.
  { unfold registeredId. destruct (SupplierInfo.name si) as [|c n] eqn:En;
      [congruence|].
    assert (match SupplierInfo.rif si with
            | EmptyString => "N/A"
            | rif => rif
            end = Js.or_else (SupplierInfo.rif si) "N/A") as ->
        by (unfold Js.or_else; destruct (SupplierInfo.rif si); reflexivity).
    rewrite Hadd. reflexivity. }
  split; [|split; [|exact Hid]].
  - destruct (updateStock_loop (Some si) invoiceCurrency exchangeRate now db
                Hon) as (db0 & Hon0 & _ & _ & E).
    rewrite E. cbn [snd]. rewrite getAll_online; [eexists; reflexivity|].
    apply updateStock_items_online. exact Hon0.
  - unfold updateStock.
    destruct (SupplierInfo.name si) as [|c n] eqn:En; [congruence|].
    cbn [Js.truthy]. rewrite Hadd. cbn [fst].
    apply updateStock_items_extends.
Qed.

(** X17. Confirming a scan whose supplier is a stored supplier, as the
    scanner writes it when it recognises the name, stores no second
    supplier.  For ASCII names and rifs that the lookup takes as they
    are written: when that supplier has a name and a rif, and no other
    stored supplier has its rif or its name but for case,
    [handleConfirm] succeeds, leaves the suppliers as they are and has
    [updateStock] process the items with the id of that supplier, in Bs
    unless a currency other than "Bs" was detected. *)
Theorem handleConfirm_known_supplier :
  forall (sr : InvoiceData.t) (exchangeRate : Q) (now : string) (db : Db.t)
         (l1 l2 : list SupplierRow.t) (e : SupplierRow.t),
    let out := Scanner.handleConfirm (Some sr) exchangeRate now db in
    Db.online db = true ->
    asciiSuppliers db ->
    Db.suppliers db = l1 ++ e :: l2 ->
    InvoiceData.supplier sr
    = Some (SupplierInfo.mk (SupplierRow.name e) (SupplierRow.rif e)) ->
    SupplierRow.name e <> EmptyString ->
    SupplierRow.rif e <> EmptyString ->
    literalName (SupplierRow.name e) = true ->
    unquoted (SupplierRow.rif e) = true ->
    (forall r, In r (l1 ++ l2) ->
               SupplierRow.rif r <> SupplierRow.rif e /\
               ~ Text.sameText (SupplierRow.name r) (SupplierRow.name e)) ->
    snd out = Ok None /\
    Db.suppliers (fst out) = Db.suppliers db /\
    registeredId (InvoiceData.supplier sr) now db = Some (SupplierRow.id e) /\
    fst out
    = fst (updateStock (InvoiceData.items sr) (InvoiceData.supplier sr)
             (confirmedCurrency (InvoiceData.currency sr)) exchangeRate now db).
Proof.
  intros sr rate now db l1 l2 e out Hon _ E Hsup Hname Hrif Hlit Hunq Hothers.
  subst out. unfold Scanner.handleConfirm.
  rewrite confirmedCurrency_currencyOf, Hsup.
  set (si := SupplierInfo.mk (SupplierRow.name e) (SupplierRow.rif e)).
  assert (addSupplier (SupplierInfo.name si)
            (Js.or_else (SupplierInfo.rif si) "N/A") now db
          = (db, Ok (toSupplier e))) as Hadd.
  { cbn [si SupplierInfo.name SupplierInfo.rif].
    rewrite (or_else_nonempty _ "N/A" Hrif).
    apply (addSupplier_unique _ _ now db l1 l2 e Hon Hunq Hlit E).
    - left. reflexivity.
    - exact Hothers. }
  destruct (updateStock_with_supplier (InvoiceData.items sr) si
              (confirmedCurrency (InvoiceData.currency sr))
              rate now db e Hon Hname Hadd) as ((products & Hok) & Hs & Hid).
  destruct (updateStock _ _ _ _ _ _) as [db' [ps|msg]]; cbn [fst snd] in *;
    [auto | discriminate].
Qed.

Lemma handleConfirm_known_supplier_witness :
  Db.suppliers
    (fst (Scanner.handleConfirm
            (Some (InvoiceData.mk [Sample.item "Cafe" 24 (2 # 1)]
                     (Some (SupplierInfo.mk "Acme" "J-1")) (Some "USD")))
            (40 # 1) "t1" Sample.db))
  = Db.suppliers Sample.db /\
  registeredId (Some (SupplierInfo.mk "Acme" "J-1")) "t1" Sample.db = Some "s1".
Proof.
  destruct (handleConfirm_known_supplier
              (InvoiceData.mk [Sample.item "Cafe" 24 (2 # 1)]
                 (Some (SupplierInfo.mk "Acme" "J-1")) (Some "USD"))
              (40 # 1) "t1" Sample.db [] [Sample.beta] Sample.acme
              eq_refl) as (_ & Hs & Hid & _).
  - intros r [<-|[<-|[]]]; split; reflexivity.
  - reflexivity.
  - reflexivity.
  - discriminate.
  - discriminate.
  - reflexivity.
  - reflexivity.
  - intros r [<-|[]]. split; [discriminate|].
    intros H. apply toLowerCase_sameText in H. discriminate H.
  - split; [exact Hs | exact Hid].
Defined.

(** X22. An invoice whose supplier has a name but no rif is registered
    under the rif "N/A".  For ASCII names that the lookup takes as they
    are written: when one stored supplier has the rif "N/A" and no
    stored supplier has the name of the invoice's supplier but for
    case, [updateStock] succeeds, stores no supplier for that name and
    processes the items with the id of the supplier stored under "N/A",
    whatever its name is. *)
Theorem updateStock_without_rif :
  forall (items : list InvoiceItem.t) (name : string)
         (invoiceCurrency : Currency) (exchangeRate : Q) (now : string)
         (db : Db.t) (l1 l2 : list SupplierRow.t) (e : SupplierRow.t),
    let si := SupplierInfo.mk name EmptyString in
    let out := updateStock items (Some si) invoiceCurrency exchangeRate
                 now db in
    Db.online db = true ->
    asciiSuppliers db ->
    name <> EmptyString ->
    literalName name = true ->
    Db.suppliers db = l1 ++ e :: l2 ->
    SupplierRow.rif e = "N/A" ->
    (forall r, In r (l1 ++ l2) -> SupplierRow.rif r <> "N/A") ->
    (forall r, In r (Db.suppliers db) ->
               ~ Text.sameText (SupplierRow.name r) name) ->
    (exists products, snd out = Ok products) /\
    Db.suppliers (fst out) = Db.suppliers db /\
    registeredId (Some si) now db = Some (SupplierRow.id e).
Proof.
  intros items name cur rate now db l1 l2 e si out
         Hon _ Hname Hlit E Hrif Hothers Hnames.
  apply updateStock_with_supplier; [exact Hon | exact Hname|].
  cbn [si SupplierInfo.name SupplierInfo.rif Js.or_else Js.truthy].
  apply (addSupplier_unique name "N/A" now db l1 l2 e Hon eq_refl Hlit E).
  - left. exact Hrif.
  - intros r Hr. split; [apply Hothers; exact Hr|].
    apply Hnames. rewrite E.
    apply in_app_or in Hr as [Hr|Hr]; apply in_or_app;
      [left; exact Hr | right; right; exact Hr].
Qed.

Lemma updateStock_without_rif_witness :
  Db.suppliers
    (fst (updateStock [Sample.item "Cafe" 24 (2 # 1)]
            (Some (SupplierInfo.mk "Distribuidora Sur" "")) USD (1 # 1) "t1"
            Sample.unnamed))
  = Db.suppliers Sample.unnamed /\
  registeredId (Some (SupplierInfo.mk "Distribuidora Sur" "")) "t1"
    Sample.unnamed = Some "s3".
Proof.
  destruct (updateStock_without_rif [Sample.item "Cafe" 24 (2 # 1)]
              "Distribuidora Sur" USD (1 # 1) "t1" Sample.unnamed
              [Sample.acme] [] Sample.kiosk eq_refl) as (_ & Hs & Hid).
  - intros r [<-|[<-|[]]]; split; reflexivity.
  - discriminate.
  - reflexivity.
  - reflexivity.
  - reflexivity.
  - intros r [<-|[]]. discriminate.
  - intros r [<-|[<-|[]]] H; apply toLowerCase_sameText in H; discriminate H.
  - split; [exact Hs | exact Hid].
Defined.

(** X21. On a reachable database, for an ASCII name and a rif that the
    lookup takes as they are written, [addSupplier] always answers a
    supplier, and [getSuppliers] lists it afterwards.  Either it is a
    supplier that was stored, with the given rif or with the given name
    but for case, and nothing is stored; or it is a new supplier with
    the given name and rif and [now] as first sighting, stored beside
    the others. *)
Theorem addSupplier_stored :
  forall (name rif now : string) (db : Db.t),
    let out := addSupplier name rif now db in
    Db.online db = true ->
    asciiSuppliers db ->
    literalName name = true ->
    unquoted rif = true ->
    exists s,
      snd out = Ok s /\
      In s (getSuppliers (fst out)) /\
      ((fst out = db /\
        In s (getSuppliers db) /\
        (Supplier.rif s = rif \/ Text.sameText (Supplier.name s) name)) \/
       (Permutation (getSuppliers (fst out)) (s :: getSuppliers db) /\
        Supplier.name s = name /\ Supplier.rif s = rif /\
        Supplier.firstSeen s = now)).
Proof.
  intros name rif now db out Hon _ Hlit Hunq. subst out.
  apply unquoted_spliceable in Hunq.
  apply literalName_parts in Hlit as (_ & Hname & Hplain).
  unfold addSupplier, Db.select_supplier_rif_or_name, Db.insert_supplier.
  rewrite Hon, Hunq, Hname. cbn [andb].
  assert (getSuppliers db = map toSupplier (Db.suppliers db)) as Hget.
  { unfold getSuppliers, Db.select_suppliers. rewrite Hon. reflexivity. }
  assert (forall row,
             let db1 := Db.mk true (Db.products db) (Db.suppliers db ++ [row])
                          (Db.activity_logs db) (S (Db.next_id db)) in
             getSuppliers db1 = getSuppliers db ++ [toSupplier row]) as Hnew.
  { intros row. cbv zeta. rewrite Hget. unfold getSuppliers, Db.select_suppliers.
    cbn. rewrite map_app. reflexivity. }
  destruct (filter _ (Db.suppliers db)) as [|x [|y rest]] eqn:F;
    cbn [Db.single fst snd].
  - eexists. split; [reflexivity|]. rewrite Hnew.
    split; [apply in_or_app; right; left; reflexivity|].
    right. split; [symmetry; apply Permutation_cons_append|]. cbn. auto.
  - exists (toSupplier x). split; [reflexivity|].
    assert (In x (filter (fun r => String.eqb (SupplierRow.rif r) rif
                                   || Db.ilike (SupplierRow.name r) name)
                         (Db.suppliers db))) as Hx
        by (rewrite F; left; reflexivity).
    apply filter_In in Hx as [Hin Hp].
    assert (In (toSupplier x) (getSuppliers db)) as Hin'
        by (rewrite Hget; apply in_map; exact Hin).
    split; [exact Hin'|]. left. split; [reflexivity|]. split; [exact Hin'|].
    cbn. apply (supplier_test _ _ _ Hplain). exact Hp.
  - eexists. split; [reflexivity|]. rewrite Hnew.
    split; [apply in_or_app; right; left; reflexivity|].
    right. split; [symmetry; apply Permutation_cons_append|]. cbn. auto.
Qed.

Lemma addSupplier_stored_witness :
  exists s,
    snd (addSupplier "ACME" "J-0" "t1" Sample.db) = Ok s /\
    In s (getSuppliers (fst (addSupplier "ACME" "J-0" "t1" Sample.db))) /\
    s = toSupplier Sample.acme.
Proof.
  destruct (addSupplier_stored "ACME" "J-0" "t1" Sample.db eq_refl)
    as (s & Hs & Hin & _).
  - intros r [<-|[<-|[]]]; split; reflexivity.
  - reflexivity.
  - reflexivity.
  - exists s. split; [exact Hs|]. split; [exact Hin|].
    vm_compute in Hs. injection Hs as <-. reflexivity.
Defined.

(* ================================================================= *)
(** ** Reloading after a manual change *)

Lemma sendLowStockAlert_nonempty (userEmail : string) (l : list Product.t) :
  EmailService.sendLowStockAlert userEmail l = (0 <? length l)%nat.
Proof. destruct l; reflexivity. Qed.

(** X20. After a manual change [handleManualUpdate] reloads the
    inventory and always ends with a notification that is a warning or
    a success, never an error.  It is the warning that a low-stock
    alert was sent exactly when the catalog could be read, the user has
    an e-mail address and [getStats] counts at least one product at or
    under its minimum stock.  When the catalog cannot be read, the
    error is recorded and the inventory shown is kept, but the
    notification still says that the inventory was updated. *)
Theorem handleManualUpdate_notification :
  forall (db : Db.t) (st : App.State),
    let st' := App.handleManualUpdate db st in
    exists msg type,
      App.notification st' = Some (msg, type) /\
      type <> App.error /\
      (type = App.warning <->
       Db.online db = true /\
       (exists u, App.user st = Some u /\ User.email u <> EmptyString) /\
       (0 < lowStockCount (getStats db))%nat) /\
      (Db.online db = false ->
       type = App.success /\ msg = "Inventario actualizado." /\
       App.dbError st' <> None /\ App.inventory st' = App.inventory st) /\
      (Db.online db = true ->
       App.inventory st' = map toProduct (Db.products db) /\
       App.dbError st' = None /\ App.stats st' = getStats db).
Proof.
  intros db st st'. subst st'.
  unfold App.handleManualUpdate, App.refreshData, getStats.
  unfold getAll, Db.select_products.
  destruct (Db.online db) eqn:Hon.
  - set (data := map toProduct (Db.products db)).
    cbn [App.user lowStockCount].
    set (low := filter (fun p => Product.quantity p <=? Product.minStock p) data).
    rewrite sendLowStockAlert_nonempty.
    destruct (App.user st) as [u|] eqn:Hu.
    + destruct (User.email u) as [|c mail] eqn:Hmail; cbn [Js.truthy].
      * rewrite andb_false_r. cbn [andb].
        eexists _, _. split; [reflexivity|]. split; [discriminate|].
        split; [|split; [discriminate|]].
        -- split; [discriminate|].
           intros (_ & (u' & [= <-] & Hne) & _). congruence.
        -- intros _. cbn. auto.
      * rewrite andb_true_r.
        destruct (0 <? length low)%nat eqn:Hlow.
        -- assert ((0 <? length data)%nat = true) as ->.
           { apply Nat.ltb_lt. apply Nat.ltb_lt in Hlow.
             pose proof (filter_length_le
                           (fun p => Product.quantity p <=? Product.minStock p)
                           data). fold low in H. lia. }
           cbn [andb].
           eexists _, _. split; [reflexivity|]. split; [discriminate|].
           split; [|split; [discriminate|]].
           ++ split; [|reflexivity]. intros _. split; [reflexivity|].
              split; [exists u; split; [reflexivity | congruence]|].
              apply Nat.ltb_lt. exact Hlow.
           ++ intros _. cbn. auto.
        -- rewrite andb_false_r.
           eexists _, _. split; [reflexivity|]. split; [discriminate|].
           split; [|split; [discriminate|]].
           ++ split; [discriminate|]. intros (_ & _ & H).
              apply Nat.ltb_lt in H. congruence.
           ++ intros _. cbn. auto.
    + cbn [Js.truthy]. rewrite andb_false_r. cbn [andb].
      eexists _, _. split; [reflexivity|]. split; [discriminate|].
      split; [|split; [discriminate|]].
      * split; [discriminate|]. intros (_ & (u' & H & _) & _). discriminate.
      * intros _. cbn. auto.
  - cbn [length Nat.ltb Nat.leb andb].
    eexists _, _. split; [reflexivity|]. split; [discriminate|].
    split; [|split].
    + split; [discriminate|]. intros (H & _). discriminate.
    + intros _. cbn. repeat split; auto. discriminate.
    + discriminate.
Qed.

Lemma handleManualUpdate_notification_witness :
  exists msg,
    App.notification
      (App.handleManualUpdate Sample.offline
         (App.mkState None [] (mkStats 0 0%Q 0) None None INVENTORY))
    = Some (msg, App.success).
Proof.
  destruct (handleManualUpdate_notification Sample.offline
              (App.mkState None [] (mkStats 0 0%Q 0) None None INVENTORY))
    as (msg & type & Hn & _ & _ & Hoff & _).
  destruct (Hoff eq_refl) as (-> & _).
  exists msg. exact Hn.
Defined.

(* ================================================================= *)
(** ** Other edits *)

(** X23. Renaming the item at [index] of the scanned invoice, or
    changing its category, changes that one field of that one item:
    the quantity, price and pack data of the item, the other items,
    their number and order, the supplier and the currency stay. *)
Theorem handleNameAndCategoryChange_effect :
  forall (index : nat) (text : string) (sr : InvoiceData.t)
         (item : InvoiceItem.t),
    nth_error (InvoiceData.items sr) index = Some item ->
    (exists sr',
        Scanner.handleProductNameChange index text (Some sr) = Some sr' /\
        InvoiceData.supplier sr' = InvoiceData.supplier sr /\
        InvoiceData.currency sr' = InvoiceData.currency sr /\
        length (InvoiceData.items sr') = length (InvoiceData.items sr) /\
        nth_error (InvoiceData.items sr') index
        = Some (InvoiceItem.mk text (InvoiceItem.quantity item)
                  (InvoiceItem.price item) (InvoiceItem.confidence item)
                  (InvoiceItem.originalQuantity item)
                  (InvoiceItem.detectedPackSize item)
                  (InvoiceItem.category item)) /\
        forall j, j <> index ->
                  nth_error (InvoiceData.items sr') j
                  = nth_error (InvoiceData.items sr) j) /\
    (exists sr',
        Scanner.handleCategoryChange index text (Some sr) = Some sr' /\
        InvoiceData.supplier sr' = InvoiceData.supplier sr /\
        InvoiceData.currency sr' = InvoiceData.currency sr /\
        length (InvoiceData.items sr') = length (InvoiceData.items sr) /\
        nth_error (InvoiceData.items sr') index
        = Some (InvoiceItem.mk (InvoiceItem.productName item)
                  (InvoiceItem.quantity item)
                  (InvoiceItem.price item) (InvoiceItem.confidence item)
                  (InvoiceItem.originalQuantity item)
                  (InvoiceItem.detectedPackSize item)
                  (Some text)) /\
        forall j, j <> index ->
                  nth_error (InvoiceData.items sr') j
                  = nth_error (InvoiceData.items sr) j).
Proof.
  intros index text sr item Hnth. split.
  - unfold Scanner.handleProductNameChange.
    eexists. split; [reflexivity|].
    cbn [Scanner.withItems InvoiceData.supplier InvoiceData.currency
         InvoiceData.items].
    split; [reflexivity|]. split; [reflexivity|].
    exact (setItem_nth
             (fun it => InvoiceItem.mk text (InvoiceItem.quantity it)
                          (InvoiceItem.price it) (InvoiceItem.confidence it)
                          (InvoiceItem.originalQuantity it)
                          (InvoiceItem.detectedPackSize it)
                          (InvoiceItem.category it))
             _ _ _ Hnth).
  - unfold Scanner.handleCategoryChange.
    eexists. split; [reflexivity|].
    cbn [Scanner.withItems InvoiceData.supplier InvoiceData.currency
         InvoiceData.items].
    split; [reflexivity|]. split; [reflexivity|].
    exact (setItem_nth
             (fun it => InvoiceItem.mk (InvoiceItem.productName it)
                          (InvoiceItem.quantity it)
                          (InvoiceItem.price it) (InvoiceItem.confidence it)
                          (InvoiceItem.originalQuantity it)
                          (InvoiceItem.detectedPackSize it)
                          (Some text))
             _ _ _ Hnth).
Qed.

Lemma handleNameAndCategoryChange_effect_witness :
  exists sr',
    Scanner.handleProductNameChange 1 "Cafe Molido" (Some Sample.scan) = Some sr' /\
    length (InvoiceData.items sr') = 2%nat.
Proof.
  destruct (handleNameAndCategoryChange_effect 1 "Cafe Molido" Sample.scan
              (Sample.item "Cafe" 24 (2 # 1)) eq_refl)
    as ((sr' & E & _ & _ & Hlen & _) & _).
  exists sr'. split; [exact E | exact Hlen].
Defined.

(** X24. Saving the edit box of a product never touches its quantity,
    name, category or supplier, nor any other product; the product gets
    the minimum stock of the box.  In USD, saving the values the box
    was opened with leaves the stored product as it was but for the
    date of its last update. *)
Theorem handleSave_effect :
  forall (id : string) (editValues : InventoryTable.EditValues)
         (currency : Currency) (exchangeRate : Q) (now : string) (db : Db.t),
    Db.online db = true ->
    let out := InventoryTable.handleSave id editValues currency exchangeRate
                 now db in
    Forall2 (fun r r' =>
               (ProductRow.id r <> id -> r' = r) /\
               (ProductRow.id r = id ->
                ProductRow.quantity r' = ProductRow.quantity r /\
                ProductRow.id r' = ProductRow.id r /\
                ProductRow.name r' = ProductRow.name r /\
                ProductRow.category r' = ProductRow.category r /\
                ProductRow.supplier_id r' = ProductRow.supplier_id r /\
                ProductRow.min_stock r' = InventoryTable.minStock editValues /\
                ProductRow.last_updated r' = now /\
                (currency = USD ->
                 editValues = InventoryTable.handleEditClick USD exchangeRate
                                (toProduct r) ->
                 r' = ProductRow.mk (ProductRow.id r) (ProductRow.name r)
                        (ProductRow.quantity r) (ProductRow.min_stock r)
                        (ProductRow.price r) (ProductRow.category r) now
                        (ProductRow.supplier_id r))))
            (Db.products db) (Db.products (fst out)).
Proof.
  intros id editValues currency rate now db Hon out. subst out.
  unfold InventoryTable.handleSave, updateProductDetails.
  rewrite update_products_online by exact Hon.
  cbn [fst Db.products PartialProduct.quantity PartialProduct.minStock
       PartialProduct.price].
  apply Forall2_map_right. intros r.
  destruct (String.eqb_spec (ProductRow.id r) id) as [E|N].
  - split; [intros H; contradiction|]. intros _. cbn.
    repeat split; auto. intros -> ->. reflexivity.
  - split; [reflexivity | intros H; contradiction].
Qed.

Lemma handleSave_effect_witness :
  length
    (Db.products
       (fst (InventoryTable.handleSave "p1"
               (InventoryTable.handleEditClick USD (40 # 1)
                  (toProduct Sample.harina))
               USD (40 # 1) "t1" Sample.db)))
  = 2%nat.
Proof.
  pose proof (handleSave_effect "p1"
                (InventoryTable.handleEditClick USD (40 # 1)
                   (toProduct Sample.harina))
                USD (40 # 1) "t1" Sample.db eq_refl) as H.
  apply Forall2_length in H. symmetry. exact H.
Defined.

(** *** The totals of the review screen *)

Lemma num_or_nonneg (q : Q) : (0 <= q)%Q -> (0 <= Js.num_or (Some q) 0)%Q.
Proof.
  intros Hq. cbn. destruct (Qeq_bool q 0); [apply Qle_refl | exact Hq].
Qed.

Lemma Qplus_nonneg (a b : Q) : (0 <= a)%Q -> (0 <= b)%Q -> (0 <= a + b)%Q.
Proof.
  intros Ha Hb. rewrite <- (Qplus_0_r 0). apply Qplus_le_compat; assumption.
Qed.

Lemma lineTotal_nonneg (item : InvoiceItem.t) :
  0 <= Scanner.billedQuantity item -> (0 <= InvoiceItem.price item)%Q ->
  (0 <= Scanner.lineTotal item)%Q.
Proof.
  intros Hq Hp. unfold Scanner.lineTotal.
  apply Qmult_le_0_compat; [|exact Hp].
  change 0%Q with (inject_Z 0). rewrite <- Zle_Qle. exact Hq.
Qed.

Lemma addToCategory_nonneg (cat : string) (total : Q)
  (acc : list (string * Q)) :
  (0 <= total)%Q ->
  Forall (fun kv => (0 <= snd kv)%Q) acc ->
  Forall (fun kv => (0 <= snd kv)%Q) (Scanner.addToCategory cat total acc).
Proof.
  intros Ht Hacc. induction Hacc as [|[k v] acc Hv Hacc IH].
  - cbn. constructor; [|constructor]. cbn.
    apply Qplus_nonneg; [apply Qle_refl | exact Ht].
  - cbn [Scanner.addToCategory]. destruct (String.eqb k cat).
    + constructor; [|exact Hacc]. cbn [snd].
      apply Qplus_nonneg; [apply num_or_nonneg; exact Hv | exact Ht].
    + constructor; [exact Hv | exact IH].
Qed.

(** X25. When no item of the scanned invoice has a negative billed
    quantity (the original quantity, or the total quantity when the
    original one is missing or zero) or a negative price, the estimated
    total of the invoice is not negative; and when moreover the
    categories of the items are ordinary keys of an object, the total
    of every category of the breakdown is not negative. *)
Theorem review_totals_nonneg :
  forall sr : InvoiceData.t,
    (forall item, In item (InvoiceData.items sr) ->
                  0 <= Scanner.billedQuantity item /\
                  (0 <= InvoiceItem.price item)%Q) ->
    (0 <= Scanner.totalEstimate (Some sr))%Q /\
    ((forall item, In item (InvoiceData.items sr) ->
                   Js.ordinaryKey (categoryLabel item) = true) ->
     forall cat total,
       In (cat, total) (Scanner.categoryTotals (Some sr)) -> (0 <= total)%Q).
Proof.
  intros sr Hitems. split.
  - unfold Scanner.totalEstimate. apply num_or_nonneg.
    assert (forall a, (0 <= a)%Q ->
              (0 <= fold_left (fun acc item => acc + Scanner.lineTotal item)%Q
                              (InvoiceData.items sr) a)%Q) as H.
    { revert Hitems. generalize (InvoiceData.items sr). intros items.
      induction items as [|item items IH]; intros Hitems a Ha; [exact Ha|].
      cbn [fold_left]. apply IH.
      - intros x Hx. apply Hitems. right; exact Hx.
      - destruct (Hitems item (or_introl eq_refl)) as [Hq Hp].
        apply Qplus_nonneg; [exact Ha | apply lineTotal_nonneg; assumption]. }
    apply H. apply Qle_refl.
  - intros _. unfold Scanner.categoryTotals.
    assert (forall acc,
              Forall (fun kv => (0 <= snd kv)%Q) acc ->
              Forall (fun kv => (0 <= snd kv)%Q)
                (fold_left
                   (fun acc item =>
                      Scanner.addToCategory
                        (Js.opt_or_else (InvoiceItem.category item) "Sin Categoría")
                        (Scanner.lineTotal item) acc)
                   (InvoiceData.items sr) acc)) as H.
    { revert Hitems. generalize (InvoiceData.items sr). intros items.
      induction items as [|item items IH]; intros Hitems acc Hacc; [exact Hacc|].
      cbn [fold_left]. apply IH.
      - intros x Hx. apply Hitems. right; exact Hx.
      - destruct (Hitems item (or_introl eq_refl)) as [Hq Hp].
        apply addToCategory_nonneg; [apply lineTotal_nonneg; assumption | exact Hacc]. }
    intros cat total Hin.
    specialize (H [] (Forall_nil _)). rewrite Forall_forall in H.
    exact (H (cat, total) Hin).
Qed.

Lemma review_totals_nonneg_witness :
  (0 <= Scanner.totalEstimate (Some Sample.scan))%Q /\
  forall cat total,
    In (cat, total) (Scanner.categoryTotals (Some Sample.scan)) ->
    (0 <= total)%Q.
Proof.
  destruct (review_totals_nonneg Sample.scan) as (Htotal & Hcat).
  - intros item [<-|[<-|[]]]; cbn; split; try lia; unfold Qle; cbn; lia.
  - split; [exact Htotal|]. apply Hcat.
    intros item [<-|[<-|[]]]; reflexivity.
Defined.
